(** * SavingsBondWizard: the SBW reader of [sbw_convert.py]

    A shallow embedding of the reader ([gb_doc_sbw_open], [read_sbw2],
    [read_sbw4], [gb_doc_bond_new], [gb_date_fmt]) and of the tabular
    writer ([GBDoc.to_csv]), together with the interpreter operations they
    call: binary file reads, [bytes] and [str] methods, [struct.unpack],
    [int], [float], [repr] of a float, UTF-8 decoding and the month
    arithmetic of [relativedelta]. *)

From Stdlib Require Import Strings.String Strings.Byte.
From Stdlib Require Import List ZArith NArith Lia Bool.
Import ListNotations.
Local Open Scope list_scope.

(** * Values of the interpreter *)

(** A [bytes] object is a list of bytes; a [str] object is the list of its
    Unicode code points. *)
Definition bytes := list byte.
Definition str := list N.

Definition b_lit (s : String.string) : bytes := String.list_byte_of_string s.
Definition s_lit (s : String.string) : str := map Byte.to_N (String.list_byte_of_string s).
Arguments b_lit s%_string.
Arguments s_lit s%_string.

(** The double quote, the comma and the line ends, as code points and as bytes. *)
Definition c_dquote : N := 34.
Definition c_comma : N := 44.
Definition c_cr : N := 13.
Definition c_lf : N := 10.
Definition b_dquote : byte := x22.
Definition b_lf : byte := x0a.

(** ** Generic sequence operations *)

Fixpoint list_eqb {A} (eqb : A -> A -> bool) (x y : list A) : bool :=
  match x, y with
  | [], [] => true
  | a :: x', b :: y' => eqb a b && list_eqb eqb x' y'
  | _, _ => false
  end.

(** [x.startswith(p)] *)
Fixpoint startswith {A} (eqb : A -> A -> bool) (x p : list A) : bool :=
  match p, x with
  | [], _ => true
  | b :: p', a :: x' => eqb a b && startswith eqb x' p'
  | _ :: _, [] => false
  end.

Fixpoint lstrip {A} (drop : A -> bool) (x : list A) : list A :=
  match x with
  | [] => []
  | a :: x' => if drop a then lstrip drop x' else x
  end.

Definition rstrip {A} (drop : A -> bool) (x : list A) : list A :=
  rev (lstrip drop (rev x)).

Definition strip {A} (drop : A -> bool) (x : list A) : list A :=
  rstrip drop (lstrip drop x).

Definition bytes_eqb : bytes -> bytes -> bool := list_eqb Byte.eqb.
Definition str_eqb : str -> str -> bool := list_eqb N.eqb.
Definition bytes_startswith : bytes -> bytes -> bool := startswith Byte.eqb.

(** [x in xs] for a list of [bytes] or of [str] *)
Definition bytes_in (x : bytes) (xs : list bytes) : bool := existsb (bytes_eqb x) xs.
Definition str_in (x : str) (xs : list str) : bool := existsb (str_eqb x) xs.

(** ** [bytes.strip()] and [str.strip()] *)

(** [bytes.strip()] removes ASCII whitespace: space, tab, line feed,
    vertical tab, form feed, carriage return. *)
Definition is_ascii_space (c : N) : bool :=
  ((9 <=? c) && (c <=? 13) || (c =? 32))%N.

Definition bytes_strip (x : bytes) : bytes :=
  strip (fun b => is_ascii_space (Byte.to_N b)) x.

(** [str.strip()] removes the code points for which [str.isspace] holds. *)
Definition is_unicode_space (c : N) : bool :=
  ((9 <=? c) && (c <=? 13) || (28 <=? c) && (c <=? 32)
   || (c =? 133) || (c =? 160) || (c =? 5760)
   || (8192 <=? c) && (c <=? 8202)
   || (c =? 8232) || (c =? 8233) || (c =? 8239) || (c =? 8287)
   || (c =? 12288))%N.

Definition str_strip (s : str) : str := strip is_unicode_space s.

(** [s.strip(chars)] *)
Definition str_strip_chars (chars : str) (s : str) : str :=
  strip (fun c => existsb (N.eqb c) chars) s.

(** ** [str.split(sep, maxsplit)] for a one-character separator *)

Fixpoint str_split (sep : N) (maxsplit : nat) (s : str) : list str :=
  match s with
  | [] => [[]]
  | c :: s' =>
      match maxsplit with
      | O => [s]
      | S m =>
          if (c =? sep)%N then [] :: str_split sep m s'
          else match str_split sep maxsplit s' with
               | f :: fs => (c :: f) :: fs
               | [] => [[c]]
               end
      end
  end.

(** ** [bytes.decode('utf-8')]

    The strict decoder: [None] stands for [UnicodeDecodeError].  Overlong
    forms, surrogates and code points above U+10FFFF are rejected by the
    ranges allowed for the first continuation byte. *)

Definition in_range (lo hi c : N) : bool := ((lo <=? c) && (c <=? hi))%N.
Definition cont_bits (c : N) : N := (c - 128)%N.

Fixpoint utf8_decode_N (x : list N) : option str :=
  match x with
  | [] => Some []
  | b0 :: x1 =>
      if (b0 <? 128)%N then option_map (cons b0) (utf8_decode_N x1)
      else if in_range 194 223 b0 then
        match x1 with
        | b1 :: x2 =>
            if in_range 128 191 b1
            then option_map (cons ((b0 - 192) * 64 + cont_bits b1)%N) (utf8_decode_N x2)
            else None
        | _ => None
        end
      else if in_range 224 239 b0 then
        match x1 with
        | b1 :: (b2 :: x3) =>
            let lo := if (b0 =? 224)%N then 160%N else 128%N in
            let hi := if (b0 =? 237)%N then 159%N else 191%N in
            if in_range lo hi b1 && in_range 128 191 b2
            then option_map
                   (cons ((b0 - 224) * 4096 + cont_bits b1 * 64 + cont_bits b2)%N)
                   (utf8_decode_N x3)
            else None
        | _ => None
        end
      else if in_range 240 244 b0 then
        match x1 with
        | b1 :: (b2 :: (b3 :: x4)) =>
            let lo := if (b0 =? 240)%N then 144%N else 128%N in
            let hi := if (b0 =? 244)%N then 143%N else 191%N in
            if in_range lo hi b1 && in_range 128 191 b2 && in_range 128 191 b3
            then option_map
                   (cons ((b0 - 240) * 262144 + cont_bits b1 * 4096
                          + cont_bits b2 * 64 + cont_bits b3)%N)
                   (utf8_decode_N x4)
            else None
        | _ => None
        end
      else None
  end.

Definition utf8_decode (x : bytes) : option str := utf8_decode_N (map Byte.to_N x).

(** ** Little-endian integers of [struct.unpack] *)

Fixpoint le_uint (x : bytes) : Z :=
  match x with
  | [] => 0
  | b :: x' => Z.of_N (Byte.to_N b) + 256 * le_uint x'
  end.

(** Field [i] of a buffer unpacked as consecutive [w]-byte unsigned integers. *)
Definition le_field (w i : nat) (buf : bytes) : Z :=
  le_uint (firstn w (skipn (w * i) buf)).

(** * The interpreter's character database

    [int], [float] and [str.upper] consult the Unicode character database
    for code points outside ASCII, and [int] enforces a configurable bound
    on the number of digits.  These depend on the interpreter that runs the
    script, so the reader is stated over any such interpreter. *)
Class Interpreter := {
  (** decimal digit value of a code point from 127 up, if it is a digit *)
  unicode_decimal : N -> option N;
  (** full upper-case mapping of a code point from 128 up *)
  unicode_upper : N -> list N;
  (** [sys.get_int_max_str_digits()]; 0 switches the bound off *)
  int_max_str_digits : N
}.

(** Decimal digits of a natural number, most significant first. *)
Fixpoint dec_digits_fuel (fuel : nat) (n : N) (acc : list N) : list N :=
  match fuel with
  | O => acc
  | S fuel' =>
      if (n <? 10)%N then n :: acc
      else dec_digits_fuel fuel' (n / 10)%N ((n mod 10)%N :: acc)
  end.

Definition dec_digits (n : N) : list N := dec_digits_fuel (S (N.to_nat (N.log2 n))) n [].

Definition digit_char (d : N) : N := (48 + d)%N.

(** [str(n)] for a natural number *)
Definition str_of_N (n : N) : str := map digit_char (dec_digits n).

(** * Floats

    A float is an IEEE binary64 value: [FFin neg m e] is [(-1)^neg * m * 2^e]
    with [m < 2^53] and [-1074 <= e <= 971], a normal number having
    [2^52 <= m]; zero is [FFin neg 0 0]. *)
Inductive pyfloat :=
| FFin (neg : bool) (m : N) (e : Z)
| FInf (neg : bool)
| FNan.

Definition pyfloat_eqb (x y : pyfloat) : bool :=
  match x, y with
  | FFin n1 m1 e1, FFin n2 m2 e2 => Bool.eqb n1 n2 && (m1 =? m2)%N && (e1 =? e2)%Z
  | FInf n1, FInf n2 => Bool.eqb n1 n2
  | FNan, FNan => true
  | _, _ => false
  end.

(** [0.0 <= x], false for a nan *)
Definition float_nonneg (x : pyfloat) : bool :=
  match x with
  | FFin neg m _ => negb neg || (m =? 0)%N
  | FInf neg => negb neg
  | FNan => false
  end.

Definition float_finite (x : pyfloat) : bool :=
  match x with FFin _ _ _ => true | _ => false end.

(** The integer that a float is, when it is one. *)
Definition float_integer (x : pyfloat) : option Z :=
  match x with
  | FFin neg m e =>
      let z := if neg then (- Z.of_N m)%Z else Z.of_N m in
      if (0 <=? e)%Z then Some (z * 2 ^ e)%Z
      else if (z mod 2 ^ (- e) =? 0)%Z then Some (z / 2 ^ (- e))%Z
      else None
  | _ => None
  end.

Local Open Scope Z_scope.

Definition scale2 (x e : Z) : Z := x * 2 ^ Z.max 0 e.
Definition scale10 (x e : Z) : Z := x * 10 ^ Z.max 0 e.

(** [p / q] rounded to the nearest integer, ties to even *)
Definition div_half_even (p q : Z) : Z :=
  let k := p / q in
  let r2 := 2 * (p mod q) in
  if r2 <? q then k
  else if q <? r2 then k + 1
  else if Z.even k then k else k + 1.

(** The binary64 nearest to [(-1)^neg * p / q] for [0 <= p] and [0 < q],
    ties to even; an infinity past the largest finite value. *)
Definition float_of_ratio (neg : bool) (p q : Z) : pyfloat :=
  if p =? 0 then FFin neg 0 0
  else
    let e1 := Z.log2 p - Z.log2 q in
    let lg := if scale2 p (- e1) <? scale2 q e1 then e1 - 1 else e1 in
    let e := Z.max (lg - 52) (-1074) in
    let m := div_half_even (scale2 p (- e)) (scale2 q e) in
    let '(m, e) := if m =? 2 ^ 53 then (2 ^ 52, e + 1) else (m, e) in
    if 971 <? e then FInf neg
    else if m =? 0 then FFin neg 0 0
    else FFin neg (Z.to_N m) e.

(** The binary64 nearest to [(-1)^neg * m * 10^e10] *)
Definition float_of_decimal (neg : bool) (m : Z) (e10 : Z) : pyfloat :=
  float_of_ratio neg (scale10 m e10) (scale10 1 (- e10)).

(** ** [repr] of a float: the shortest digits that read back as the same
    value, the nearest such digits when there are several *)

Fixpoint log10_adjust (fuel : nat) (p q k : Z) : Z :=
  match fuel with
  | O => k
  | S fuel' =>
      if scale10 p (- k) <? scale10 q k then log10_adjust fuel' p q (k - 1)
      else if scale10 q (k + 1) <=? scale10 p (- (k + 1))
           then log10_adjust fuel' p q (k + 1)
           else k
  end.

(** [floor (log10 (p / q))] for positive [p] and [q] *)
Definition floor_log10 (p q : Z) : Z :=
  log10_adjust 8 p q (((Z.log2 p - Z.log2 q) * 30103) / 100000).

(** The [nd]-digit decimal nearest to [p / q] that reads back as [x], if any:
    the integer of its digits; its scale is [k - nd + 1]. *)
Definition repr_candidate (x : pyfloat) (p q k nd : Z) : option Z :=
  let s := k - nd + 1 in
  let num := scale10 p (- s) in
  let den := scale10 q s in
  let lo := num / den in
  let hi := lo + 1 in
  let back c := pyfloat_eqb (float_of_decimal false c s) x in
  let r2 := 2 * (num mod den) in
  match back lo, back hi with
  | true, true =>
      if r2 <? den then Some lo
      else if den <? r2 then Some hi
      else if Z.even lo then Some lo else Some hi
  | true, false => Some lo
  | false, true => Some hi
  | false, false => None
  end.

Fixpoint shortest_digits (fuel : nat) (x : pyfloat) (p q k nd : Z) : Z * Z :=
  match fuel with
  | O => (p / q, 0)
  | S fuel' =>
      match repr_candidate x p q k nd with
      | Some c => (c, k - nd + 1)
      | None => shortest_digits fuel' x p q k (nd + 1)
      end
  end.

Definition strip_trailing_zeros (ds : list N) : list N :=
  match rstrip (N.eqb 0) ds with
  | [] => [0%N]
  | ds' => ds'
  end.

Definition zeros (n : Z) : str := repeat 48%N (Z.to_nat n).

(** Layout of the digits [ds] with the decimal point after [decpt] of them:
    positional when [-4 < decpt <= 16], with an exponent otherwise. *)
Definition repr_layout (ds : list N) (decpt : Z) : str :=
  let cs := map digit_char ds in
  let n := Z.of_nat (length cs) in
  if (decpt <=? -4) || (16 <? decpt) then
    let ex := decpt - 1 in
    let exd := str_of_N (Z.to_N (Z.abs ex)) in
    let exd := if Z.abs ex <? 10 then 48%N :: exd else exd in
    firstn 1 cs
      ++ (match skipn 1 cs with [] => [] | rest => 46%N :: rest end)
      ++ [101%N; if ex <? 0 then 45%N else 43%N] ++ exd
  else if decpt <=? 0 then
    [48%N; 46%N] ++ zeros (- decpt) ++ cs
  else if n <=? decpt then
    cs ++ zeros (decpt - n) ++ [46%N; 48%N]
  else
    firstn (Z.to_nat decpt) cs ++ [46%N] ++ skipn (Z.to_nat decpt) cs.

(** [repr(x)], which is also [str(x)] *)
Definition float_repr (x : pyfloat) : str :=
  match x with
  | FNan => s_lit "nan"
  | FInf neg => (if neg then [45%N] else []) ++ s_lit "inf"
  | FFin neg m e =>
      (if neg then [45%N] else []) ++
      if (m =? 0)%N then s_lit "0.0"
      else
        let p := scale2 (Z.of_N m) e in
        let q := scale2 1 (- e) in
        let k := floor_log10 p q in
        let '(c, s) := shortest_digits 17 (FFin false m e) p q k 1 in
        let ds := dec_digits (Z.to_N c) in
        repr_layout (strip_trailing_zeros ds) (Z.of_nat (length ds) + s)
  end.

Local Close Scope Z_scope.

(** * [int(s)] and [float(s)] of a [str], [float(n)] of an [int] *)

Definition is_digit (c : N) : bool := in_range 48 57 c.
Definition c_underscore : N := 95.

(** ASCII lower case of a code point, for the case-blind [inf] and [nan] *)
Definition ascii_lower (c : N) : N := if in_range 65 90 c then (c + 32)%N else c.

(** Underscores are dropped; one is allowed only between two digits.
    [prev] is the previous character, 0 at the start. *)
Fixpoint drop_underscores (prev : N) (s : str) : option str :=
  match s with
  | [] => if (prev =? c_underscore)%N then None else Some []
  | c :: s' =>
      if (c =? c_underscore)%N then
        if is_digit prev then drop_underscores c s' else None
      else if (prev =? c_underscore)%N && negb (is_digit c) then None
      else option_map (cons c) (drop_underscores c s')
  end.

Fixpoint span_digits (s : str) : list N * str :=
  match s with
  | [] => ([], [])
  | c :: s' =>
      if is_digit c
      then let '(ds, rest) := span_digits s' in ((c - 48)%N :: ds, rest)
      else ([], s)
  end.

Definition digits_value (ds : list N) : N :=
  fold_left (fun acc d => (10 * acc + d)%N) ds 0%N.

(** An optional sign: [true] for a minus. *)
Definition parse_sign (s : str) : bool * str :=
  match s with
  | c :: s' =>
      if (c =? 45)%N then (true, s')
      else if (c =? 43)%N then (false, s')
      else (false, s)
  | [] => (false, s)
  end.

Definition signed (neg : bool) (n : N) : Z :=
  if neg then (- Z.of_N n)%Z else Z.of_N n.

Section Numbers.
Context {interp : Interpreter}.

(** Before parsing, a [str] with a code point outside ASCII has its
    Unicode spaces turned into a space and its Unicode digits into ASCII
    digits; the first other code point from 127 up becomes a question mark
    and ends the text. *)
Fixpoint transform_non_ascii (s : str) : str :=
  match s with
  | [] => []
  | c :: s' =>
      if (c <? 127)%N then c :: transform_non_ascii s'
      else if is_unicode_space c then 32%N :: transform_non_ascii s'
      else match unicode_decimal c with
           | Some d => digit_char d :: transform_non_ascii s'
           | None => [63%N]
           end
  end.

Definition transform_decimal_and_space (s : str) : str :=
  if forallb (fun c => (c <? 128)%N) s then s else transform_non_ascii s.

(** The text that the number grammar sees: transformed, stripped of ASCII
    whitespace, underscores checked and dropped. *)
Definition number_text (s : str) : option str :=
  drop_underscores 0 (strip is_ascii_space (transform_decimal_and_space s)).

(** [int(s)]; [None] stands for [ValueError]. *)
Definition py_int_of_str (s : str) : option Z :=
  match number_text s with
  | None => None
  | Some t =>
      let '(neg, t1) := parse_sign t in
      let '(ds, rest) := span_digits t1 in
      match ds, rest with
      | _ :: _, [] =>
          if negb (int_max_str_digits =? 0)%N
             && (int_max_str_digits <? N.of_nat (length ds))%N
          then None
          else Some (signed neg (digits_value ds))
      | _, _ => None
      end
  end.

(** The exponent part of a float literal: absent, or [e], an optional sign
    and at least one digit, up to the end of the text. *)
Definition parse_exponent (s : str) : option Z :=
  match s with
  | [] => Some 0%Z
  | c :: s' =>
      if (ascii_lower c =? 101)%N then
        let '(neg, s1) := parse_sign s' in
        let '(ds, rest) := span_digits s1 in
        match ds, rest with
        | _ :: _, [] => Some (signed neg (digits_value ds))
        | _, _ => None
        end
      else None
  end.

(** [float(s)]; [None] stands for [ValueError]. *)
Definition py_float_of_str (s : str) : option pyfloat :=
  match number_text s with
  | None => None
  | Some t =>
      let '(neg, t1) := parse_sign t in
      let word := map ascii_lower t1 in
      if str_in word [s_lit "inf"; s_lit "infinity"] then Some (FInf neg)
      else if str_eqb word (s_lit "nan") then Some FNan
      else
        let '(ip, t2) := span_digits t1 in
        let '(fp, t3) :=
          match t2 with
          | c :: t2' => if (c =? 46)%N then span_digits t2' else ([], t2)
          | [] => ([], t2)
          end in
        match ip ++ fp with
        | [] => None
        | ds =>
            match parse_exponent t3 with
            | None => None
            | Some ex =>
                Some (float_of_decimal neg (Z.of_N (digits_value ds))
                        (ex - Z.of_nat (length fp)))
            end
        end
  end.
End Numbers.

(** [float(n)] of an [int]; [None] stands for [OverflowError]. *)
Definition py_float_of_int (n : Z) : option pyfloat :=
  match float_of_ratio (n <? 0)%Z (Z.abs n) 1 with
  | FInf _ => None
  | x => Some x
  end.

(** [s.upper()]: ASCII letters here, other code points by the database *)
Definition py_upper {interp : Interpreter} (s : str) : str :=
  flat_map (fun c => if (c <? 128)%N
                     then [if in_range 97 122 c then (c - 32)%N else c]
                     else unicode_upper c) s.

(** The argument of [float]: an [int] or a [str]. *)
Inductive pyobj :=
| PyInt (n : Z)
| PyStr (s : str).

Definition py_float {interp : Interpreter} (x : pyobj) : option pyfloat :=
  match x with
  | PyInt n => py_float_of_int n
  | PyStr s => py_float_of_str s
  end.

(** * Exceptions, the file object and the status object *)

Inductive exn :=
| struct_error
| UnicodeDecodeError
| ValueError
| OverflowError
| AttributeError.

(** The result of an expression that may raise. *)
Inductive pyresult (A : Type) :=
| Ok (a : A)
| Err (e : exn).
Arguments Ok {A} a.
Arguments Err {A} e.

(** What a call of the reader can touch: the open binary file [fp], which is
    its content and its position, and the [code] of the [GBStatus] object. *)
Record world := {
  fp_content : bytes;
  fp_pos : nat;
  status_code : Z
}.

Inductive outcome (A : Type) :=
| Done (a : A) (w : world)
| Raised (e : exn).
Arguments Done {A} a w.
Arguments Raised {A} e.

Definition M (A : Type) : Type := world -> outcome A.

Definition ret {A} (a : A) : M A := fun w => Done a w.

Definition bind {A B} (m : M A) (k : A -> M B) : M B :=
  fun w => match m w with
           | Done a w' => k a w'
           | Raised e => Raised e
           end.

Definition lift {A} (r : pyresult A) : M A :=
  fun w => match r with
           | Ok a => Done a w
           | Err e => Raised e
           end.

Notation "x <- m ;; k" := (bind m (fun x => k))
  (at level 61, m at next level, right associativity).
Notation "m ;;; k" := (bind m (fun _ => k))
  (at level 61, right associativity).

Definition set_status (c : Z) : M unit :=
  fun w => Done tt {| fp_content := fp_content w; fp_pos := fp_pos w; status_code := c |}.

Definition get_status : M Z := fun w => Done (status_code w) w.

(** The bytes from the position to the end of the file. *)
Definition fp_rest (w : world) : bytes := skipn (fp_pos w) (fp_content w).

Definition advance (n : nat) (w : world) : world :=
  {| fp_content := fp_content w; fp_pos := fp_pos w + n; status_code := status_code w |}.

(** [fp.read(n)]: the next [n] bytes, fewer at the end of the file. *)
Definition fp_read (n : nat) : M bytes :=
  fun w => let x := firstn n (fp_rest w) in Done x (advance (length x) w).

(** A line: up to and including the first line feed, or all that is left. *)
Fixpoint take_line (x : bytes) : bytes :=
  match x with
  | [] => []
  | b :: x' => if Byte.eqb b b_lf then [b] else b :: take_line x'
  end.

(** [fp.readline()] *)
Definition fp_readline : M bytes :=
  fun w => let x := take_line (fp_rest w) in Done x (advance (length x) w).

(** [fp.seek(k)] *)
Definition fp_seek (k : nat) : M unit :=
  fun w => Done tt {| fp_content := fp_content w; fp_pos := k; status_code := status_code w |}.

(** [x.decode('utf-8')] *)
Definition bytes_decode (x : bytes) : pyresult str :=
  match utf8_decode x with
  | Some s => Ok s
  | None => Err UnicodeDecodeError
  end.

(** ** [struct.unpack] for little-endian unsigned fields of the given widths *)

Fixpoint unpack_fields (widths : list nat) (buf : bytes) : list Z :=
  match widths with
  | [] => []
  | w :: ws => le_uint (firstn w buf) :: unpack_fields ws (skipn w buf)
  end.

Definition struct_unpack (widths : list nat) (buf : bytes) : pyresult (list Z) :=
  if length buf =? list_sum widths then Ok (unpack_fields widths buf)
  else Err struct_error.

(** The formats of the script: ['<HHHHHH'], ['<' + 'I' * 21] and ['<B']. *)
Definition fmt_HHHHHH : list nat := repeat 2 6.
Definition fmt_I21 : list nat := repeat 4 21.
Definition fmt_B : list nat := [1].

(** * Constants and error codes *)

Definition SBW4_CBOND_SIZE : nat := 5.
Definition SBW4_EPOCH : Z * Z * Z := (1941, 4, 1)%Z.

Definition GB_ERROR_OPEN_SBW_CANNOT_OPEN_FILE : Z := 1.
Definition GB_ERROR_OPEN_SBW_BAD_MAGIC : Z := 2.
Definition GB_ERROR_OPEN_SBW_PARSE : Z := 3.
Definition GB_OK : Z := 0.

(** * The document model *)

Record GBDocBond := {
  series : str;
  idate : str;
  denom : pyfloat;
  sn : str
}.

(** [bonds] is a Python list: it holds what [add_bond] was given, a bond or
    [None]. *)
Record GBDoc := {
  title : str;
  bonds : list (option GBDocBond)
}.

Definition gb_doc_new : GBDoc := {| title := []; bonds := [] |}.

Definition set_title (doc : GBDoc) (t : str) : GBDoc :=
  {| title := t; bonds := bonds doc |}.

Definition add_bond (doc : GBDoc) (bond : option GBDocBond) : GBDoc :=
  {| title := title doc; bonds := bonds doc ++ [bond] |}.

(** ** [GBDoc.to_csv] *)

Fixpoint join (sep : str) (xs : list str) : str :=
  match xs with
  | [] => []
  | [x] => x
  | x :: xs' => x ++ sep ++ join sep xs'
  end.

(** A field of the default [csv.writer]: quoted when it holds the delimiter,
    the quote character or a character of the line terminator, the quote
    character doubled. *)
Definition csv_special (c : N) : bool :=
  ((c =? c_comma) || (c =? c_dquote) || (c =? c_cr) || (c =? c_lf))%N.

Definition csv_field (s : str) : str :=
  if existsb csv_special s
  then c_dquote :: flat_map (fun c => if (c =? c_dquote)%N then [c; c] else [c]) s
         ++ [c_dquote]
  else s.

(** [writer.writerow(fields)]; a row of one empty field is written quoted. *)
Definition csv_writerow (fields : list str) : str :=
  match fields with
  | [[]] => [c_dquote; c_dquote; c_cr; c_lf]
  | _ => join [c_comma] (map csv_field fields) ++ [c_cr; c_lf]
  end.

Definition csv_header : list str :=
  [s_lit "Series"; s_lit "Denomination"; s_lit "Serial Number"; s_lit "Issue Date"].

Fixpoint to_csv_rows (bs : list (option GBDocBond)) : pyresult str :=
  match bs with
  | [] => Ok []
  | None :: _ => Err AttributeError
  | Some bond :: bs' =>
      match to_csv_rows bs' with
      | Ok out =>
          Ok (csv_writerow [series bond; float_repr (denom bond); sn bond; idate bond]
                ++ out)
      | Err e => Err e
      end
  end.

Definition to_csv (include_header : bool) (doc : GBDoc) : pyresult str :=
  match to_csv_rows (bonds doc) with
  | Ok out => Ok ((if include_header then csv_writerow csv_header else []) ++ out)
  | Err e => Err e
  end.

(** * The date codec

    [relativedelta(months=n)] for a count [n >= 0] is kept as whole years and
    at most 11 months.  Adding it to a date adds the years, then the months
    with a carry into the year, clips the day to the length of the month and
    builds the date with [datetime.replace].  That method takes the year as
    a C [int]: a year that does not fit one raises [OverflowError], and a
    year that fits but lies outside 1 to 9999 raises [ValueError]. *)

Local Open Scope Z_scope.

Definition relativedelta_months (n : Z) : Z * Z :=
  if 11 <? Z.abs n then (n / 12, n mod 12) else (0, n).

Definition isleap (year : Z) : bool :=
  (year mod 4 =? 0) && (negb (year mod 100 =? 0) || (year mod 400 =? 0)).

(** [calendar.monthrange(year, month)[1]] *)
Definition days_in_month (year month : Z) : Z :=
  if month =? 2 then (if isleap year then 29 else 28)
  else if (month =? 4) || (month =? 6) || (month =? 9) || (month =? 11) then 30
  else 31.

Definition MINYEAR : Z := 1.
Definition MAXYEAR : Z := 9999.

(** The bounds of a C [int]. *)
Definition INT_MIN : Z := -2147483648.
Definition INT_MAX : Z := 2147483647.

Definition datetime_add (dt : Z * Z * Z) (delta : Z * Z) : pyresult (Z * Z * Z) :=
  let '(y, mo, d) := dt in
  let '(years, months) := delta in
  let year := y + years in
  let month := mo + months in
  let '(year, month) := if 12 <? month then (year + 1, month - 12) else (year, month) in
  let day := Z.min (days_in_month year month) d in
  if (year <? INT_MIN) || (INT_MAX <? year) then Err OverflowError
  else if (MINYEAR <=? year) && (year <=? MAXYEAR) then Ok (year, month, day)
  else Err ValueError.

(** [date.strftime('%m/%Y')] for a year of four digits *)
Definition strftime_mY (dt : Z * Z * Z) : str :=
  let '(year, month, _) := dt in
  (if month <? 10 then [48%N] else []) ++ str_of_N (Z.to_N month)
    ++ [47%N] ++ str_of_N (Z.to_N year).

(** [gb_date_fmt(months_since_epoch)], for the unsigned count that the
    reader passes *)
Definition gb_date_fmt (months_since_epoch : N) : pyresult str :=
  match datetime_add SBW4_EPOCH (relativedelta_months (Z.of_N months_since_epoch)) with
  | Ok date => Ok (strftime_mY date)
  | Err e => Err e
  end.

Local Close Scope Z_scope.

(** * The reader *)

(** The byte literals of the script: the two magic lines with their quotes,
    and the marker of a v4 file. *)
Definition magic_2 : bytes := b_dquote :: b_lit "SBW 2" ++ [b_dquote].
Definition magic_3 : bytes := b_dquote :: b_lit "SBW 3" ++ [b_dquote].
Definition magic_cbond : bytes := b_lit "CBond".

Section Reader.
Context {interp : Interpreter}.

(** [gb_doc_bond_new]: any exception of [float(denom)] sets the parse
    error and gives [None]. *)
Definition gb_doc_bond_new (series idate : str) (denom : pyobj) (sn : str)
  : M (option GBDocBond) :=
  match py_float denom with
  | Some d => ret (Some {| series := series; idate := idate; denom := d; sn := sn |})
  | None => set_status GB_ERROR_OPEN_SBW_PARSE ;;; ret None
  end.


(** ** [read_sbw2] *)

(** The loop [for _ in range(n)] with [todo] rounds left. *)
Fixpoint read_sbw2_bonds (todo : nat) (doc : GBDoc) : M (option GBDoc) :=
  match todo with
  | O => ret (Some doc)
  | S todo' =>
      raw <- fp_readline ;;
      line <- lift (bytes_decode raw) ;;
      let fields := str_split c_comma 4 line in
      if length fields <? 4 then read_sbw2_bonds todo' doc
      else
        let field i := str_strip_chars [c_dquote] (str_strip (nth i fields [])) in
        let sn := field 0 in
        let denom := field 1 in
        let series := field 2 in
        let idate := field 3 in
        bond <- gb_doc_bond_new series idate (PyStr denom) sn ;;
        code <- get_status ;;
        if negb (code =? GB_OK)%Z then ret None
        else read_sbw2_bonds todo' (add_bond doc bond)
  end.

(** [int(fp.readline().decode('utf-8').strip())] under
    [except ValueError], which also catches [UnicodeDecodeError] *)
Definition read_count_line (raw : bytes) : option Z :=
  match bytes_decode raw with
  | Ok s => py_int_of_str (str_strip s)
  | Err _ => None
  end.

Definition read_sbw2 : M (option GBDoc) :=
  let doc := gb_doc_new in
  set_status GB_OK ;;;
  raw <- fp_readline ;;
  let version_line := bytes_strip raw in
  if negb (bytes_in version_line [magic_2; magic_3]) then
    set_status GB_ERROR_OPEN_SBW_BAD_MAGIC ;;; ret None
  else
    raw <- fp_readline ;;
    decoded <- lift (bytes_decode raw) ;;
    let title_line := str_strip_chars [c_dquote] (str_strip decoded) in
    let doc := set_title doc title_line in
    fp_readline ;;;
    raw <- fp_readline ;;
    match read_count_line raw with
    | None => set_status GB_ERROR_OPEN_SBW_PARSE ;;; ret None
    | Some n => read_sbw2_bonds (Z.to_nat n) doc
    end.

(** ** [read_sbw4] *)

Definition series_codes : list str := [s_lit "E"; s_lit "S"; s_lit "EE"; s_lit "I"].

(** [struct.unpack('<B', fp.read(1))[0]] *)
Definition read_length_byte : M nat :=
  b <- fp_read 1 ;;
  u <- lift (struct_unpack fmt_B b) ;;
  ret (Z.to_nat (nth 0 u 0%Z)).

(** The loop [for i in range(n_bonds)] with [todo] rounds left, at index [i]. *)
Fixpoint read_sbw4_bonds (todo : nat) (i n_bonds : Z) (doc : GBDoc)
  : M (option GBDoc) :=
  match todo with
  | O => ret (Some doc)
  | S todo' =>
      bond_data <- fp_read 84 ;;
      if length bond_data <? 84 then
        set_status GB_ERROR_OPEN_SBW_PARSE ;;; ret None
      else
        unpacked <- lift (struct_unpack fmt_I21 bond_data) ;;
        let denom := nth 6 unpacked 0%Z in
        let idate := nth 10 unpacked 0%Z in
        (* notes, contents ignored *)
        n_bytes <- read_length_byte ;;
        (if 0 <? n_bytes then fp_read n_bytes ;;; ret tt else ret tt) ;;;
        (* serial number *)
        n_bytes <- read_length_byte ;;
        sn <- (if 0 <? n_bytes
               then raw <- fp_read n_bytes ;; lift (bytes_decode raw)
               else ret []) ;;
        (* series *)
        n_bytes <- read_length_byte ;;
        series <- (if 0 <? n_bytes
                   then raw <- fp_read n_bytes ;; lift (bytes_decode raw)
                   else ret []) ;;
        (if (i <? n_bonds - 1)%Z then fp_read 2 ;;; ret tt else ret tt) ;;;
        if str_in (py_upper series) series_codes then
          idate_string <- lift (gb_date_fmt (Z.to_N idate)) ;;
          bond <- gb_doc_bond_new series idate_string (PyInt denom) sn ;;
          code <- get_status ;;
          if negb (code =? GB_OK)%Z then ret None
          else read_sbw4_bonds todo' (i + 1)%Z n_bonds (add_bond doc bond)
        else read_sbw4_bonds todo' (i + 1)%Z n_bonds doc
  end.

Definition read_sbw4 : M (option GBDoc) :=
  let doc := gb_doc_new in
  let doc := set_title doc (s_lit "Imported SBW4 Inventory") in
  set_status GB_OK ;;;
  head_raw <- fp_read 12 ;;
  if length head_raw <? 12 then
    set_status GB_ERROR_OPEN_SBW_PARSE ;;; ret None
  else
    head <- lift (struct_unpack fmt_HHHHHH head_raw) ;;
    let n_bonds := nth 2 head 0%Z in
    fp_read SBW4_CBOND_SIZE ;;;
    read_sbw4_bonds (Z.to_nat n_bonds) 0%Z n_bonds doc.

(** ** [gb_doc_sbw_open] *)

(** The probe at the head of the [with] block: [version] is 2, 4 or 0. *)
Definition sniff_version : M Z :=
  first_line <- fp_readline ;;
  fp_seek 0 ;;;
  if bytes_startswith first_line magic_2 || bytes_startswith first_line magic_3
  then ret 2%Z
  else
    fp_seek 12 ;;;
    cbond <- fp_read SBW4_CBOND_SIZE ;;
    let version := if bytes_startswith cbond magic_cbond then 4%Z else 0%Z in
    fp_seek 0 ;;;
    ret version.

(** What the caller of [gb_doc_sbw_open] sees: the returned document or
    [None] together with the status code, or an exception. *)
Inductive open_result :=
| Returned (doc : option GBDoc) (code : Z)
| Raise (e : exn).

(** [file] is the content of the regular file of that name, if there is
    one; [code] is the status code on entry. *)
Definition gb_doc_sbw_open (file : option bytes) (code : Z) : open_result :=
  match file with
  | None => Returned None GB_ERROR_OPEN_SBW_CANNOT_OPEN_FILE
  | Some content =>
      let run :=
        version <- sniff_version ;;
        if (version =? 2)%Z then read_sbw2
        else if (version =? 4)%Z then read_sbw4
        else set_status GB_ERROR_OPEN_SBW_BAD_MAGIC ;;; ret None in
      match run {| fp_content := content; fp_pos := 0; status_code := code |} with
      | Done doc w => Returned doc (status_code w)
      | Raised e => Raise e
      end
  end.
End Reader.

(** * The JSON writer *)

(** ** [json.dumps]

    The value handed to [json.dumps] is built of dictionaries with [str]
    keys, lists, [str] and [float] values. *)
#[warnings="-register-all"]
Inductive json :=
| JStr (s : str)
| JFloat (x : pyfloat)
| JList (xs : list json)
| JDict (kvs : list (str * json)).

(** A lower-case hexadecimal digit. *)
Definition hex_digit (d : N) : N := if (d <? 10)%N then (48 + d)%N else (87 + d)%N.

(** The escape of a code unit: a backslash, [u] and four hexadecimal digits. *)
Definition json_u_escape (n : N) : str :=
  [92; 117; hex_digit (n / 4096); hex_digit ((n / 256) mod 16);
   hex_digit ((n / 16) mod 16); hex_digit (n mod 16)]%N.

(** With [ensure_ascii], the default: the quote and the backslash get a
    backslash, the other characters from space to tilde stand for
    themselves, five control characters have a short escape, and every
    other code point is written as one code unit or as a surrogate pair. *)
Definition json_escape_char (c : N) : str :=
  if (c =? 34)%N then [92; 34]%N
  else if (c =? 92)%N then [92; 92]%N
  else if in_range 32 126 c then [c]
  else if (c =? 10)%N then [92; 110]%N
  else if (c =? 13)%N then [92; 114]%N
  else if (c =? 9)%N then [92; 116]%N
  else if (c =? 8)%N then [92; 98]%N
  else if (c =? 12)%N then [92; 102]%N
  else if (c <? 65536)%N then json_u_escape c
  else
    let n := (c - 65536)%N in
    json_u_escape (55296 + (n / 1024) mod 1024)%N
      ++ json_u_escape (56320 + n mod 1024)%N.

Definition json_string (s : str) : str :=
  c_dquote :: flat_map json_escape_char s ++ [c_dquote].

(** A float is written by [repr], the values that are no number by the
    names that [allow_nan] lets through. *)
Definition json_float (x : pyfloat) : str :=
  match x with
  | FNan => s_lit "NaN"
  | FInf false => s_lit "Infinity"
  | FInf true => s_lit "-Infinity"
  | FFin _ _ _ => float_repr x
  end.

(** The line break before an item at nesting [level]: none without
    [indent]. *)
Definition json_newline (indent : option nat) (level : nat) : str :=
  match indent with
  | Some k => c_lf :: repeat 32%N (k * level)
  | None => []
  end.

(** [', '] without [indent], [','] with it. *)
Definition json_item_separator (indent : option nat) : str :=
  match indent with
  | Some _ => [c_comma]
  | None => [c_comma; 32%N]
  end.

Definition json_key_separator : str := [58; 32]%N.

Fixpoint json_encode (indent : option nat) (level : nat) (v : json) : str :=
  match v with
  | JStr s => json_string s
  | JFloat x => json_float x
  | JList [] => [91; 93]%N
  | JList xs =>
      [91%N] ++ json_newline indent (S level)
        ++ join (json_item_separator indent ++ json_newline indent (S level))
             (map (json_encode indent (S level)) xs)
        ++ json_newline indent level ++ [93%N]
  | JDict [] => [123; 125]%N
  | JDict kvs =>
      [123%N] ++ json_newline indent (S level)
        ++ join (json_item_separator indent ++ json_newline indent (S level))
             (map (fun kv => json_string (fst kv) ++ json_key_separator
                               ++ json_encode indent (S level) (snd kv)) kvs)
        ++ json_newline indent level ++ [125%N]
  end.

(** [json.dumps(data)] and [json.dumps(data, indent=k)] *)
Definition json_dumps (indent : option nat) (data : json) : str :=
  json_encode indent 0 data.

(** ** [GBDoc.to_json] *)

Definition bond_json (bond : GBDocBond) : json :=
  JDict [ (s_lit "series", JStr (series bond));
          (s_lit "issue_date", JStr (idate bond));
          (s_lit "denomination", JFloat (denom bond));
          (s_lit "serial_number", JStr (sn bond)) ].

(** The list comprehension over [self.bonds]; an entry that is [None] has
    no attribute [series]. *)
Fixpoint bonds_json (bs : list (option GBDocBond)) : pyresult (list json) :=
  match bs with
  | [] => Ok []
  | None :: _ => Err AttributeError
  | Some bond :: bs' =>
      match bonds_json bs' with
      | Ok items => Ok (bond_json bond :: items)
      | Err e => Err e
      end
  end.

Definition to_json (pretty : bool) (doc : GBDoc) : pyresult str :=
  match bonds_json (bonds doc) with
  | Ok items =>
      let data := JDict [ (s_lit "title", JStr (title doc));
                          (s_lit "bonds", JList items) ] in
      Ok (if pretty then json_dumps (Some 2) data else json_dumps None data)
  | Err e => Err e
  end.

(** * The exports *)

(** ** [str.encode('utf-8')], the encoding of a text file

    The strict encoder: [None] stands for [UnicodeEncodeError], raised for
    a surrogate. *)
Definition utf8_encode_char (c : N) : option (list N) :=
  if (c <? 128)%N then Some [c]
  else if (c <? 2048)%N then Some [192 + c / 64; 128 + c mod 64]%N
  else if (c <? 65536)%N then
    if in_range 55296 57343 c then None
    else Some [224 + c / 4096; 128 + (c / 64) mod 64; 128 + c mod 64]%N
  else if (c <? 1114112)%N then
    Some [240 + c / 262144; 128 + (c / 4096) mod 64; 128 + (c / 64) mod 64;
          128 + c mod 64]%N
  else None.

Fixpoint utf8_encode_N (s : str) : option (list N) :=
  match s with
  | [] => Some []
  | c :: s' =>
      match utf8_encode_char c, utf8_encode_N s' with
      | Some x, Some y => Some (x ++ y)
      | _, _ => None
      end
  end.

Definition byte_of_N (n : N) : byte :=
  match Byte.of_N n with
  | Some b => b
  | None => x00
  end.

Definition utf8_encode (s : str) : option bytes :=
  option_map (map byte_of_N) (utf8_encode_N s).

(** ** What a run of an export leaves behind *)

(** The exceptions of an export: those of the reader and of the writers,
    the encoding error of a text file, and the error of [open]. *)
Inductive export_exn :=
| reader_exn (e : exn)
| UnicodeEncodeError
| OSError.

(** The text sent to the standard output, the file written (its name and
    its content when it was closed), and the exception that ended the run,
    if one did.  The standard output is the text handed to [print]; the
    encoding of the terminal is no part of the model. *)
Record run := {
  stdout : str;
  saved : option (str * bytes);
  raised : option export_exn
}.

(** [print(text)] *)
Definition print (text : str) : str := text ++ [c_lf].

(** [str(n)] for an integer *)
Definition str_of_Z (n : Z) : str :=
  if (n <? 0)%Z then 45%N :: str_of_N (Z.to_N (- n)) else str_of_N (Z.to_N n).

(** ** [GBDoc.to_csv_file] *)

(** [writer.writerow(fields)] on the text file that holds [content]: the
    row is encoded and appended. *)
Definition file_writerow (fields : list str) (content : bytes)
  : bytes * option export_exn :=
  match utf8_encode (csv_writerow fields) with
  | Some x => (content ++ x, None)
  | None => (content, Some UnicodeEncodeError)
  end.

(** The loop over [self.bonds]: the content of the file at the end, and the
    exception that stopped the loop. *)
Fixpoint to_csv_file_rows (bs : list (option GBDocBond)) (content : bytes)
  : bytes * option export_exn :=
  match bs with
  | [] => (content, None)
  | None :: _ => (content, Some (reader_exn AttributeError))
  | Some bond :: bs' =>
      match file_writerow [series bond; float_repr (denom bond); sn bond; idate bond]
              content with
      | (content', None) => to_csv_file_rows bs' content'
      | (content', Some e) => (content', Some e)
      end
  end.

(** [opens] tells whether [open(filename, mode='w')] succeeds.  The [with]
    block closes the file on the way out of an exception too, so that the
    rows written before it stay in the file. *)
Definition to_csv_file (opens : bool) (filename : str) (include_header : bool)
           (doc : GBDoc) : run :=
  if negb opens then {| stdout := []; saved := None; raised := Some OSError |}
  else
    match (if include_header then file_writerow csv_header [] else ([], None)) with
    | (content, Some e) =>
        {| stdout := []; saved := Some (filename, content); raised := Some e |}
    | (content, None) =>
        match to_csv_file_rows (bonds doc) content with
        | (content', Some e) =>
            {| stdout := []; saved := Some (filename, content'); raised := Some e |}
        | (content', None) =>
            {| stdout := print (s_lit "CSV file saved as: " ++ filename);
               saved := Some (filename, content'); raised := None |}
        end
    end.

(** ** [export_sbw_to_json] and [export_sbw_to_csv] *)

Definition failed_message (code : Z) : str :=
  s_lit "Failed to parse file. Error code: " ++ str_of_Z code.

(** [args] is the namespace that [parser.parse_args()] returned: the
    optional positional [csv_file] and the two flags; [file] is the content
    of the file named by [args.sbw_file]. *)
Record Namespace := {
  csv_file : option str;
  csv : bool;
  pretty : bool
}.

Definition truthy (s : option str) : bool :=
  match s with
  | Some (_ :: _) => true
  | _ => false
  end.

Section Exports.
Context {interp : Interpreter}.

(** [file] is the content of the regular file named [filename], if there
    is one. *)
Definition export_sbw_to_json (file : option bytes) (pretty : bool) : run :=
  match gb_doc_sbw_open file GB_OK with
  | Raise e => {| stdout := []; saved := None; raised := Some (reader_exn e) |}
  | Returned doc code =>
      match (if negb (code =? GB_OK)%Z then None else doc) with
      | None =>
          {| stdout := print (failed_message code); saved := None; raised := None |}
      | Some doc =>
          match to_json pretty doc with
          | Ok json_output =>
              {| stdout := print json_output; saved := None; raised := None |}
          | Err e =>
              {| stdout := []; saved := None; raised := Some (reader_exn e) |}
          end
      end
  end.

(** [outFile] is [None], the empty text or a file name; the first two
    count as false. *)
Definition export_sbw_to_csv (file : option bytes) (outFile : option str)
           (opens : bool) : run :=
  match gb_doc_sbw_open file GB_OK with
  | Raise e => {| stdout := []; saved := None; raised := Some (reader_exn e) |}
  | Returned doc code =>
      match (if negb (code =? GB_OK)%Z then None else doc) with
      | None =>
          {| stdout := print (failed_message code); saved := None; raised := None |}
      | Some doc =>
          match outFile with
          | Some (c :: name) =>
              let notice :=
                print (s_lit "CSV file write, to display on screen leave outFile blank.") in
              let r := to_csv_file opens (c :: name) true doc in
              {| stdout := notice ++ stdout r; saved := saved r; raised := raised r |}
          | _ =>
              let notice :=
                print (s_lit "CSV Display Output, pass a filename to write file.") in
              match to_csv true doc with
              | Ok csv_output =>
                  {| stdout := notice ++ print csv_output; saved := None;
                     raised := None |}
              | Err e =>
                  {| stdout := notice; saved := None; raised := Some (reader_exn e) |}
              end
          end
      end
  end.

(** ** [main] *)

(** In the JSON branch the value of [export_sbw_to_json], which is [None],
    is printed after the export. *)
Definition main (args : Namespace) (file : option bytes) (opens : bool) : run :=
  if csv args || truthy (csv_file args) then
    export_sbw_to_csv file (csv_file args) opens
  else
    let r := export_sbw_to_json file (pretty args) in
    match raised r with
    | Some _ => r
    | None =>
        {| stdout := stdout r ++ print (s_lit "None"); saved := saved r;
           raised := None |}
    end.
End Exports.

(** * Vocabulary of the statements *)

(** An interpreter without Unicode data: no digits and no case pairs
    outside ASCII, the default bound of 4300 digits.  The closed examples
    below run on it; their inputs are ASCII. *)
Definition plain_interpreter : Interpreter :=
  {| unicode_decimal := fun _ => None;
     unicode_upper := fun c => [c];
     int_max_str_digits := 4300 |}.

(** The world of a freshly opened file. *)
Definition opened (content : bytes) (code : Z) : world :=
  {| fp_content := content; fp_pos := 0; status_code := code |}.

(** ** Date codec *)

(** The largest count of months that stays within the year 9999. *)
Definition LAST_MONTHS : N := 96704.

(** The least count of months whose year no longer fits a C [int]:
    January of the year 2147483648. *)
Definition OVERFLOW_MONTHS : N := 25769780481.

(** The text [MM/YYYY] of a month and a year of four digits. *)
Definition mm_yyyy (month year : N) : str :=
  [digit_char (month / 10); digit_char (month mod 10); 47;
   digit_char (year / 1000); digit_char ((year / 100) mod 10);
   digit_char ((year / 10) mod 10); digit_char (year mod 10)]%N.

(** ** Format sniffer *)

(** The version that the probe of [gb_doc_sbw_open] computes, read off the
    content: 2 when the content begins with a magic line literal, else 4
    when the five bytes at offset 12 are the marker, else 0. *)
Definition source_version (content : bytes) : Z :=
  if bytes_startswith content magic_2 || bytes_startswith content magic_3 then 2%Z
  else if bytes_eqb (firstn 5 (skipn 12 content)) magic_cbond then 4%Z
  else 0%Z.

(** The sniffer in the words of the specification: version 2 when the first
    line, trimmed, is exactly a magic literal; else the probe at offset 12. *)
Definition sniffer_as_specified (content : bytes) : Z :=
  if bytes_in (bytes_strip (take_line content)) [magic_2; magic_3] then 2%Z
  else if bytes_eqb (firstn 5 (skipn 12 content)) magic_cbond then 4%Z
  else 0%Z.

(** A first line with five more characters after the quoted literal, and
    the marker at offset 12. *)
Definition trailing_magic_source : bytes :=
  magic_2 ++ b_lit "xxxxx" ++ magic_cbond.

(** ** The v4 layout

    A record of a v4 source: the block of 21 little-endian 32-bit fields,
    three fields that carry their length in one byte, and the two bytes
    that separate the record from the next one. *)
Record sbw4_record := {
  rec_block : bytes;
  rec_notes : bytes;
  rec_sn : bytes;
  rec_series : bytes;
  rec_gap : bytes
}.

Definition length_prefixed (x : bytes) : bytes :=
  match Byte.of_nat (length x) with
  | Some b => b :: x
  | None => []
  end.

Definition record_bytes (r : sbw4_record) : bytes :=
  rec_block r ++ length_prefixed (rec_notes r) ++ length_prefixed (rec_sn r)
    ++ length_prefixed (rec_series r).

(** Records that are each followed by their separator. *)
Definition gapped_records (rs : list sbw4_record) : bytes :=
  flat_map (fun r => record_bytes r ++ rec_gap r) rs.

(** The records of a source: a separator between two records, none after
    the last. *)
Fixpoint sbw4_body (rs : list sbw4_record) : bytes :=
  match rs with
  | [] => []
  | r :: rs' =>
      match rs' with
      | [] => record_bytes r
      | _ :: _ => record_bytes r ++ rec_gap r ++ sbw4_body rs'
      end
  end.

(** A v4 source: header, marker, records, and whatever follows them. *)
Definition sbw4_source (head marker : bytes) (rs : list sbw4_record) (tail : bytes)
  : bytes :=
  head ++ marker ++ sbw4_body rs ++ tail.

(** The record count of a 12-byte header: its third 16-bit field. *)
Definition header_count (head : bytes) : Z := le_field 2 2 head.

Definition text_of (x : bytes) : str :=
  match utf8_decode x with
  | Some s => s
  | None => []
  end.

(** Field 6 and field 10 of the block. *)
Definition record_denom (r : sbw4_record) : Z := le_field 4 6 (rec_block r).
Definition record_idate (r : sbw4_record) : Z := le_field 4 10 (rec_block r).

(** The series code, upper-cased, is one of E, S, EE, I. *)
Definition record_kept {interp : Interpreter} (r : sbw4_record) : bool :=
  str_in (py_upper (text_of (rec_series r))) series_codes.

(** The bond of a record: its series and serial number as text, the issue
    date through the date codec, the denomination as a float. *)
Definition record_bond (r : sbw4_record) : option GBDocBond :=
  match gb_date_fmt (Z.to_N (record_idate r)), py_float_of_int (record_denom r) with
  | Ok d, Some f =>
      Some {| series := text_of (rec_series r); idate := d; denom := f;
              sn := text_of (rec_sn r) |}
  | _, _ => None
  end.

(** A record that the reader gets through: the block is whole, the lengths
    fit their byte, serial number and series are UTF-8, and the issue date
    of a kept record stays within the year 9999. *)
Definition record_valid {interp : Interpreter} (r : sbw4_record) : Prop :=
  length (rec_block r) = 84
  /\ length (rec_notes r) <= 255
  /\ length (rec_sn r) <= 255
  /\ length (rec_series r) <= 255
  /\ length (rec_gap r) = 2
  /\ utf8_decode (rec_sn r) <> None
  /\ utf8_decode (rec_series r) <> None
  /\ (record_kept r = true -> (record_idate r <= Z.of_N LAST_MONTHS)%Z).

(** The document after a round of the loop on record [r]. *)
Definition doc_after {interp : Interpreter} (doc : GBDoc) (r : sbw4_record) : GBDoc :=
  if record_kept r then add_bond doc (record_bond r) else doc.

(** The empty v4 document. *)
Definition sbw4_doc_new : GBDoc :=
  set_title gb_doc_new (s_lit "Imported SBW4 Inventory").

(** ** Example v4 sources *)

(** A header that declares one record; the other five fields are zero. *)
Definition header_one : bytes :=
  [x00; x00; x00; x00; x01; x00; x00; x00; x00; x00; x00; x00].

(** A block whose field 6 is 50 and whose other fields are zero. *)
Definition block_50 : bytes :=
  repeat x00 24 ++ [x32; x00; x00; x00] ++ repeat x00 56.

(** One record: series E, denomination 50, issue date 0, serial A1, no
    notes. *)
Definition sbw4_example_source : bytes :=
  header_one ++ magic_cbond ++ block_50 ++ [x00] ++ [x02] ++ b_lit "A1"
    ++ [x01] ++ b_lit "E".

(** The same source cut right after the block: the length byte of the
    notes is missing. *)
Definition sbw4_no_length_byte : bytes :=
  header_one ++ magic_cbond ++ block_50.

(** The same source with a series field that declares three bytes and
    holds one. *)
Definition sbw4_short_series : bytes :=
  header_one ++ magic_cbond ++ block_50 ++ [x00] ++ [x02] ++ b_lit "A1"
    ++ [x03] ++ b_lit "E".

(** Decoding a source and writing the rows without the header. *)
Definition csv_of_source {interp : Interpreter} (content : bytes) : pyresult str :=
  match gb_doc_sbw_open (Some content) GB_OK with
  | Returned (Some doc) _ => to_csv false doc
  | Returned None _ => Err ValueError
  | Raise e => Err e
  end.

Definition crlf : str := [c_cr; c_lf].

(** The record of the end-to-end example, for any block and notes. *)
Definition example_record (block notes : bytes) : sbw4_record :=
  {| rec_block := block; rec_notes := notes; rec_sn := b_lit "A1";
     rec_series := b_lit "E"; rec_gap := [x00; x00] |}.

(** Four records for the filter: series E, X, none and ee. *)
Definition filter_records : list sbw4_record :=
  [ {| rec_block := block_50; rec_notes := b_lit "gift"; rec_sn := b_lit "A1";
       rec_series := b_lit "E"; rec_gap := [x00; x00] |};
    {| rec_block := block_50; rec_notes := []; rec_sn := b_lit "B2";
       rec_series := b_lit "X"; rec_gap := [x00; x00] |};
    {| rec_block := block_50; rec_notes := []; rec_sn := b_lit "C3";
       rec_series := []; rec_gap := [x00; x00] |};
    {| rec_block := block_50; rec_notes := []; rec_sn := b_lit "D4";
       rec_series := b_lit "ee"; rec_gap := [x00; x00] |} ].

Definition header_four : bytes :=
  [x00; x00; x00; x00; x04; x00; x00; x00; x00; x00; x00; x00].

(** ** The v2 layout *)

(** What is left of [x] after its first line. *)
Definition drop_line (x : bytes) : bytes := skipn (length (take_line x)) x.

(** The next [k] lines of [x] as [readline] returns them, empty past the end. *)
Fixpoint read_lines (k : nat) (x : bytes) : list bytes :=
  match k with
  | O => []
  | S k' => take_line x :: read_lines k' (drop_line x)
  end.

(** What is left of [x] after [k] lines. *)
Fixpoint after_lines (k : nat) (x : bytes) : bytes :=
  match k with
  | O => x
  | S k' => after_lines k' (drop_line x)
  end.

(** The four head lines of a v2 source and the bytes of its record lines. *)
Definition v2_head_line (i : nat) (content : bytes) : bytes :=
  nth i (read_lines 4 content) [].
Definition v2_body (content : bytes) : bytes := after_lines 4 content.

Definition v2_title (content : bytes) : str :=
  str_strip_chars [c_dquote] (str_strip (text_of (v2_head_line 1 content))).

(** A v2 source that reaches the record loop with count [n]: the magic line,
    a title line that is UTF-8, and a count line that [int] accepts. *)
Definition v2_header_ok {interp : Interpreter} (content : bytes) (n : Z) : Prop :=
  bytes_in (bytes_strip (v2_head_line 0 content)) [magic_2; magic_3] = true
  /\ utf8_decode (v2_head_line 1 content) <> None
  /\ read_count_line (v2_head_line 3 content) = Some n.

(** The fields of a decoded record line. *)
Definition v2_fields (line : str) : list str := str_split c_comma 4 line.

Definition v2_field (i : nat) (line : str) : str :=
  str_strip_chars [c_dquote] (str_strip (nth i (v2_fields line) [])).

(** The line has at least four fields. *)
Definition v2_is_record (line : str) : bool := negb (length (v2_fields line) <? 4).

(** The bond of a record line, [None] when [float] rejects the denomination
    field. *)
Definition v2_bond {interp : Interpreter} (line : str) : option GBDocBond :=
  match py_float_of_str (v2_field 1 line) with
  | Some d => Some {| series := v2_field 2 line; idate := v2_field 3 line;
                      denom := d; sn := v2_field 0 line |}
  | None => None
  end.

(** The bonds of the record lines, [None] as soon as a record line has a
    denomination that does not parse. *)
Fixpoint v2_collect {interp : Interpreter} (lines : list str)
  : option (list (option GBDocBond)) :=
  match lines with
  | [] => Some []
  | t :: lines' =>
      if v2_is_record t then
        match v2_bond t with
        | Some b => option_map (cons (Some b)) (v2_collect lines')
        | None => None
        end
      else v2_collect lines'
  end.

(** ** Example v2 sources *)

Definition lf_line (s : string) : bytes := b_lit s ++ [b_lf].

Definition v2_example_head (count : string) : bytes :=
  magic_2 ++ [b_lf] ++ (b_dquote :: b_lit "My bonds" ++ [b_dquote; b_lf])
    ++ lf_line "01/2020" ++ lf_line count.

(** Two record lines; the denomination of the first is not a number. *)
Definition v2_bad_denomination_source : bytes :=
  v2_example_head "2" ++ lf_line "A1,abc,E,01/2000" ++ lf_line "B2,100,EE,02/2001".

(** Two declared lines, one of them with two fields only. *)
Definition v2_short_line_source : bytes :=
  v2_example_head "2" ++ lf_line "short,line" ++ lf_line "B2,100,EE,02/2001".


(** One record line with a negative denomination. *)
Definition v2_negative_source : bytes :=
  v2_example_head "1" ++ lf_line "A1,-50,E,01/2000".

(** One declared line that is a single byte outside UTF-8, so a line of one
    field; and one record line of four fields whose denomination field is
    such a byte. *)
Definition v2_undecodable_short_source : bytes :=
  v2_example_head "1" ++ [xff; b_lf].

Definition v2_undecodable_denomination_source : bytes :=
  v2_example_head "1" ++ b_lit "A1," ++ [xff] ++ lf_line ",E,01/2000".

(** ** Denominations *)

(** The bytes of a record whose series field declares [k] bytes. *)
Definition record_bytes_declaring (r : sbw4_record) (k : byte) : bytes :=
  rec_block r ++ length_prefixed (rec_notes r) ++ length_prefixed (rec_sn r)
    ++ k :: rec_series r.

(** The source holds the records [recs] where the v4 reader reads them: a
    12-byte header that declares their number; then, when there is a
    record, the 5-byte marker, each record but the last followed by its
    separator, and the last record, whose series field has the length that
    it declares or declares more bytes than the source has left. *)
Definition sbw4_holds (content : bytes) (recs : list sbw4_record) : Prop :=
  exists head rest,
    content = head ++ rest
    /\ length head = 12
    /\ header_count head = Z.of_nat (length recs)
    /\ (recs = []
        \/ exists marker init last k tail,
             rest = marker ++ gapped_records init
                      ++ record_bytes_declaring last k ++ tail
             /\ length marker = 5
             /\ recs = init ++ [last]
             /\ (Byte.to_nat k = length (rec_series last)
                 \/ (length (rec_series last) < Byte.to_nat k /\ tail = []))).

(** The entry is a bond whose denomination is field 6 of the block of the
    record: that unsigned 32-bit integer as a float, finite, not negative
    and without loss. *)
Definition denom_of_record (ob : option GBDocBond) (r : sbw4_record) : Prop :=
  exists b,
    ob = Some b
    /\ (0 <= record_denom r < 2 ^ 32)%Z
    /\ float_integer (denom b) = Some (record_denom r)
    /\ float_finite (denom b) = true
    /\ float_nonneg (denom b) = true.

(** The entry is a bond whose denomination is what [float] made of the
    second field of the line. *)
Definition denom_of_line {interp : Interpreter} (ob : option GBDocBond) (line : str)
  : Prop :=
  exists b, ob = Some b /\ py_float_of_str (v2_field 1 line) = Some (denom b).

(** ** Documents of the examples *)

Definition float_50 : pyfloat := FFin false 7036874417766400 (-47).
Definition float_minus_50 : pyfloat := FFin true 7036874417766400 (-47).
Definition float_100 : pyfloat := FFin false 7036874417766400 (-46).

Definition sbw4_example_doc : GBDoc :=
  {| title := s_lit "Imported SBW4 Inventory";
     bonds := [Some {| series := s_lit "E"; idate := s_lit "04/1941";
                       denom := float_50; sn := s_lit "A1" |}] |}.

Definition v2_negative_doc : GBDoc :=
  {| title := s_lit "My bonds";
     bonds := [Some {| series := s_lit "E"; idate := s_lit "01/2000";
                       denom := float_minus_50; sn := s_lit "A1" |}] |}.

Definition v2_one_bond_doc : GBDoc :=
  {| title := s_lit "My bonds";
     bonds := [Some {| series := s_lit "EE"; idate := s_lit "02/2001";
                       denom := float_100; sn := s_lit "B2" |}] |}.

(** A decoded line: the text and its line feed. *)
Definition text_line (s : string) : str := s_lit s ++ [c_lf].

(** * Proof tactics *)

(** From [H : bind m k w = Done b w'], the value and world that [m] gave. *)
Ltac inv_bind H :=
  let a := fresh "a" in
  let w1 := fresh "w" in
  let Hm := fresh "Hm" in
  match type of H with
  | bind ?m ?k ?w = Done _ _ =>
      change (bind m k w)
        with (match m w with Done a w' => k a w' | Raised e => Raised e end) in H;
      destruct (m w) as [a w1|?] eqn:Hm; [|discriminate H]
  end.

Ltac skip_bind H :=
  let a := fresh "a" in
  let w1 := fresh "w" in
  let Hm := fresh "Hm" in
  match type of H with
  | bind ?m ?k ?w = Done _ _ =>
      change (bind m k w)
        with (match m w with Done a w' => k a w' | Raised e => Raised e end) in H;
      destruct (m w) as [a w1|?] eqn:Hm; [clear Hm|discriminate H]
  end.

(** The head of a concrete v2 source, by evaluation. *)
Ltac v2_head_by_computation :=
  unfold v2_header_ok;
  split; [vm_compute; reflexivity|];
  split; [vm_compute; discriminate | vm_compute; reflexivity].

(** Every line of a concrete list has a denomination that parses. *)
Ltac v2_lines_parse :=
  let t := fresh "t" in
  let Hin := fresh "Hin" in
  let Hr := fresh "Hr" in
  intros t Hin Hr; cbn [In] in Hin;
  repeat (destruct Hin as [Hin|Hin];
          [subst t; first [discriminate Hr | vm_compute; discriminate]|]);
  contradiction.


(** ** Status, shape and payload *)

(** A computation that leaves the status code as it found it. *)
Definition keeps_status {A} (m : M A) : Prop :=
  forall w a w1, m w = Done a w1 -> status_code w1 = status_code w.

(** An entry of [bonds] as the v4 reader makes it: a bond whose series code,
    upper-cased, is one of E, S, EE, I and whose issue date is the text
    [MM/YYYY] of some count of months within the year 9999. *)
Definition bond_of_v4 {interp : Interpreter} (ob : option GBDocBond) : Prop :=
  exists b m,
    ob = Some b
    /\ str_in (py_upper (series b)) series_codes = true
    /\ (m <= LAST_MONTHS)%N
    /\ idate b = mm_yyyy ((3 + m) mod 12 + 1) (1941 + (3 + m) / 12).


(** Two records that carry the same denomination, issue date, serial
    number and series; notes, separator and the other fields of the block
    may differ. *)
Definition same_payload (r r' : sbw4_record) : Prop :=
  record_denom r = record_denom r'
  /\ record_idate r = record_idate r'
  /\ rec_sn r = rec_sn r'
  /\ rec_series r = rec_series r'.

(** A block with the same fields 6 and 10 as [block_50] and other bytes
    elsewhere. *)
Definition block_50_other : bytes :=
  repeat xff 24 ++ [x32; x00; x00; x00] ++ repeat xff 12 ++ repeat x00 4
    ++ repeat xff 40.

(** The records of the filter example with other notes, separators and
    unused fields. *)
Definition filter_records_other : list sbw4_record :=
  map (fun r => {| rec_block := block_50_other; rec_notes := b_lit "other notes";
                   rec_sn := rec_sn r; rec_series := rec_series r;
                   rec_gap := [xff; xff] |})
      filter_records.

(** A header that declares no record. *)
Definition header_zero : bytes := repeat x00 12.

(** A v2 source whose title line is not UTF-8, and one whose second
    record line is not. *)
Definition v2_bad_title_source : bytes :=
  magic_2 ++ [b_lf] ++ [xff; b_lf] ++ lf_line "01/2020" ++ lf_line "1"
    ++ lf_line "B2,100,EE,02/2001".

Definition v2_bad_line_source : bytes :=
  v2_example_head "2" ++ lf_line "B2,100,EE,02/2001" ++ [xc3; b_lf].



Definition header_five : bytes :=
  [x00; x00; x00; x00; x05; x00; x00; x00; x00; x00; x00; x00].

(** ** Record lines of a v2 source *)

Definition is_space (c : N) : Prop := is_unicode_space c = true.

(** A field between double quotes. *)
Definition quoted (a : str) : str := c_dquote :: a ++ [c_dquote].

(** A record line with its four fields quoted and separated by commas, in
    the order of the file: serial number, denomination, series, issue
    date; [ending] is what follows the fourth field. *)
Definition v2_line (sn de se da ending : str) : str :=
  quoted sn ++ [c_comma] ++ quoted de ++ [c_comma] ++ quoted se ++ [c_comma]
    ++ quoted da ++ ending.

(** A field that holds no comma and neither starts nor ends with a double
    quote. *)
Definition v2_plain_field (a : str) : Prop :=
  ~ In c_comma a
  /\ (forall a', a <> c_dquote :: a')
  /\ (forall a', a <> a' ++ [c_dquote]).

(** ** Texts that can be written *)

(** A Unicode scalar value: a code point that is no surrogate.  A text of
    scalar values has a UTF-8 encoding. *)
Definition scalar (c : N) : Prop := (c < 55296 \/ 57343 < c < 1114112)%N.

(** A printable ASCII character, from the space to the tilde. *)
Definition printable (c : N) : Prop := (32 <= c <= 126)%N.

(** An entry of [bonds] that is a bond whose texts are made of scalar
    values. *)
Definition bond_encodable (ob : option GBDocBond) : Prop :=
  exists b,
    ob = Some b
    /\ Forall scalar (series b) /\ Forall scalar (idate b) /\ Forall scalar (sn b).

Definition doc_encodable (doc : GBDoc) : Prop :=
  Forall scalar (title doc) /\ Forall bond_encodable (bonds doc).

(** The row of a bond in the tabular output. *)
Definition csv_row (b : GBDocBond) : str :=
  csv_writerow [series b; float_repr (denom b); sn b; idate b].

(** A character of the JSON output: printable ASCII, or a line feed in the
    pretty layout. *)
Definition json_char (pretty : bool) (c : N) : Prop :=
  printable c \/ (pretty = true /\ c = c_lf).

Definition indented (indent : option nat) : bool :=
  match indent with
  | Some _ => true
  | None => false
  end.

(** ** Examples for the writers *)

(** The tabular text of the example document, with its header. *)
Definition sbw4_example_csv : str :=
  s_lit "Series,Denomination,Serial Number,Issue Date" ++ crlf
    ++ s_lit "E,50.0,A1,04/1941" ++ crlf.

(** The JSON texts of the example document, compact and pretty. *)
Definition sbw4_example_json (pretty : bool) : str :=
  match to_json pretty sbw4_example_doc with
  | Ok s => s
  | Err _ => []
  end.

(** The decidable form of [scalar]. *)
Definition is_scalar (c : N) : bool :=
  ((c <? 55296) || (57343 <? c) && (c <? 1114112))%N.

(** The arguments of a run without options. *)
Definition no_options : Namespace :=
  {| csv_file := None; csv := false; pretty := false |}.

(** ** Line ends *)

Definition b_cr : byte := x0d.

(** The source with a carriage return before every line feed. *)
Fixpoint with_crlf (x : bytes) : bytes :=
  match x with
  | [] => []
  | b :: x' =>
      if Byte.eqb b b_lf then b_cr :: b :: with_crlf x' else b :: with_crlf x'
  end.

(** Two runs that end alike: the same value and status code with the file
    of the second at the matching place, or the same exception. *)
Definition same_outcome {A} (o o' : outcome A) : Prop :=
  match o, o' with
  | Done a w, Done a' w' =>
      a = a' /\ status_code w' = status_code w
      /\ fp_rest w' = with_crlf (fp_rest w)
  | Raised e, Raised e' => e = e'
  | _, _ => False
  end.

(** Two decoded lines that differ in the blanks at their end only. *)
Definition same_but_line_end (t t' : str) : Prop :=
  exists s ws ws',
    t = s ++ ws /\ t' = s ++ ws' /\ Forall is_space ws /\ Forall is_space ws'.

(** A v2 source of three record lines, with line feeds. *)
Definition v2_three_lines_source : bytes :=
  v2_example_head "3" ++ lf_line "A1,50,E,01/2000" ++ lf_line "short,line"
    ++ lf_line "B2,100,EE,02/2001".

(** An entry of [bonds] as the v2 reader makes it: a bond whose series,
    issue date and serial number are plain fields. *)
Definition bond_of_v2 (ob : option GBDocBond) : Prop :=
  exists b,
    ob = Some b
    /\ v2_plain_field (series b) /\ v2_plain_field (idate b) /\ v2_plain_field (sn b).

(** * Properties *)

(** ** Lists and bytes *)

Lemma firstn_length_app {A} (x r : list A) : firstn (length x) (x ++ r) = x.
Proof. induction x; simpl; congruence. Qed.

Lemma skipn_length_app {A} (x r : list A) : skipn (length x) (x ++ r) = r.
Proof. induction x; simpl; congruence. Qed.

(** ** The date codec *)

Lemma dec_digits_4 (n : N) :
  (1000 <= n < 10000)%N ->
  dec_digits n = [n / 1000; (n / 100) mod 10; (n / 10) mod 10; n mod 10]%N.
Proof.
  intros Hn. unfold dec_digits.
  assert (Hlog : (9 <= N.log2 n)%N).
  { apply N.log2_le_pow2; [lia|]. change (2 ^ 9)%N with 512%N. lia. }
  remember (N.to_nat (N.log2 n)) as f eqn:Hf.
  assert (Hf4 : 4 <= f) by lia.
  destruct f as [|[|[|[|f]]]]; try lia.
  cbn [dec_digits_fuel].
  assert (H1 : ((n <? 10)%N = false)) by (apply N.ltb_ge; lia).
  assert (H2 : ((n / 10 <? 10)%N = false)).
  { apply N.ltb_ge. apply N.div_le_lower_bound; lia. }
  assert (H3 : ((n / 10 / 10 <? 10)%N = false)).
  { apply N.ltb_ge. rewrite N.Div0.div_div. apply N.div_le_lower_bound; lia. }
  assert (H4 : ((n / 10 / 10 / 10 <? 10)%N = true)).
  { apply N.ltb_lt. rewrite !N.Div0.div_div. apply N.Div0.div_lt_upper_bound; lia. }
  rewrite H1, H2, H3, H4.
  rewrite !N.Div0.div_div. reflexivity.
Qed.

Lemma dec_digits_small (n : N) : (n < 10)%N -> dec_digits n = [n].
Proof.
  intros Hn. unfold dec_digits. cbn [dec_digits_fuel].
  apply N.ltb_lt in Hn. now rewrite Hn.
Qed.

Lemma dec_digits_2 (n : N) : (10 <= n < 100)%N -> dec_digits n = [n / 10; n mod 10]%N.
Proof.
  intros Hn. unfold dec_digits.
  assert (Hlog : (3 <= N.log2 n)%N).
  { apply N.log2_le_pow2; [lia|]. change (2 ^ 3)%N with 8%N. lia. }
  remember (N.to_nat (N.log2 n)) as f eqn:Hf.
  destruct f as [|[|f]]; try lia.
  cbn [dec_digits_fuel].
  assert (H1 : ((n <? 10)%N = false)) by (apply N.ltb_ge; lia).
  assert (H2 : ((n / 10 <? 10)%N = true)).
  { apply N.ltb_lt. apply N.Div0.div_lt_upper_bound; lia. }
  now rewrite H1, H2.
Qed.

Lemma strftime_mY_digits (year month day : Z) :
  (1000 <= year <= 9999)%Z -> (1 <= month <= 12)%Z ->
  strftime_mY (year, month, day) = mm_yyyy (Z.to_N month) (Z.to_N year).
Proof.
  intros Hy Hm. unfold strftime_mY, mm_yyyy, str_of_N.
  rewrite (dec_digits_4 (Z.to_N year)) by lia.
  destruct (Z.ltb_spec month 10) as [Hlt|Hge].
  - rewrite dec_digits_small by lia.
    rewrite (N.div_small (Z.to_N month) 10), (N.mod_small (Z.to_N month) 10) by lia.
    reflexivity.
  - rewrite dec_digits_2 by lia. reflexivity.
Qed.

Lemma days_in_month_ge_1 (year month : Z) : (1 <= days_in_month year month)%Z.
Proof.
  unfold days_in_month.
  destruct (month =? 2)%Z; [destruct (isleap year); lia|].
  destruct (_ || _); lia.
Qed.

(** The date that lies [m] months after the epoch: the year decides
    whether it is built. *)
Lemma datetime_add_epoch (m : N) :
  datetime_add SBW4_EPOCH (relativedelta_months (Z.of_N m))
  = (let year := 1941 + (3 + Z.of_N m) / 12 in
     if INT_MAX <? year then Err OverflowError
     else if year <=? MAXYEAR then Ok (year, (3 + Z.of_N m) mod 12 + 1, 1)
     else Err ValueError)%Z.
Proof.
  unfold datetime_add, SBW4_EPOCH. cbv zeta.
  set (n := Z.of_N m).
  assert (Hn : (0 <= n)%Z) by (subst n; lia).
  assert (Hrd : relativedelta_months n = (n / 12, n mod 12)%Z).
  { unfold relativedelta_months. destruct (Z.ltb_spec 11 (Z.abs n)) as [H|H]; [reflexivity|].
    rewrite Z.abs_eq in H by lia.
    rewrite Z.div_small, Z.mod_small by lia. reflexivity. }
  rewrite Hrd.
  pose proof (Z.mod_pos_bound n 12 ltac:(lia)) as Hmod.
  pose proof (Z.div_mod n 12 ltac:(lia)) as Hdm.
  pose proof (Z.mod_pos_bound (3 + n) 12 ltac:(lia)) as Hmod3.
  pose proof (Z.div_mod (3 + n) 12 ltac:(lia)) as Hdm3.
  assert (Hq : (0 <= n / 12)%Z) by (apply Z.div_pos; lia).
  assert (Hsplit :
            (if 12 <? 4 + n mod 12
             then (1941 + n / 12 + 1, 4 + n mod 12 - 12)
             else (1941 + n / 12, 4 + n mod 12))%Z
            = (1941 + (3 + n) / 12, (3 + n) mod 12 + 1)%Z).
  { destruct (Z.ltb_spec 12 (4 + n mod 12)); f_equal; lia. }
  rewrite Hsplit.
  rewrite Z.min_r by apply days_in_month_ge_1.
  assert (Hy : (1941 <= 1941 + (3 + n) / 12)%Z)
    by (assert (0 <= (3 + n) / 12)%Z by (apply Z.div_pos; lia); lia).
  replace (1941 + (3 + n) / 12 <? INT_MIN)%Z with false
    by (symmetry; apply Z.ltb_ge; unfold INT_MIN; lia).
  replace (MINYEAR <=? 1941 + (3 + n) / 12)%Z with true
    by (symmetry; apply Z.leb_le; unfold MINYEAR; lia).
  reflexivity.
Qed.

(** The date that lies [m] months after the epoch, while it stays within
    the year 9999. *)
Lemma datetime_add_months (m : N) :
  (m <= LAST_MONTHS)%N ->
  datetime_add SBW4_EPOCH (relativedelta_months (Z.of_N m))
  = Ok (1941 + (3 + Z.of_N m) / 12, (3 + Z.of_N m) mod 12 + 1, 1)%Z.
Proof.
  unfold LAST_MONTHS. intros Hm. rewrite datetime_add_epoch. cbv zeta.
  pose proof (Z.mod_pos_bound (3 + Z.of_N m) 12 ltac:(lia)) as Hmod.
  pose proof (Z.div_mod (3 + Z.of_N m) 12 ltac:(lia)) as Hdm.
  unfold INT_MAX, MAXYEAR.
  destruct (Z.ltb_spec 2147483647 (1941 + (3 + Z.of_N m) / 12)); [lia|].
  destruct (Z.leb_spec (1941 + (3 + Z.of_N m) / 12) 9999); [reflexivity|lia].
Qed.

Lemma gb_date_fmt_total (m : N) :
  (m <= LAST_MONTHS)%N -> exists d, gb_date_fmt m = Ok d.
Proof.
  intros Hm. unfold gb_date_fmt. rewrite datetime_add_months by exact Hm.
  now eexists.
Qed.

Lemma gb_date_fmt_text (m : N) :
  (m <= LAST_MONTHS)%N ->
  gb_date_fmt m = Ok (mm_yyyy ((3 + m) mod 12 + 1) (1941 + (3 + m) / 12)).
Proof.
  intros Hm. unfold gb_date_fmt. rewrite datetime_add_months by exact Hm.
  unfold LAST_MONTHS in Hm.
  pose proof (Z.mod_pos_bound (3 + Z.of_N m) 12 ltac:(lia)) as Hmod.
  pose proof (Z.div_mod (3 + Z.of_N m) 12 ltac:(lia)) as Hdm.
  rewrite strftime_mY_digits by lia.
  do 2 f_equal.
  - rewrite Z2N.inj_add, Z2N.inj_mod by lia.
    rewrite Z2N.inj_add, N2Z.id by lia. reflexivity.
  - rewrite Z2N.inj_add, Z2N.inj_div by lia.
    rewrite Z2N.inj_add, N2Z.id by lia. reflexivity.
Qed.

(** Past December 9999 the date is not built: the year is out of range
    while it fits a C [int], and too large for one from [OVERFLOW_MONTHS]
    on. *)
Lemma gb_date_fmt_beyond (m : N) :
  (LAST_MONTHS < m)%N ->
  gb_date_fmt m
  = Err (if (m <? OVERFLOW_MONTHS)%N then ValueError else OverflowError).
Proof.
  unfold LAST_MONTHS, OVERFLOW_MONTHS, gb_date_fmt. intros Hm.
  rewrite datetime_add_epoch. cbv zeta.
  pose proof (Z.mod_pos_bound (3 + Z.of_N m) 12 ltac:(lia)) as Hmod.
  pose proof (Z.div_mod (3 + Z.of_N m) 12 ltac:(lia)) as Hdm.
  unfold INT_MAX, MAXYEAR.
  destruct (N.ltb_spec m 25769780481);
    destruct (Z.ltb_spec 2147483647 (1941 + (3 + Z.of_N m) / 12)); try lia;
    [|reflexivity].
  destruct (Z.leb_spec (1941 + (3 + Z.of_N m) / 12) 9999); [lia|reflexivity].
Qed.

(** A date that the codec returns is the text of a count within range. *)
Lemma gb_date_fmt_Ok_inv (m : N) (d : str) :
  gb_date_fmt m = Ok d ->
  (m <= LAST_MONTHS)%N /\ d = mm_yyyy ((3 + m) mod 12 + 1) (1941 + (3 + m) / 12).
Proof.
  intros H. destruct (N.leb_spec m LAST_MONTHS) as [Hle|Hgt].
  - split; [exact Hle|]. rewrite (gb_date_fmt_text m Hle) in H. congruence.
  - rewrite (gb_date_fmt_beyond m Hgt) in H. discriminate H.
Qed.


(** C8, as stated, fails past the year 9999: 96705 months after April 1941
    is January 10000, and building that date raises [ValueError]. *)
Lemma gb_date_fmt_year_10000 : gb_date_fmt 96705 = Err ValueError.
Proof. reflexivity. Qed.

(** C8 (amended): for every count of months [m] from 0 to 96704 the date
    codec returns the zero-padded text [MM/YYYY] whose month is
    [((3 + m) mod 12) + 1] and whose year is [1941 + (3 + m) div 12]; for
    every larger count it returns no text: it raises [ValueError] while the
    year fits a C [int], that is up to the count 25769780480, and
    [OverflowError] from the count 25769780481 on. *)
Theorem gb_date_fmt_calendar_months (m : N) :
  ((m <= LAST_MONTHS)%N ->
   gb_date_fmt m = Ok (mm_yyyy ((3 + m) mod 12 + 1) (1941 + (3 + m) / 12)))
  /\ ((LAST_MONTHS < m < OVERFLOW_MONTHS)%N -> gb_date_fmt m = Err ValueError)
  /\ ((OVERFLOW_MONTHS <= m)%N -> gb_date_fmt m = Err OverflowError).
Proof.
  split; [apply gb_date_fmt_text|]. split; intros Hm.
  - rewrite gb_date_fmt_beyond by apply Hm.
    destruct (N.ltb_spec m OVERFLOW_MONTHS); [reflexivity|lia].
  - rewrite gb_date_fmt_beyond by (unfold LAST_MONTHS, OVERFLOW_MONTHS in *; lia).
    destruct (N.ltb_spec m OVERFLOW_MONTHS); [lia|reflexivity].
Qed.

(** ** The file object *)

Lemma fp_rest_advance (n : nat) (w : world) :
  fp_rest (advance n w) = skipn n (fp_rest w).
Proof.
  unfold fp_rest, advance; simpl. rewrite skipn_skipn. f_equal. lia.
Qed.

Lemma bind_Done {A B} (m : M A) (k : A -> M B) (w w1 : world) (a : A) :
  m w = Done a w1 -> bind m k w = k a w1.
Proof. unfold bind. now intros ->. Qed.

(** ** The format sniffer *)

Lemma list_eqb_eq {A} (eqb : A -> A -> bool) (x y : list A) :
  (forall a b, eqb a b = true <-> a = b) ->
  list_eqb eqb x y = true <-> x = y.
Proof.
  intros Heqb. revert y. induction x as [|a x IH]; intros [|b y]; simpl;
    try (split; [discriminate|discriminate]); try tauto.
  rewrite andb_true_iff, Heqb, IH. split.
  - now intros [-> ->].
  - intros [= -> ->]. auto.
Qed.

Lemma byte_eqb_eq (a b : byte) : Byte.eqb a b = true <-> a = b.
Proof.
  split; [apply Byte.byte_dec_bl | apply Byte.byte_dec_lb].
Qed.

Lemma bytes_eqb_eq (x y : bytes) : bytes_eqb x y = true <-> x = y.
Proof. apply list_eqb_eq, byte_eqb_eq. Qed.

Lemma startswith_take_line (x p : bytes) :
  ~ In b_lf p -> bytes_startswith (take_line x) p = bytes_startswith x p.
Proof.
  unfold bytes_startswith. revert x. induction p as [|b p IH]; intros x Hp.
  - now destruct (take_line x), x.
  - destruct x as [|a x]; [reflexivity|]. simpl.
    destruct (Byte.eqb a b_lf) eqn:Ha.
    + apply byte_eqb_eq in Ha. subst a.
      assert (Hb : Byte.eqb b_lf b = false).
      { destruct (Byte.eqb b_lf b) eqn:E; [|reflexivity].
        apply byte_eqb_eq in E. subst b. exfalso. apply Hp. now left. }
      simpl. now rewrite Hb.
    + simpl. rewrite IH; [reflexivity|]. intros Hin. apply Hp. now right.
Qed.

Lemma startswith_short {A} (eqb : A -> A -> bool) (x p : list A) :
  length x <= length p -> startswith eqb x p = list_eqb eqb x p.
Proof.
  revert x. induction p as [|b p IH]; intros [|a x] Hlen; simpl in *;
    try reflexivity; try lia.
  rewrite IH by lia. reflexivity.
Qed.

Lemma sniff_version_run (content : bytes) (code : Z) :
  sniff_version (opened content code)
  = Done (source_version content) (opened content code).
Proof.
  cbv [sniff_version bind fp_readline fp_seek fp_read ret advance fp_rest opened
       fp_content fp_pos status_code source_version SBW4_CBOND_SIZE].
  change (skipn 0 content) with content.
  rewrite !startswith_take_line
    by (unfold magic_2, magic_3; simpl; intuition discriminate).
  destruct (bytes_startswith content magic_2 || bytes_startswith content magic_3);
    [reflexivity|].
  unfold bytes_startswith.
  rewrite startswith_short
    by (rewrite length_firstn; change (length magic_cbond) with 5; lia).
  reflexivity.
Qed.

(** C3, as stated, fails: five characters after the quoted literal on the
    first line do not stop the probe from answering version 2, where the
    sniffer of the specification goes on to offset 12 and answers 4. *)
Lemma sniff_version_accepts_trailing_text :
  sniffer_as_specified trailing_magic_source = 4%Z
  /\ sniff_version (opened trailing_magic_source GB_OK)
     = Done 2%Z (opened trailing_magic_source GB_OK).
Proof. split; reflexivity. Qed.

(** C3 (amended): the probe answers version 2 exactly when the first line,
    as read and with no trimming, starts with the bytes of the quoted
    literal SBW 2 or SBW 3, whatever follows them on the line; otherwise it
    answers 4 exactly when the five bytes at offset 12 are CBond, and
    otherwise 0. *)
Theorem sniff_version_by_prefix (content : bytes) (code : Z) :
  let first_line := take_line content in
  let v2 := bytes_startswith first_line magic_2 || bytes_startswith first_line magic_3 in
  let probe := firstn 5 (skipn 12 content) in
  exists v w,
    sniff_version (opened content code) = Done v w
    /\ (v = 2%Z <-> v2 = true)
    /\ (v = 4%Z <-> v2 = false /\ probe = magic_cbond)
    /\ (v = 0%Z <-> v2 = false /\ probe <> magic_cbond).
Proof.
  intros first_line v2 probe.
  exists (source_version content), (opened content code).
  split; [apply sniff_version_run|].
  subst first_line v2 probe.
  rewrite !startswith_take_line
    by (unfold magic_2, magic_3; simpl; intuition discriminate).
  unfold source_version.
  destruct (bytes_startswith content magic_2 || bytes_startswith content magic_3).
  - split; [split; intros _; reflexivity|].
    split; (split; [intros Hx; discriminate Hx|intros [Hx _]; discriminate Hx]).
  - destruct (bytes_eqb (firstn 5 (skipn 12 content)) magic_cbond) eqn:Hc.
    + apply bytes_eqb_eq in Hc.
      split; [split; intros Hx; discriminate Hx|]. split.
      * split; [intros _; split; [reflexivity|exact Hc]|intros _; reflexivity].
      * split; [intros Hx; discriminate Hx|intros [_ Hx]; contradiction].
    + assert (Hne : firstn 5 (skipn 12 content) <> magic_cbond).
      { intros Heq. apply bytes_eqb_eq in Heq. congruence. }
      split; [split; intros Hx; discriminate Hx|]. split.
      * split; [intros Hx; discriminate Hx|intros [_ Hx]; contradiction].
      * split; [intros _; split; [reflexivity|exact Hne]|intros _; reflexivity].
Qed.

(** C10: on a freshly opened source the probe returns version 2, 4 or 0,
    raises nothing, and leaves the file at offset 0 with its content and the
    status code untouched, so that the reader chosen by [gb_doc_sbw_open]
    starts at offset 0; a second probe gives the same version and again
    leaves the file at offset 0. *)
Theorem sniff_version_restores_position {interp : Interpreter}
        (content : bytes) (code : Z) :
  exists v,
    sniff_version (opened content code) = Done v (opened content code)
    /\ (v = 2%Z \/ v = 4%Z \/ v = 0%Z)
    /\ (v1 <- sniff_version ;; v2 <- sniff_version ;; ret (v1, v2))
         (opened content code)
       = Done (v, v) (opened content code)
    /\ gb_doc_sbw_open (Some content) code
       = match (if (v =? 2)%Z then read_sbw2
                else if (v =? 4)%Z then read_sbw4
                else set_status GB_ERROR_OPEN_SBW_BAD_MAGIC ;;; ret None)
               (opened content code)
         with
         | Done doc w => Returned doc (status_code w)
         | Raised e => Raise e
         end.
Proof.
  exists (source_version content). split; [apply sniff_version_run|]. split.
  - unfold source_version.
    destruct (_ || _); [tauto|]. destruct (bytes_eqb _ _); tauto.
  - split.
    + do 2 (erewrite bind_Done by apply sniff_version_run).
      reflexivity.
    + unfold gb_doc_sbw_open. fold (opened content code).
      erewrite bind_Done by apply sniff_version_run. reflexivity.
Qed.

(** ** Reads of the v4 reader *)

Lemma advance_0 (w : world) : advance 0 w = w.
Proof. destruct w. unfold advance; simpl. f_equal. lia. Qed.

Lemma fp_rest_advance_app (w : world) (x rest : bytes) :
  fp_rest w = x ++ rest -> fp_rest (advance (length x) w) = rest.
Proof. intros H. rewrite fp_rest_advance, H. apply skipn_length_app. Qed.

Lemma bind_fp_read {B} (k : bytes -> M B) (w : world) (x rest : bytes) :
  fp_rest w = x ++ rest ->
  bind (fp_read (length x)) k w = k x (advance (length x) w).
Proof.
  intros H. unfold bind, fp_read. rewrite H, firstn_length_app. reflexivity.
Qed.

Lemma bind_lift_Ok {A B} (a : A) (k : A -> M B) (w : world) :
  bind (lift (Ok a)) k w = k a w.
Proof. reflexivity. Qed.

Lemma bind_ret {A B} (a : A) (k : A -> M B) (w : world) :
  bind (ret a) k w = k a w.
Proof. reflexivity. Qed.

Lemma bind_bind {A B C} (m : M A) (f : A -> M B) (g : B -> M C) (w : world) :
  bind (bind m f) g w = bind m (fun a => bind (f a) g) w.
Proof. unfold bind. destruct (m w); reflexivity. Qed.

Lemma length_prefixed_cons (x : bytes) :
  length x <= 255 ->
  exists b, length_prefixed x = b :: x /\ Byte.to_nat b = length x.
Proof.
  intros Hx. unfold length_prefixed.
  pose proof (Byte.to_of_nat_option_map (length x)) as H.
  destruct (Byte.of_nat (length x)) as [b|] eqn:Hb.
  - exists b. split; [reflexivity|]. now apply Byte.to_of_nat.
  - simpl in H. destruct (Nat.leb_spec (length x) 255); [discriminate|lia].
Qed.

Lemma bind_read_length_byte {B} (k : nat -> M B) (w : world) (x rest : bytes) :
  length x <= 255 ->
  fp_rest w = length_prefixed x ++ rest ->
  bind read_length_byte k w = k (length x) (advance 1 w)
  /\ fp_rest (advance 1 w) = x ++ rest.
Proof.
  intros Hx Hw. destruct (length_prefixed_cons x Hx) as (b & Hb & Hn).
  rewrite Hb in Hw. change ((b :: x) ++ rest) with ([b] ++ x ++ rest) in Hw.
  split; [|apply (fp_rest_advance_app _ _ _ Hw)].
  unfold read_length_byte. rewrite bind_bind.
  rewrite (bind_fp_read _ _ _ _ Hw). cbn [length].
  rewrite bind_bind.
  change (struct_unpack fmt_B [b]) with (Ok [le_uint [b]]).
  rewrite bind_lift_Ok, bind_ret. cbn [nth le_uint].
  replace (Z.to_nat (Z.of_N (Byte.to_N b) + 256 * 0)) with (length x);
    [reflexivity|].
  rewrite <- Hn, Byte.to_nat_via_N. lia.
Qed.

(** Skipping a length-prefixed field (the notes). *)
Lemma bind_skip_field {B} (k : M B) (w : world) (x rest : bytes) :
  length x <= 255 ->
  fp_rest w = length_prefixed x ++ rest ->
  exists w1,
    fp_rest w1 = rest /\ status_code w1 = status_code w
    /\ bind read_length_byte
         (fun n_bytes =>
            bind (if 0 <? n_bytes then bind (fp_read n_bytes) (fun _ => ret tt)
                  else ret tt)
                 (fun _ => k)) w
       = k w1.
Proof.
  intros Hx Hw.
  destruct (bind_read_length_byte
              (fun n_bytes =>
                 bind (if 0 <? n_bytes then bind (fp_read n_bytes) (fun _ => ret tt)
                       else ret tt)
                      (fun _ => k)) w x rest Hx Hw) as [Hrun Hrest].
  exists (advance (length x) (advance 1 w)). split; [|split].
  - now apply fp_rest_advance_app.
  - reflexivity.
  - rewrite Hrun. destruct (Nat.ltb_spec 0 (length x)) as [Hpos|Hzero].
    + rewrite bind_bind, (bind_fp_read _ _ _ _ Hrest). reflexivity.
    + assert (Hl : length x = 0) by lia. rewrite Hl, advance_0. reflexivity.
Qed.

(** Reading a length-prefixed text field (serial number, series). *)
Lemma bind_text_field {B} (k : str -> M B) (w : world) (x rest : bytes) :
  length x <= 255 ->
  utf8_decode x <> None ->
  fp_rest w = length_prefixed x ++ rest ->
  exists w1,
    fp_rest w1 = rest /\ status_code w1 = status_code w
    /\ bind read_length_byte
         (fun n_bytes =>
            bind (if 0 <? n_bytes
                  then bind (fp_read n_bytes) (fun raw => lift (bytes_decode raw))
                  else ret [])
                 k) w
       = k (text_of x) w1.
Proof.
  intros Hx Hutf Hw.
  destruct (bind_read_length_byte
              (fun n_bytes =>
                 bind (if 0 <? n_bytes
                       then bind (fp_read n_bytes) (fun raw => lift (bytes_decode raw))
                       else ret [])
                      k) w x rest Hx Hw) as [Hrun Hrest].
  exists (advance (length x) (advance 1 w)). split; [|split].
  - now apply fp_rest_advance_app.
  - reflexivity.
  - rewrite Hrun. destruct (Nat.ltb_spec 0 (length x)) as [Hpos|Hzero].
    + rewrite bind_bind, (bind_fp_read _ _ _ _ Hrest).
      unfold bytes_decode, text_of.
      destruct (utf8_decode x) as [s|]; [reflexivity|congruence].
    + assert (Hl : length x = 0) by lia. rewrite Hl, advance_0.
      destruct x; [reflexivity|discriminate].
Qed.

Lemma bind_fp_read_n {B} (n : nat) (k : bytes -> M B) (w : world) (x rest : bytes) :
  length x = n ->
  fp_rest w = x ++ rest ->
  bind (fp_read n) k w = k x (advance n w) /\ fp_rest (advance n w) = rest.
Proof.
  intros <- H. split; [now apply bind_fp_read with (rest := rest)|].
  now apply fp_rest_advance_app.
Qed.

Lemma bind_get_status {B} (k : Z -> M B) (w : world) :
  bind get_status k w = k (status_code w) w.
Proof. reflexivity. Qed.

(** The separator read: two bytes when another record follows, fewer at
    the end of the file. *)
Lemma bind_gap {B} (c : bool) (k : M B) (w : world) :
  exists w1,
    fp_rest w1 = (if c then skipn 2 (fp_rest w) else fp_rest w)
    /\ status_code w1 = status_code w
    /\ bind (if c then bind (fp_read 2) (fun _ => ret tt) else ret tt)
            (fun _ => k) w
       = k w1.
Proof.
  destruct c.
  - exists (advance (length (firstn 2 (fp_rest w))) w). split; [|split].
    + rewrite fp_rest_advance.
      destruct (fp_rest w) as [|a [|b l]]; reflexivity.
    + reflexivity.
    + reflexivity.
  - exists w. repeat split.
Qed.

(** ** Little-endian fields *)

Lemma le_uint_bounds (x : bytes) : (0 <= le_uint x < 256 ^ Z.of_nat (length x))%Z.
Proof.
  induction x as [|b x IH].
  - simpl. lia.
  - cbn [le_uint length]. rewrite Nat2Z.inj_succ, Z.pow_succ_r by lia.
    pose proof (Byte.to_N_bounded b). lia.
Qed.

Lemma nth_unpack_fields (w n i : nat) (buf : bytes) :
  i < n -> nth i (unpack_fields (repeat w n) buf) 0%Z = le_field w i buf.
Proof.
  unfold le_field. revert i buf. induction n as [|n IH]; intros i buf Hi; [lia|].
  cbn [repeat unpack_fields]. destruct i as [|i].
  - cbn [nth]. now rewrite Nat.mul_0_r.
  - cbn [nth]. rewrite IH by lia. rewrite skipn_skipn, Nat.mul_succ_r. reflexivity.
Qed.

Lemma le_field_bounds (w i : nat) (buf : bytes) :
  (0 <= le_field w i buf < 256 ^ Z.of_nat w)%Z.
Proof.
  unfold le_field. pose proof (le_uint_bounds (firstn w (skipn (w * i) buf))) as H.
  split; [lia|]. eapply Z.lt_le_trans; [apply H|].
  apply Z.pow_le_mono_r; rewrite ?length_firstn; lia.
Qed.

(** ** [float] of an [int] *)

Lemma float_of_ratio_sign (neg : bool) (p q : Z) :
  match float_of_ratio neg p q with
  | FFin s _ _ => s = neg
  | FInf s => s = neg
  | FNan => False
  end.
Proof.
  unfold float_of_ratio. destruct (p =? 0)%Z; [reflexivity|].
  match goal with |- context [if ?c then (_, _) else (_, _)] => destruct c end;
    match goal with |- context [if ?c then FInf _ else _] => destruct c end;
    try reflexivity;
    match goal with |- context [if ?c then FFin _ _ _ else _] => destruct c end;
    reflexivity.
Qed.

Lemma py_float_of_int_nonneg (n : Z) (x : pyfloat) :
  (0 <= n)%Z -> py_float_of_int n = Some x ->
  float_finite x = true /\ float_nonneg x = true.
Proof.
  intros Hn. unfold py_float_of_int.
  pose proof (float_of_ratio_sign (n <? 0)%Z (Z.abs n) 1) as Hs.
  destruct (float_of_ratio (n <? 0)%Z (Z.abs n) 1) as [s m e|s|];
    try discriminate; try contradiction.
  intros [= <-]. split; [reflexivity|]. simpl. subst s.
  destruct (Z.ltb_spec n 0); [lia|reflexivity].
Qed.

Lemma div_half_even_1 (p : Z) : div_half_even p 1 = p.
Proof.
  unfold div_half_even. rewrite Z.div_1_r, Z.mod_1_r. reflexivity.
Qed.

(** An integer below [2^53] converts to the float that is this integer. *)
Lemma py_float_of_int_exact (n : Z) (x : pyfloat) :
  (0 <= n < 2 ^ 53)%Z -> py_float_of_int n = Some x -> float_integer x = Some n.
Proof.
  intros Hn. unfold py_float_of_int, float_of_ratio.
  rewrite Z.abs_eq by lia.
  destruct (Z.ltb_spec n 0) as [|_]; [lia|].
  destruct (Z.eqb_spec n 0) as [->|Hnz]; [intros [= <-]; reflexivity|].
  assert (Hpos : (0 < n)%Z) by lia.
  pose proof (Z.log2_spec n Hpos) as [Hlo Hhi].
  pose proof (Z.log2_nonneg n) as HL0.
  assert (HL : (Z.log2 n < 53)%Z) by (apply Z.log2_lt_pow2; lia).
  set (L := Z.log2 n) in *.
  change (Z.log2 1) with 0%Z. rewrite Z.sub_0_r.
  assert (H1 : scale2 n (- L) = n).
  { unfold scale2. rewrite Z.max_l by lia. now rewrite Z.pow_0_r, Z.mul_1_r. }
  assert (H2 : scale2 1 L = (2 ^ L)%Z).
  { unfold scale2. rewrite Z.max_r by lia. now rewrite Z.mul_1_l. }
  rewrite H1, H2.
  assert (H3 : (n <? 2 ^ L)%Z = false) by (apply Z.ltb_ge; exact Hlo).
  rewrite H3.
  rewrite (Z.max_l (L - 52) (-1074)) by lia.
  set (d := (- (L - 52))%Z).
  assert (Hd : (0 <= d)%Z) by (subst d; lia).
  assert (H4 : scale2 n d = (n * 2 ^ d)%Z).
  { unfold scale2. now rewrite Z.max_r by lia. }
  assert (H5 : scale2 1 (L - 52) = 1%Z).
  { unfold scale2. rewrite Z.max_l by lia. reflexivity. }
  rewrite H4, H5, div_half_even_1.
  assert (Hp : (0 < 2 ^ d)%Z) by (apply Z.pow_pos_nonneg; lia).
  assert (Hm : (0 < n * 2 ^ d < 2 ^ 53)%Z).
  { split; [apply Z.mul_pos_pos; lia|].
    replace 53%Z with (Z.succ L + d)%Z by (subst d; lia).
    rewrite Z.pow_add_r by lia.
    apply Z.mul_lt_mono_pos_r; [exact Hp|exact Hhi]. }
  destruct (Z.eqb_spec (n * 2 ^ d) (2 ^ 53)) as [|_]; [lia|].
  destruct (Z.ltb_spec 971 (L - 52)) as [|_]; [lia|].
  destruct (Z.eqb_spec (n * 2 ^ d) 0) as [|_]; [lia|].
  intros [= <-]. unfold float_integer. rewrite Z2N.id by lia.
  destruct (Z.leb_spec 0 (L - 52)) as [Hge|Hlt].
  - assert (Hd0 : d = 0%Z) by (subst d; lia).
    assert (HL52 : (L - 52 = 0)%Z) by lia.
    rewrite Hd0, HL52, Z.pow_0_r, !Z.mul_1_r. reflexivity.
  - fold d. rewrite Z.mod_mul by lia. cbn [Z.eqb].
    rewrite Z.div_mul by lia. reflexivity.
Qed.

(** An unsigned 32-bit integer converts: it is far below the overflow. *)
Lemma py_float_of_int_uint32 (n : Z) :
  (0 <= n < 2 ^ 32)%Z -> py_float_of_int n <> None.
Proof.
  intros Hn. unfold py_float_of_int, float_of_ratio.
  rewrite Z.abs_eq by lia.
  destruct (Z.eqb_spec n 0) as [->|Hnz]; [discriminate|].
  assert (Hlog : (0 <= Z.log2 n < 32)%Z).
  { split; [apply Z.log2_nonneg|]. apply Z.log2_lt_pow2; lia. }
  change (Z.log2 1) with 0%Z. rewrite Z.sub_0_r.
  set (lg := if (scale2 n (- Z.log2 n) <? scale2 1 (Z.log2 n))%Z
             then (Z.log2 n - 1)%Z else Z.log2 n).
  assert (Hlg : (lg <= 31)%Z) by (subst lg; destruct (_ <? _)%Z; lia).
  set (e := Z.max (lg - 52) (-1074)).
  assert (He : (e <= -21)%Z) by (subst e; lia).
  set (m := div_half_even (scale2 n (- e)) (scale2 1 e)).
  destruct (m =? 2 ^ 53)%Z.
  - destruct (Z.ltb_spec 971 (e + 1)); [lia|].
    destruct (2 ^ 52 =? 0)%Z; discriminate.
  - destruct (Z.ltb_spec 971 e); [lia|].
    destruct (m =? 0)%Z; discriminate.
Qed.

(** ** One round of the v4 loop on a valid record *)

Lemma record_bond_kept {interp : Interpreter} (r : sbw4_record) :
  record_valid r -> record_kept r = true ->
  exists d f,
    gb_date_fmt (Z.to_N (record_idate r)) = Ok d
    /\ py_float_of_int (record_denom r) = Some f
    /\ record_bond r
       = Some {| series := text_of (rec_series r); idate := d; denom := f;
                 sn := text_of (rec_sn r) |}.
Proof.
  intros (_ & _ & _ & _ & _ & _ & _ & Hdate) Hkept.
  specialize (Hdate Hkept).
  pose proof (le_field_bounds 4 10 (rec_block r)) as Hi.
  pose proof (le_field_bounds 4 6 (rec_block r)) as Hd.
  fold (record_idate r) in Hi. fold (record_denom r) in Hd.
  assert (Hfmt : exists d, gb_date_fmt (Z.to_N (record_idate r)) = Ok d).
  { apply gb_date_fmt_total. lia. }
  destruct Hfmt as [d Hfmt].
  destruct (py_float_of_int (record_denom r)) as [f|] eqn:Hf.
  - exists d, f. unfold record_bond. now rewrite Hfmt, Hf.
  - exfalso. revert Hf. apply py_float_of_int_uint32.
    change (2 ^ 32)%Z with (256 ^ Z.of_nat 4)%Z. exact Hd.
Qed.

Lemma read_sbw4_bonds_step {interp : Interpreter}
      (r : sbw4_record) (todo : nat) (i n : Z) (doc : GBDoc) (w : world)
      (rest : bytes) :
  record_valid r ->
  fp_rest w = record_bytes r ++ rest ->
  status_code w = GB_OK ->
  exists w1,
    fp_rest w1 = (if (i <? n - 1)%Z then skipn 2 rest else rest)
    /\ status_code w1 = GB_OK
    /\ read_sbw4_bonds (S todo) i n doc w
       = read_sbw4_bonds todo (i + 1) n (doc_after doc r) w1.
Proof.
  intros Hvalid Hw Hs.
  pose proof Hvalid as (Hblk & Hnotes & Hsn & Hser & Hgap & Usn & User & Hdate).
  unfold record_bytes in Hw. rewrite <- !app_assoc in Hw.
  cbn [read_sbw4_bonds].
  edestruct (@bind_fp_read_n (option GBDoc) 84) as [Hrun Hw1];
    [exact Hblk | exact Hw | ].
  rewrite Hrun. clear Hrun. rewrite Hblk.
  change (84 <? 84) with false. cbv iota.
  unfold struct_unpack at 1. rewrite Hblk.
  change (84 =? list_sum fmt_I21) with true. cbv iota.
  rewrite bind_lift_Ok.
  unfold fmt_I21. rewrite !nth_unpack_fields by lia.
  fold (record_denom r). fold (record_idate r).
  edestruct (@bind_skip_field (option GBDoc)) as (w2 & Hw2 & Hs2 & Hrun);
    [exact Hnotes | exact Hw1 | rewrite Hrun; clear Hrun].
  edestruct (@bind_text_field (option GBDoc)) as (w3 & Hw3 & Hs3 & Hrun);
    [exact Hsn | exact Usn | exact Hw2 | rewrite Hrun; clear Hrun].
  edestruct (@bind_text_field (option GBDoc)) as (w4 & Hw4 & Hs4 & Hrun);
    [exact Hser | exact User | exact Hw3 | rewrite Hrun; clear Hrun].
  edestruct (@bind_gap (option GBDoc) (i <? n - 1)%Z) as (w5 & Hw5 & Hs5 & Hrun);
    rewrite Hrun; clear Hrun.
  exists w5. rewrite Hw5, Hw4, Hs5, Hs4, Hs3, Hs2. split; [reflexivity|].
  split; [exact Hs|].
  unfold doc_after. fold (record_kept r).
  destruct (record_kept r) eqn:Hkept; [|reflexivity].
  destruct (record_bond_kept r Hvalid Hkept) as (d & f & Hd & Hf & Hb).
  rewrite Hd, bind_lift_Ok. unfold gb_doc_bond_new, py_float. rewrite Hf, bind_ret.
  rewrite bind_get_status, Hs5, Hs4, Hs3, Hs2.
  change (status_code (advance 84 w)) with (status_code w). rewrite Hs.
  change (negb (GB_OK =? GB_OK)%Z) with false. cbv iota.
  now rewrite Hb.
Qed.

(** ** The v4 loop over valid records *)

Lemma read_sbw4_bonds_gapped {interp : Interpreter} (recs : list sbw4_record) :
  forall (todo : nat) (i n : Z) (doc : GBDoc) (w : world) (rest : bytes),
    Forall record_valid recs ->
    (i + Z.of_nat (length recs) < n)%Z ->
    fp_rest w = gapped_records recs ++ rest ->
    status_code w = GB_OK ->
    exists w1,
      fp_rest w1 = rest
      /\ status_code w1 = GB_OK
      /\ read_sbw4_bonds (length recs + todo) i n doc w
         = read_sbw4_bonds todo (i + Z.of_nat (length recs)) n
             (fold_left doc_after recs doc) w1.
Proof.
  induction recs as [|r rs IH]; intros todo i n doc w rest Hvalid Hi Hw Hs.
  - exists w. rewrite Z.add_0_r. auto.
  - inversion Hvalid as [|? ? Hr Hrs]; subst.
    cbn [gapped_records flat_map] in Hw. rewrite <- !app_assoc in Hw.
    cbn [length] in Hi. rewrite Nat2Z.inj_succ in Hi.
    destruct (read_sbw4_bonds_step r (length rs + todo) i n doc w _ Hr Hw Hs)
      as (w1 & Hw1 & Hs1 & Hrun).
    destruct (Z.ltb_spec i (n - 1)) as [_|Hge]; [|lia].
    assert (Hgap : length (rec_gap r) = 2) by apply Hr.
    rewrite <- Hgap, skipn_length_app in Hw1.
    destruct (IH todo (i + 1)%Z n (doc_after doc r) w1 rest Hrs ltac:(lia) Hw1 Hs1)
      as (w2 & Hw2 & Hs2 & Hrun2).
    exists w2. split; [exact Hw2|]. split; [exact Hs2|].
    cbn [length Nat.add fold_left]. rewrite Hrun, Hrun2.
    rewrite Nat2Z.inj_succ. f_equal. lia.
Qed.

Lemma fold_doc_after {interp : Interpreter} (recs : list sbw4_record) (doc : GBDoc) :
  fold_left doc_after recs doc
  = {| title := title doc;
       bonds := bonds doc ++ map record_bond (filter record_kept recs) |}.
Proof.
  revert doc. induction recs as [|r rs IH]; intros doc.
  - cbn. rewrite app_nil_r. now destruct doc.
  - cbn [fold_left filter]. rewrite IH. unfold doc_after.
    destruct (record_kept r); [|reflexivity].
    cbn [add_bond title bonds map]. now rewrite <- app_assoc.
Qed.

Lemma sbw4_body_last (init : list sbw4_record) (last : sbw4_record) :
  sbw4_body (init ++ [last]) = gapped_records init ++ record_bytes last.
Proof.
  induction init as [|r rs IH]; [reflexivity|].
  change (sbw4_body ((r :: rs) ++ [last]))
    with (match rs ++ [last] with
          | [] => record_bytes r
          | _ :: _ => record_bytes r ++ rec_gap r ++ sbw4_body (rs ++ [last])
          end).
  destruct (rs ++ [last]) eqn:E; [now destruct rs|].
  rewrite IH. cbn [gapped_records flat_map]. now rewrite <- !app_assoc.
Qed.

Lemma bind_set_status {B} (c : Z) (k : unit -> M B) (w : world) :
  bind (set_status c) k w
  = k tt {| fp_content := fp_content w; fp_pos := fp_pos w; status_code := c |}.
Proof. reflexivity. Qed.

(** The reader up to the loop, on a source that has its header and marker. *)
Lemma read_sbw4_enters_loop {interp : Interpreter}
      (head marker body : bytes) (code : Z) :
  length head = 12 -> length marker = 5 ->
  exists w,
    fp_rest w = body /\ status_code w = GB_OK
    /\ read_sbw4 (opened (head ++ marker ++ body) code)
       = read_sbw4_bonds (Z.to_nat (header_count head)) 0 (header_count head)
           sbw4_doc_new w.
Proof.
  intros Hhead Hmarker. unfold read_sbw4. rewrite bind_set_status.
  set (w0 := {| fp_content := _; fp_pos := _; status_code := GB_OK |}).
  assert (Hw0 : fp_rest w0 = head ++ marker ++ body) by reflexivity.
  edestruct (@bind_fp_read_n (option GBDoc) 12) as [Hrun Hw1];
    [exact Hhead | exact Hw0 | rewrite Hrun; clear Hrun].
  rewrite Hhead. change (12 <? 12) with false. cbv iota.
  unfold struct_unpack. rewrite Hhead.
  change (12 =? list_sum fmt_HHHHHH) with true. cbv iota.
  rewrite bind_lift_Ok. unfold fmt_HHHHHH. rewrite !nth_unpack_fields by lia.
  fold (header_count head).
  rewrite <- (app_nil_r body) in Hw1 at 1. rewrite app_nil_r in Hw1.
  edestruct (@bind_fp_read_n (option GBDoc) SBW4_CBOND_SIZE) as [Hrun Hw2];
    [exact Hmarker | exact Hw1 | rewrite Hrun; clear Hrun].
  eexists. split; [exact Hw2|]. split; reflexivity.
Qed.

(** A valid v4 source decodes to the bonds of its kept records. *)
Lemma read_sbw4_valid_source {interp : Interpreter}
      (head marker : bytes) (recs : list sbw4_record) (tail : bytes) (code : Z) :
  length head = 12 ->
  header_count head = Z.of_nat (length recs) ->
  length marker = 5 ->
  Forall record_valid recs ->
  exists w,
    read_sbw4 (opened (sbw4_source head marker recs tail) code)
    = Done (Some {| title := s_lit "Imported SBW4 Inventory";
                    bonds := map record_bond (filter record_kept recs) |}) w
    /\ status_code w = GB_OK.
Proof.
  intros Hhead Hcount Hmarker Hvalid. unfold sbw4_source.
  destruct (read_sbw4_enters_loop head marker (sbw4_body recs ++ tail) code
              Hhead Hmarker) as (w & Hw & Hs & Hrun).
  rewrite Hrun, Hcount, Nat2Z.id. clear Hrun.
  destruct recs as [|r0 rs0] using rev_ind.
  - exists w. split; [reflexivity|exact Hs].
  - clear IHrs0. rename rs0 into init. rename r0 into last.
    apply Forall_app in Hvalid. destruct Hvalid as [Hinit Hlast].
    inversion Hlast as [|? ? Hl _]; subst.
    rewrite sbw4_body_last, <- app_assoc in Hw.
    rewrite length_app in *. cbn [length] in *.
    destruct (read_sbw4_bonds_gapped init 1 0 (Z.of_nat (length init + 1))
                sbw4_doc_new w _ Hinit ltac:(lia) Hw Hs)
      as (w1 & Hw1 & Hs1 & Hrun).
    rewrite Hrun. clear Hrun.
    destruct (read_sbw4_bonds_step last 0 (0 + Z.of_nat (length init))
                (Z.of_nat (length init + 1)) (fold_left doc_after init sbw4_doc_new)
                w1 tail Hl Hw1 Hs1) as (w2 & Hw2 & Hs2 & Hrun).
    rewrite Hrun. clear Hrun.
    exists w2. split; [|exact Hs2].
    cbn [read_sbw4_bonds]. unfold ret. do 2 f_equal.
    change (doc_after (fold_left doc_after init sbw4_doc_new) last)
      with (fold_left doc_after [last] (fold_left doc_after init sbw4_doc_new)).
    rewrite <- fold_left_app, fold_doc_after. reflexivity.
Qed.

(** ** The v4 reader on valid and on truncated sources *)

Lemma record_bond_series {interp : Interpreter} (recs : list sbw4_record) :
  Forall record_valid recs ->
  Forall2 (fun ob r =>
             exists b, ob = Some b
                       /\ series b = text_of (rec_series r)
                       /\ sn b = text_of (rec_sn r))
          (map record_bond (filter record_kept recs)) (filter record_kept recs).
Proof.
  induction 1 as [|r rs Hr _ IH]; [constructor|].
  cbn [filter]. destruct (record_kept r) eqn:Hk; [|exact IH].
  cbn [map]. constructor; [|exact IH].
  destruct (record_bond_kept r Hr Hk) as (d & f & _ & _ & ->).
  eexists. split; [reflexivity|]. split; reflexivity.
Qed.

(** C6: a v4 source made of a 12-byte header that declares [n] records, a
    5-byte marker and [n] valid records decodes without error to a document
    whose bonds are, in file order, those of the records whose series code,
    upper-cased, is one of E, S, EE, I; the other records leave no trace and
    raise no error. *)
Theorem read_sbw4_keeps_listed_series {interp : Interpreter}
        (head marker : bytes) (recs : list sbw4_record) (tail : bytes) (code : Z) :
  length head = 12 ->
  header_count head = Z.of_nat (length recs) ->
  length marker = 5 ->
  Forall record_valid recs ->
  exists doc w,
    read_sbw4 (opened (sbw4_source head marker recs tail) code) = Done (Some doc) w
    /\ status_code w = GB_OK
    /\ bonds doc = map record_bond (filter record_kept recs)
    /\ Forall2 (fun ob r =>
                  exists b, ob = Some b
                            /\ series b = text_of (rec_series r)
                            /\ sn b = text_of (rec_sn r))
               (bonds doc)
               (filter (fun r => str_in (py_upper (text_of (rec_series r)))
                                   [s_lit "E"; s_lit "S"; s_lit "EE"; s_lit "I"])
                       recs).
Proof.
  intros Hhead Hcount Hmarker Hvalid.
  destruct (read_sbw4_valid_source head marker recs tail code
              Hhead Hcount Hmarker Hvalid) as (w & Hrun & Hs).
  eexists. exists w. split; [exact Hrun|]. split; [exact Hs|].
  split; [reflexivity|]. now apply record_bond_series.
Qed.



(** C1, as stated, fails: the denomination is stored as a float, so the
    row of the example carries 50.0 and not 50. *)
Lemma example_row_has_float_denomination :
  csv_of_source (interp := plain_interpreter) sbw4_example_source
  = Ok (s_lit "E,50.0,A1,04/1941" ++ crlf)
  /\ csv_of_source (interp := plain_interpreter) sbw4_example_source
     <> Ok (s_lit "E,50,A1,04/1941" ++ crlf).
Proof. split; [vm_compute; reflexivity | vm_compute; discriminate]. Qed.

(** C1 (amended): a v4 source whose header declares one record and whose
    record has series E, raw denomination 50, raw issue date 0 and serial
    number A1 decodes to a document that the tabular writer renders as the
    header row and the body row E,50.0,A1,04/1941, in the column order
    Series, Denomination, Serial Number, Issue Date. *)
Theorem read_sbw4_example_row {interp : Interpreter}
        (head marker block notes tail : bytes) (code : Z) :
  length head = 12 ->
  header_count head = 1%Z ->
  length marker = 5 ->
  length block = 84 ->
  le_field 4 6 block = 50%Z ->
  le_field 4 10 block = 0%Z ->
  length notes <= 255 ->
  exists doc w,
    read_sbw4 (opened (sbw4_source head marker [example_record block notes] tail) code)
    = Done (Some doc) w
    /\ status_code w = GB_OK
    /\ to_csv false doc = Ok (s_lit "E,50.0,A1,04/1941" ++ crlf)
    /\ to_csv true doc
       = Ok (s_lit "Series,Denomination,Serial Number,Issue Date" ++ crlf
             ++ s_lit "E,50.0,A1,04/1941" ++ crlf).
Proof.
  intros Hhead Hcount Hmarker Hblock Hdenom Hidate Hnotes.
  assert (Hvalid : record_valid (example_record block notes)).
  { unfold record_valid, record_idate. cbn [example_record rec_block rec_notes
      rec_sn rec_series rec_gap]. rewrite Hidate.
    repeat split; try assumption; try (vm_compute; lia); try discriminate. }
  destruct (read_sbw4_valid_source head marker [example_record block notes] tail code
              Hhead Hcount Hmarker (Forall_cons _ Hvalid (Forall_nil _)))
    as (w & Hrun & Hs).
  eexists. exists w. split; [exact Hrun|]. split; [exact Hs|].
  assert (Hbond : map record_bond (filter record_kept [example_record block notes])
                  = bonds sbw4_example_doc).
  { cbn [filter]. change (record_kept (example_record block notes)) with true.
    cbn [map]. unfold record_bond, record_idate, record_denom.
    cbn [example_record rec_block rec_sn rec_series].
    rewrite Hidate, Hdenom. reflexivity. }
  unfold to_csv. cbn [bonds]. rewrite Hbond. split; vm_compute; reflexivity.
Qed.

(** C2: the code departs from the claim on short reads inside a record.
    When the length byte of a field is missing, [struct.unpack] raises
    [struct.error] to the caller; when the bytes of a field are fewer than
    its length byte declares, the reader takes what is there and returns a
    document. *)
Theorem read_sbw4_short_field_reads {interp : Interpreter} :
  gb_doc_sbw_open (Some sbw4_no_length_byte) GB_OK = Raise struct_error
  /\ gb_doc_sbw_open (Some sbw4_short_series) GB_OK
     = Returned (Some sbw4_example_doc) GB_OK.
Proof. split; vm_compute; reflexivity. Qed.

(** ** The v2 reader *)

Lemma bind_fp_readline {B} (k : bytes -> M B) (w : world) :
  bind fp_readline k w
  = k (take_line (fp_rest w)) (advance (length (take_line (fp_rest w))) w).
Proof. reflexivity. Qed.

Lemma fp_rest_after_line (w : world) :
  fp_rest (advance (length (take_line (fp_rest w))) w) = drop_line (fp_rest w).
Proof. apply fp_rest_advance. Qed.

(** One round of the v2 loop on a line that decodes. *)
Lemma read_sbw2_bonds_step {interp : Interpreter}
      (todo : nat) (doc : GBDoc) (w : world) (t : str) :
  utf8_decode (take_line (fp_rest w)) = Some t ->
  status_code w = GB_OK ->
  exists w1,
    fp_rest w1 = drop_line (fp_rest w)
    /\ status_code w1 = GB_OK
    /\ read_sbw2_bonds (S todo) doc w
       = if v2_is_record t then
           match v2_bond t with
           | Some b => read_sbw2_bonds todo (add_bond doc (Some b)) w1
           | None => Done None
                       {| fp_content := fp_content w1; fp_pos := fp_pos w1;
                          status_code := GB_ERROR_OPEN_SBW_PARSE |}
           end
         else read_sbw2_bonds todo doc w1.
Proof.
  intros Ht Hs.
  exists (advance (length (take_line (fp_rest w))) w).
  split; [apply fp_rest_after_line|]. split; [exact Hs|].
  cbn [read_sbw2_bonds]. rewrite bind_fp_readline.
  unfold bytes_decode. rewrite Ht, bind_lift_Ok.
  unfold v2_is_record. fold (v2_fields t).
  destruct (length (v2_fields t) <? 4); [reflexivity|]. cbn [negb].
  unfold gb_doc_bond_new, py_float, v2_bond. fold (v2_field 0 t).
  fold (v2_field 1 t). fold (v2_field 2 t). fold (v2_field 3 t).
  destruct (py_float_of_str (v2_field 1 t)) as [d|].
  - rewrite bind_ret, bind_get_status.
    change (status_code (advance (length (take_line (fp_rest w))) w))
      with (status_code w).
    rewrite Hs. reflexivity.
  - reflexivity.
Qed.


(** The v2 loop over lines that decode: the outcome is that of [v2_collect]. *)
Lemma read_sbw2_bonds_run {interp : Interpreter} (texts : list str) :
  forall (todo : nat) (doc : GBDoc) (w : world),
    map utf8_decode (read_lines (length texts) (fp_rest w)) = map Some texts ->
    status_code w = GB_OK ->
    match v2_collect texts with
    | Some bs =>
        exists w1,
          fp_rest w1 = after_lines (length texts) (fp_rest w)
          /\ status_code w1 = GB_OK
          /\ read_sbw2_bonds (length texts + todo) doc w
             = read_sbw2_bonds todo
                 {| title := title doc; bonds := bonds doc ++ bs |} w1
    | None =>
        exists w1,
          read_sbw2_bonds (length texts + todo) doc w = Done None w1
          /\ status_code w1 = GB_ERROR_OPEN_SBW_PARSE
    end.
Proof.
  induction texts as [|t ts IH]; intros todo doc w Hlines Hs.
  - cbn. exists w. rewrite app_nil_r. destruct doc; auto.
  - cbn [length read_lines map] in Hlines. injection Hlines as Ht Hts.
    destruct (read_sbw2_bonds_step (length ts + todo) doc w t Ht Hs)
      as (w1 & Hw1 & Hs1 & Hrun).
    rewrite <- Hw1 in Hts.
    cbn [v2_collect length Nat.add after_lines]. rewrite Hrun. clear Hrun.
    destruct (v2_is_record t).
    + destruct (v2_bond t) as [b|].
      * specialize (IH todo (add_bond doc (Some b)) w1 Hts Hs1).
        destruct (v2_collect ts) as [bs|]; cbn [option_map].
        -- destruct IH as (w2 & Hw2 & Hs2 & Hrun). exists w2.
           rewrite <- Hw1. split; [exact Hw2|]. split; [exact Hs2|].
           rewrite Hrun. cbn [add_bond title bonds].
           now rewrite <- app_assoc.
        -- exact IH.
      * eexists. split; reflexivity.
    + specialize (IH todo doc w1 Hts Hs1).
      destruct (v2_collect ts) as [bs|].
      * destruct IH as (w2 & Hw2 & Hs2 & Hrun). exists w2.
        rewrite <- Hw1. auto.
      * exact IH.
Qed.

Lemma v2_collect_all_parse {interp : Interpreter} (texts : list str) :
  (forall t, In t texts -> v2_is_record t = true -> v2_bond t <> None) ->
  v2_collect texts = Some (map v2_bond (filter v2_is_record texts)).
Proof.
  induction texts as [|t ts IH]; intros H; [reflexivity|].
  cbn [v2_collect filter].
  rewrite IH by (intros t' Hin; apply H; now right).
  destruct (v2_is_record t) eqn:Hr; [|reflexivity].
  destruct (v2_bond t) as [b|] eqn:Hb;
    [cbn [map option_map]; now rewrite Hb|].
  exfalso. apply (H t); auto. now left.
Qed.

Lemma v2_collect_bad_denomination {interp : Interpreter} (texts : list str) (t : str) :
  In t texts -> v2_is_record t = true -> v2_bond t = None ->
  v2_collect texts = None.
Proof.
  intros Hin Hr Hb. induction texts as [|t' ts IH]; [contradiction|].
  cbn [v2_collect]. destruct Hin as [->|Hin].
  - now rewrite Hr, Hb.
  - rewrite (IH Hin). destruct (v2_is_record t'); [|reflexivity].
    now destruct (v2_bond t').
Qed.

Lemma v2_collect_None {interp : Interpreter} (texts : list str) :
  v2_collect texts = None ->
  exists t, In t texts /\ v2_is_record t = true /\ v2_bond t = None.
Proof.
  induction texts as [|t ts IH]; [discriminate|]. cbn [v2_collect]. intros H.
  destruct (v2_is_record t) eqn:Hr.
  - destruct (v2_bond t) as [b|] eqn:Hb; [|exists t; split; [now left|auto]].
    destruct (v2_collect ts); [discriminate H|].
    destruct (IH eq_refl) as (t' & Hin & H'). exists t'. split; [now right|exact H'].
  - destruct (IH H) as (t' & Hin & H'). exists t'. split; [now right|exact H'].
Qed.

Lemma v2_collect_parse {interp : Interpreter} (texts : list str)
      (bs : list (option GBDocBond)) :
  v2_collect texts = Some bs ->
  forall t, In t texts -> v2_is_record t = true -> v2_bond t <> None.
Proof.
  intros H t Hin Hr Hb.
  now rewrite (v2_collect_bad_denomination texts t Hin Hr Hb) in H.
Qed.

(** The declared lines from the first on that are UTF-8 text: all [k] of
    them, or those before the first line that is not. *)
Lemma decodable_prefix (k : nat) :
  forall x : bytes,
    exists texts,
      length texts <= k
      /\ map utf8_decode (read_lines (length texts) x) = map Some texts
      /\ (length texts = k
          \/ (length texts < k
              /\ utf8_decode (take_line (after_lines (length texts) x)) = None)).
Proof.
  induction k as [|k IH]; intros x.
  - exists []. repeat split; auto.
  - destruct (utf8_decode (take_line x)) as [t|] eqn:Ht.
    + destruct (IH (drop_line x)) as (texts & Hlen & Hlines & Hend).
      exists (t :: texts). cbn [length read_lines map after_lines].
      split; [lia|]. split; [now rewrite Ht, Hlines|].
      destruct Hend as [Hall|[Hlt Hbad]]; [left; lia|right; split; [lia|exact Hbad]].
    + exists []. cbn [length read_lines map after_lines].
      split; [lia|]. split; [reflexivity|]. right. split; [lia|exact Ht].
Qed.

(** The reader up to the count line, on a source with a magic line and a
    title line that is UTF-8. *)
Lemma read_sbw2_reads_head {interp : Interpreter} (content : bytes) (code : Z) :
  bytes_in (bytes_strip (v2_head_line 0 content)) [magic_2; magic_3] = true ->
  utf8_decode (v2_head_line 1 content) <> None ->
  exists w,
    fp_rest w = v2_body content /\ status_code w = GB_OK
    /\ read_sbw2 (opened content code)
       = match read_count_line (v2_head_line 3 content) with
         | None => bind (set_status GB_ERROR_OPEN_SBW_PARSE) (fun _ => ret None) w
         | Some n =>
             read_sbw2_bonds (Z.to_nat n)
               (set_title gb_doc_new (v2_title content)) w
         end.
Proof.
  intros Hmagic Htitle.
  unfold v2_head_line in *. cbn [read_lines nth] in *.
  unfold read_sbw2. rewrite bind_set_status.
  set (w0 := {| fp_content := _; fp_pos := _; status_code := GB_OK |}).
  assert (Hw0 : fp_rest w0 = content) by reflexivity.
  rewrite bind_fp_readline, Hw0, Hmagic. cbn [negb].
  set (w1 := advance _ w0).
  assert (Hw1 : fp_rest w1 = drop_line content)
    by (subst w1; rewrite <- Hw0 at 2; rewrite <- Hw0 at 1; apply fp_rest_after_line).
  rewrite bind_fp_readline, Hw1.
  unfold bytes_decode at 1. unfold v2_title, v2_head_line, text_of.
  cbn [read_lines nth].
  destruct (utf8_decode (take_line (drop_line content))) as [s|]; [|congruence].
  rewrite bind_lift_Ok.
  set (w2 := advance _ w1).
  assert (Hw2 : fp_rest w2 = drop_line (drop_line content))
    by (subst w2; rewrite <- Hw1 at 2; rewrite <- Hw1 at 1; apply fp_rest_after_line).
  rewrite bind_fp_readline, Hw2.
  set (w3 := advance _ w2).
  assert (Hw3 : fp_rest w3 = drop_line (drop_line (drop_line content)))
    by (subst w3; rewrite <- Hw2 at 2; rewrite <- Hw2 at 1; apply fp_rest_after_line).
  rewrite bind_fp_readline, Hw3.
  set (w4 := advance _ w3).
  assert (Hw4 : fp_rest w4 = drop_line (drop_line (drop_line (drop_line content))))
    by (subst w4; rewrite <- Hw3 at 2; rewrite <- Hw3 at 1; apply fp_rest_after_line).
  exists w4. split; [exact Hw4|]. split; [reflexivity|].
  destruct (read_count_line _); reflexivity.
Qed.

(** The reader on a source whose title line is not UTF-8, and on one
    without a magic line. *)
Lemma read_sbw2_title_undecodable {interp : Interpreter} (content : bytes) (code : Z) :
  bytes_in (bytes_strip (v2_head_line 0 content)) [magic_2; magic_3] = true ->
  utf8_decode (v2_head_line 1 content) = None ->
  read_sbw2 (opened content code) = Raised UnicodeDecodeError.
Proof.
  intros Hmagic Htitle. unfold v2_head_line in *. cbn [read_lines nth] in *.
  unfold read_sbw2. rewrite bind_set_status.
  set (w0 := {| fp_content := _; fp_pos := _; status_code := GB_OK |}).
  assert (Hw0 : fp_rest w0 = content) by reflexivity.
  rewrite bind_fp_readline, Hw0, Hmagic. cbn [negb].
  set (w1 := advance _ w0).
  assert (Hw1 : fp_rest w1 = drop_line content)
    by (subst w1; rewrite <- Hw0 at 2; rewrite <- Hw0 at 1;
        apply fp_rest_after_line).
  rewrite bind_fp_readline, Hw1.
  unfold bytes_decode. rewrite Htitle. reflexivity.
Qed.

Lemma read_sbw2_magic_rejected {interp : Interpreter} (content : bytes) (code : Z) :
  bytes_in (bytes_strip (v2_head_line 0 content)) [magic_2; magic_3] = false ->
  exists w, read_sbw2 (opened content code) = Done None w.
Proof.
  intros Hmagic. unfold v2_head_line in *. cbn [read_lines nth] in *.
  unfold read_sbw2. rewrite bind_set_status, bind_fp_readline.
  change (fp_rest _) with content. rewrite Hmagic. cbn [negb].
  rewrite bind_set_status. now eexists.
Qed.

(** The reader up to the loop, on a source with a good head. *)
Lemma read_sbw2_enters_loop {interp : Interpreter}
      (content : bytes) (code n : Z) :
  v2_header_ok content n ->
  exists w,
    fp_rest w = v2_body content /\ status_code w = GB_OK
    /\ read_sbw2 (opened content code)
       = read_sbw2_bonds (Z.to_nat n) (set_title gb_doc_new (v2_title content)) w.
Proof.
  intros (Hmagic & Htitle & Hcount).
  destruct (read_sbw2_reads_head content code Hmagic Htitle) as (w & Hw & Hs & Hrun).
  rewrite Hcount in Hrun. now exists w.
Qed.

Lemma v2_bond_none {interp : Interpreter} (t : str) :
  py_float_of_str (v2_field 1 t) = None <-> v2_bond t = None.
Proof.
  unfold v2_bond. destruct (py_float_of_str (v2_field 1 t)); split; congruence.
Qed.

(** A declared record line that is not UTF-8, reached after lines that
    decode and parse, raises out of the loop. *)
Lemma read_sbw2_undecodable_record_line {interp : Interpreter}
      (content : bytes) (code n : Z) (texts : list str) :
  v2_header_ok content n ->
  length texts < Z.to_nat n ->
  map utf8_decode (read_lines (length texts) (v2_body content)) = map Some texts ->
  (forall t, In t texts -> v2_is_record t = true ->
             py_float_of_str (v2_field 1 t) <> None) ->
  utf8_decode (take_line (after_lines (length texts) (v2_body content))) = None ->
  read_sbw2 (opened content code) = Raised UnicodeDecodeError.
Proof.
  intros Hhead Hlen Hlines Hparse Hbad.
  destruct (read_sbw2_enters_loop content code n Hhead) as (w & Hw & Hs & Hrun).
  rewrite Hrun. clear Hrun. rewrite <- Hw in Hlines, Hbad.
  pose proof (read_sbw2_bonds_run texts (S (Z.to_nat n - length texts - 1))
                (set_title gb_doc_new (v2_title content)) w Hlines Hs) as Hloop.
  replace (length texts + S (Z.to_nat n - length texts - 1)) with (Z.to_nat n)
    in Hloop by lia.
  rewrite v2_collect_all_parse in Hloop
    by (intros t Hin Hr Hb; apply (Hparse t Hin Hr); now apply v2_bond_none).
  destruct Hloop as (w1 & Hw1 & _ & Hrun).
  rewrite Hrun. cbn [read_sbw2_bonds].
  rewrite bind_fp_readline, Hw1. unfold bytes_decode. rewrite Hbad. reflexivity.
Qed.

(** C5, as stated, fails on record lines that are not UTF-8: a declared
    line of one field that is the byte ff is not skipped, and a line of four
    fields whose denomination field is the byte ff gives no parse error;
    both raise [UnicodeDecodeError] to the caller. *)
Lemma read_sbw2_undecodable_not_skipped :
  gb_doc_sbw_open (interp := plain_interpreter)
    (Some v2_undecodable_short_source) GB_OK
  = Raise UnicodeDecodeError
  /\ gb_doc_sbw_open (interp := plain_interpreter)
       (Some v2_undecodable_denomination_source) GB_OK
     = Raise UnicodeDecodeError.
Proof. split; vm_compute; reflexivity. Qed.

(** The outcome of the v2 reader, read off declared lines from the first
    on that are UTF-8 text. *)
Lemma read_sbw2_by_lines {interp : Interpreter}
      (content : bytes) (code n : Z) (texts : list str) :
  v2_header_ok content n ->
  length texts <= Z.to_nat n ->
  map utf8_decode (read_lines (length texts) (v2_body content)) = map Some texts ->
  ((exists t, In t texts /\ v2_is_record t = true
              /\ py_float_of_str (v2_field 1 t) = None) ->
   exists w,
     read_sbw2 (opened content code) = Done None w
     /\ status_code w = GB_ERROR_OPEN_SBW_PARSE)
  /\ (length texts = Z.to_nat n ->
      (forall t, In t texts -> v2_is_record t = true ->
                 py_float_of_str (v2_field 1 t) <> None) ->
      exists doc w,
        read_sbw2 (opened content code) = Done (Some doc) w
        /\ status_code w = GB_OK
        /\ title doc = v2_title content
        /\ bonds doc = map v2_bond (filter v2_is_record texts))
  /\ (length texts < Z.to_nat n ->
      (forall t, In t texts -> v2_is_record t = true ->
                 py_float_of_str (v2_field 1 t) <> None) ->
      utf8_decode (take_line (after_lines (length texts) (v2_body content))) = None ->
      read_sbw2 (opened content code) = Raised UnicodeDecodeError).
Proof.
  intros Hhead Hlen Hlines.
  split; [|split;
           [|intros Hlt Hparse Hbad;
             exact (read_sbw2_undecodable_record_line content code n texts
                      Hhead Hlt Hlines Hparse Hbad)]].
  all: destruct (read_sbw2_enters_loop content code n Hhead) as (w & Hw & Hs & Hrun).
  all: rewrite Hrun; clear Hrun; rewrite <- Hw in Hlines.
  all: pose proof (read_sbw2_bonds_run texts (Z.to_nat n - length texts)
                     (set_title gb_doc_new (v2_title content)) w Hlines Hs) as Hloop.
  all: replace (length texts + (Z.to_nat n - length texts)) with (Z.to_nat n)
         in Hloop by lia.
  - intros (t & Hin & Hr & Hf). apply v2_bond_none in Hf.
    rewrite (v2_collect_bad_denomination texts t Hin Hr Hf) in Hloop.
    exact Hloop.
  - intros Hall Hparse.
    rewrite v2_collect_all_parse in Hloop
      by (intros t Hin Hr Hb; apply (Hparse t Hin Hr); now apply v2_bond_none).
    destruct Hloop as (w1 & _ & Hs1 & Hrun).
    rewrite Hall, Nat.sub_diag in Hrun. cbn [read_sbw2_bonds] in Hrun.
    eexists. exists w1. split; [exact Hrun|]. split; [exact Hs1|].
    split; reflexivity.
Qed.

(** C5 (amended): in a v2 source whose head declares [n] record lines, let
    [texts] be declared lines from the first on that are UTF-8 text.  If
    one of them has at least four fields and a denomination field that
    [float] rejects, the whole decode returns no document and the parse
    error.  If they are all the [n] lines and every one of at least four
    fields has a denomination that parses, the decode succeeds and the
    document holds the bonds of exactly those lines, in order, the lines of
    fewer than four fields being left out without an error.  If their
    denominations parse and the declared line that follows them is not
    UTF-8, the decode raises [UnicodeDecodeError], whatever the fields of
    that line.  Every source with such a head falls under one of the three
    cases, for the lines before its first line that is not UTF-8. *)
Theorem read_sbw2_denominations_and_short_lines {interp : Interpreter}
        (content : bytes) (code n : Z) :
  v2_header_ok content n ->
  (forall texts : list str,
      length texts <= Z.to_nat n ->
      map utf8_decode (read_lines (length texts) (v2_body content)) = map Some texts ->
      ((exists t, In t texts /\ v2_is_record t = true
                  /\ py_float_of_str (v2_field 1 t) = None) ->
       exists w,
         read_sbw2 (opened content code) = Done None w
         /\ status_code w = GB_ERROR_OPEN_SBW_PARSE)
      /\ (length texts = Z.to_nat n ->
          (forall t, In t texts -> v2_is_record t = true ->
                     py_float_of_str (v2_field 1 t) <> None) ->
          exists doc w,
            read_sbw2 (opened content code) = Done (Some doc) w
            /\ status_code w = GB_OK
            /\ title doc = v2_title content
            /\ bonds doc = map v2_bond (filter v2_is_record texts))
      /\ (length texts < Z.to_nat n ->
          (forall t, In t texts -> v2_is_record t = true ->
                     py_float_of_str (v2_field 1 t) <> None) ->
          utf8_decode (take_line (after_lines (length texts) (v2_body content)))
          = None ->
          read_sbw2 (opened content code) = Raised UnicodeDecodeError))
  /\ (exists texts : list str,
         length texts <= Z.to_nat n
         /\ map utf8_decode (read_lines (length texts) (v2_body content))
            = map Some texts
         /\ ((exists t, In t texts /\ v2_is_record t = true
                         /\ py_float_of_str (v2_field 1 t) = None)
             \/ ((forall t, In t texts -> v2_is_record t = true ->
                            py_float_of_str (v2_field 1 t) <> None)
                 /\ (length texts = Z.to_nat n
                     \/ (length texts < Z.to_nat n
                         /\ utf8_decode
                              (take_line (after_lines (length texts)
                                            (v2_body content))) = None))))).
Proof.
  intros Hhead. split.
  - intros texts Hlen Hlines.
    exact (read_sbw2_by_lines content code n texts Hhead Hlen Hlines).
  - destruct (decodable_prefix (Z.to_nat n) (v2_body content))
      as (texts & Hlen & Hlines & Hend).
    exists texts. split; [exact Hlen|]. split; [exact Hlines|].
    destruct (v2_collect texts) as [bs|] eqn:Hcol.
    + right. split; [|exact Hend]. intros t Hin Hr Hf.
      apply v2_bond_none in Hf. exact (v2_collect_parse texts bs Hcol t Hin Hr Hf).
    + left. destruct (v2_collect_None texts Hcol) as (t & Hin & Hr & Hb).
      exists t. split; [exact Hin|]. split; [exact Hr|]. now apply v2_bond_none.
Qed.


(** ** Denominations of the decoded bonds *)

(** [gb_doc_bond_new] either builds a bond from the float and leaves the
    status, or gives [None] and sets the parse error. *)
Lemma gb_doc_bond_new_inv {interp : Interpreter}
      (se da : str) (de : pyobj) (s : str) (w w' : world) (ob : option GBDocBond) :
  gb_doc_bond_new se da de s w = Done ob w' ->
  (exists d, py_float de = Some d
             /\ ob = Some {| series := se; idate := da; denom := d; sn := s |}
             /\ w' = w)
  \/ (py_float de = None /\ ob = None
      /\ status_code w' = GB_ERROR_OPEN_SBW_PARSE).
Proof.
  unfold gb_doc_bond_new. destruct (py_float de) as [d|].
  - intros [= <- <-]. left. now exists d.
  - intros [= <- <-]. right. auto.
Qed.

(** From [H : bind m k w = Done b w'], the value [a] and the world [w1]
    that [m] gave, with the run [Hm] of [m]. *)
Ltac step_bind H a w1 Hm :=
  match type of H with
  | bind ?m ?k ?w = Done _ _ =>
      change (bind m k w)
        with (match m w with Done a w' => k a w' | Raised e => Raised e end) in H;
      destruct (m w) as [a w1|?] eqn:Hm; [|discriminate H]
  end.

(** *** The lines that the v2 loop went through *)

(** A run of the v2 loop that returns a document has decoded every line
    of its rounds, and the document has gained the bonds of these lines. *)
Lemma read_sbw2_bonds_lines {interp : Interpreter} (todo : nat) :
  forall (doc doc' : GBDoc) (w w' : world),
    status_code w = GB_OK ->
    read_sbw2_bonds todo doc w = Done (Some doc') w' ->
    exists texts bs,
      length texts = todo
      /\ map utf8_decode (read_lines todo (fp_rest w)) = map Some texts
      /\ v2_collect texts = Some bs
      /\ bonds doc' = bonds doc ++ bs.
Proof.
  induction todo as [|todo IH]; intros doc doc' w w' Hs H.
  - cbn in H. assert (doc' = doc) by (unfold ret in H; congruence). subst doc'.
    exists [], []. rewrite app_nil_r. repeat split.
  - destruct (utf8_decode (take_line (fp_rest w))) as [t|] eqn:Ht.
    2:{ cbn [read_sbw2_bonds] in H. rewrite bind_fp_readline in H.
        unfold bytes_decode in H. rewrite Ht in H. discriminate H. }
    destruct (read_sbw2_bonds_step todo doc w t Ht Hs) as (w1 & Hw1 & Hs1 & Hrun).
    rewrite Hrun in H. clear Hrun.
    cbn [read_lines map]. rewrite Ht, <- Hw1.
    destruct (v2_is_record t) eqn:Hr.
    + destruct (v2_bond t) as [b|] eqn:Hb; [|discriminate H].
      destruct (IH _ _ _ _ Hs1 H) as (texts & bs & Hlen & Hlines & Hcol & Hbonds).
      exists (t :: texts), (Some b :: bs).
      split; [cbn; now rewrite Hlen|]. split; [cbn [map]; now rewrite Hlines|].
      split; [cbn [v2_collect]; now rewrite Hr, Hb, Hcol|].
      rewrite Hbonds. cbn [add_bond bonds]. now rewrite <- app_assoc.
    + destruct (IH _ _ _ _ Hs1 H) as (texts & bs & Hlen & Hlines & Hcol & Hbonds).
      exists (t :: texts), bs.
      split; [cbn; now rewrite Hlen|]. split; [cbn [map]; now rewrite Hlines|].
      split; [cbn [v2_collect]; now rewrite Hr|exact Hbonds].
Qed.

(** What [v2_collect] returns: the bond of each record line, made of a
    denomination field that [float] accepted. *)
Lemma v2_collect_Some {interp : Interpreter} (texts : list str) :
  forall bs,
    v2_collect texts = Some bs ->
    bs = map v2_bond (filter v2_is_record texts)
    /\ Forall2 denom_of_line bs (filter v2_is_record texts).
Proof.
  induction texts as [|t ts IH]; intros bs H.
  - cbn in H. injection H as <-. split; constructor.
  - cbn [v2_collect filter] in *. destruct (v2_is_record t); [|exact (IH bs H)].
    destruct (v2_bond t) as [b|] eqn:Hb; [|discriminate H].
    destruct (v2_collect ts) as [bs'|]; [|discriminate H].
    injection H as <-. destruct (IH bs' eq_refl) as [-> Hall].
    split; [cbn [map]; now rewrite Hb|]. constructor; [|exact Hall].
    exists b. split; [reflexivity|]. unfold v2_bond in Hb.
    destruct (py_float_of_str (v2_field 1 t)) as [d|]; [|discriminate Hb].
    injection Hb as <-. reflexivity.
Qed.

(** A document of the v2 reader: the head is good, every declared line is
    UTF-8 text, and the bonds are those of the lines of four fields. *)
Lemma read_sbw2_document_lines {interp : Interpreter}
      (content : bytes) (code : Z) (doc : GBDoc) (w' : world) :
  read_sbw2 (opened content code) = Done (Some doc) w' ->
  exists n texts,
    v2_header_ok content n
    /\ length texts = Z.to_nat n
    /\ map utf8_decode (read_lines (length texts) (v2_body content)) = map Some texts
    /\ bonds doc = map v2_bond (filter v2_is_record texts)
    /\ Forall2 denom_of_line (bonds doc) (filter v2_is_record texts).
Proof.
  intros H.
  destruct (bytes_in (bytes_strip (v2_head_line 0 content)) [magic_2; magic_3])
    eqn:Hmagic.
  2:{ destruct (read_sbw2_magic_rejected content code Hmagic) as (w & Hw).
      rewrite Hw in H. discriminate H. }
  destruct (utf8_decode (v2_head_line 1 content)) as [t|] eqn:Htitle.
  2:{ rewrite (read_sbw2_title_undecodable content code Hmagic Htitle) in H.
      discriminate H. }
  destruct (read_sbw2_reads_head content code Hmagic ltac:(congruence))
    as (w & Hw & Hs & Hrun).
  rewrite Hrun in H. clear Hrun.
  destruct (read_count_line (v2_head_line 3 content)) as [n|] eqn:Hcount;
    [|rewrite bind_set_status in H; discriminate H].
  destruct (read_sbw2_bonds_lines _ _ _ _ _ Hs H)
    as (texts & bs & Hlen & Hlines & Hcol & Hbonds).
  destruct (v2_collect_Some texts bs Hcol) as [Hbs Hall].
  cbn [set_title gb_doc_new bonds app] in Hbonds.
  exists n, texts.
  split; [split; [exact Hmagic|split; [congruence|exact Hcount]]|].
  split; [exact Hlen|]. split; [now rewrite Hlen, <- Hw|].
  rewrite Hbonds. split; [exact Hbs|exact Hall].
Qed.

(** *** The records that the v4 loop went through *)

Lemma skipn_firstn_length {A} (n : nat) (x : list A) :
  skipn (length (firstn n x)) x = skipn n x.
Proof.
  rewrite length_firstn. destruct (Nat.le_ge_cases n (length x)) as [H|H].
  - now rewrite Nat.min_l.
  - rewrite Nat.min_r by exact H. now rewrite !skipn_all2.
Qed.

(** What is left after [n] bytes were asked for is not empty only when
    all [n] were there. *)
Lemma firstn_whole {A} (n : nat) (x : list A) :
  skipn n x <> [] -> length (firstn n x) = n.
Proof.
  intros H. rewrite length_firstn. apply Nat.min_l.
  destruct (Nat.le_gt_cases n (length x)) as [Hle|Hgt]; [exact Hle|].
  exfalso. apply H. apply skipn_all2. lia.
Qed.

Lemma fp_read_Done (n : nat) (w w1 : world) (x : bytes) :
  fp_read n w = Done x w1 ->
  x = firstn n (fp_rest w)
  /\ fp_rest w1 = skipn n (fp_rest w)
  /\ status_code w1 = status_code w.
Proof.
  unfold fp_read. intros H. injection H as <- <-.
  split; [reflexivity|]. split; [|reflexivity].
  rewrite fp_rest_advance. apply skipn_firstn_length.
Qed.

Lemma lift_struct_unpack_Done (widths : list nat) (buf : bytes) (w w1 : world)
      (u : list Z) :
  lift (struct_unpack widths buf) w = Done u w1 ->
  length buf = list_sum widths /\ u = unpack_fields widths buf /\ w1 = w.
Proof.
  unfold lift, struct_unpack.
  destruct (Nat.eqb_spec (length buf) (list_sum widths)) as [Hl|]; [|discriminate].
  intros H. split; [exact Hl|]. split; congruence.
Qed.

Lemma read_length_byte_Done (w w1 : world) (k : nat) :
  read_length_byte w = Done k w1 ->
  exists c,
    fp_rest w = c :: fp_rest w1
    /\ k = Byte.to_nat c
    /\ status_code w1 = status_code w.
Proof.
  unfold read_length_byte. intros H.
  step_bind H b w0 Hb. apply fp_read_Done in Hb. destruct Hb as (-> & Hw0 & Hs0).
  step_bind H u wu Hu. unfold lift, struct_unpack in Hu.
  destruct (fp_rest w) as [|c rest] eqn:Hrest; [discriminate Hu|].
  cbn in Hu. injection Hu as <- <-.
  unfold ret in H. injection H as <- <-.
  exists c. split; [now rewrite Hw0|]. split; [|exact Hs0].
  cbn [nth]. rewrite Byte.to_nat_via_N. lia.
Qed.

(** The notes: [n] bytes are passed over. *)
Lemma skip_field_Done (n : nat) (w w1 : world) (u : unit) :
  (if 0 <? n then bind (fp_read n) (fun _ => ret tt) else ret tt) w = Done u w1 ->
  fp_rest w1 = skipn n (fp_rest w) /\ status_code w1 = status_code w.
Proof.
  destruct n as [|n]; cbn [Nat.ltb Nat.leb].
  - unfold ret. intros [= _ <-]. split; reflexivity.
  - intros H. step_bind H x w0 Hx. apply fp_read_Done in Hx.
    destruct Hx as (_ & Hw0 & Hs0). unfold ret in H. injection H as _ <-.
    split; assumption.
Qed.

(** A text field: the [n] bytes, or those that are left, are UTF-8. *)
Lemma text_field_Done (n : nat) (w w1 : world) (t : str) :
  (if 0 <? n then bind (fp_read n) (fun raw => lift (bytes_decode raw)) else ret [])
    w = Done t w1 ->
  utf8_decode (firstn n (fp_rest w)) = Some t
  /\ fp_rest w1 = skipn n (fp_rest w)
  /\ status_code w1 = status_code w.
Proof.
  destruct n as [|n]; cbn [Nat.ltb Nat.leb].
  - unfold ret. intros [= <- <-]. repeat split.
  - intros H. step_bind H x w0 Hx. apply fp_read_Done in Hx.
    destruct Hx as (-> & Hw0 & Hs0). unfold lift, bytes_decode in H.
    destruct (utf8_decode (firstn (S n) (fp_rest w))) as [t'|]; [|discriminate H].
    injection H as <- <-. repeat split; assumption.
Qed.

(** A length byte, the bytes it declares and at least one byte more are
    a length-prefixed field. *)
Lemma length_prefixed_read (c : byte) (x : bytes) :
  skipn (Byte.to_nat c) x <> [] ->
  c :: x = length_prefixed (firstn (Byte.to_nat c) x) ++ skipn (Byte.to_nat c) x
  /\ length (firstn (Byte.to_nat c) x) = Byte.to_nat c.
Proof.
  intros H. pose proof (firstn_whole _ _ H) as Hlen. split; [|exact Hlen].
  unfold length_prefixed. rewrite Hlen, Byte.of_to_nat.
  cbn [app]. now rewrite firstn_skipn.
Qed.

Lemma length_prefixed_declared (c : byte) (x : bytes) :
  length x = Byte.to_nat c -> length_prefixed x = c :: x.
Proof. intros H. unfold length_prefixed. now rewrite H, Byte.of_to_nat. Qed.

(** One round of the v4 loop that goes on to a document: the bytes at the
    position are a record that the reader gets through, and the rounds
    that follow start from the document with the bond of that record. *)
Lemma read_sbw4_bonds_round {interp : Interpreter}
      (todo : nat) (i n : Z) (doc doc' : GBDoc) (w w' : world) :
  status_code w = GB_OK ->
  read_sbw4_bonds (S todo) i n doc w = Done (Some doc') w' ->
  exists (r : sbw4_record) (k : byte) (rest : bytes) (w1 : world),
    record_valid r
    /\ (2 <= length rest -> rec_gap r = firstn 2 rest)
    /\ fp_rest w = record_bytes_declaring r k ++ rest
    /\ (Byte.to_nat k = length (rec_series r)
        \/ (length (rec_series r) < Byte.to_nat k /\ rest = []))
    /\ fp_rest w1 = (if (i <? n - 1)%Z then skipn 2 rest else rest)
    /\ status_code w1 = GB_OK
    /\ read_sbw4_bonds todo (i + 1) n (doc_after doc r) w1 = Done (Some doc') w'.
Proof.
  intros Hs H. cbn [read_sbw4_bonds] in H.
  (* the block *)
  step_bind H block w0 Hblock. apply fp_read_Done in Hblock.
  destruct Hblock as (Hblock & Hw0 & Hs0).
  destruct (Nat.ltb_spec (length block) 84) as [Hshort|Hfull];
    [rewrite bind_set_status in H; discriminate H|].
  assert (Hlen : length block = 84).
  { subst block. rewrite length_firstn in *. lia. }
  step_bind H unpacked wu Hu. apply lift_struct_unpack_Done in Hu.
  destruct Hu as (_ & -> & ->).
  unfold fmt_I21 in H. rewrite !nth_unpack_fields in H by lia.
  (* the notes *)
  step_bind H n1 w1 Hn1. apply read_length_byte_Done in Hn1.
  destruct Hn1 as (c1 & Hw1 & -> & Hs1).
  step_bind H u2 w2 Hnotes. apply skip_field_Done in Hnotes.
  destruct Hnotes as (Hw2 & Hs2).
  (* the serial number *)
  step_bind H n2 w3 Hn2. apply read_length_byte_Done in Hn2.
  destruct Hn2 as (c2 & Hw3 & -> & Hs3).
  step_bind H sn_text w4 Hsn. apply text_field_Done in Hsn.
  destruct Hsn as (Usn & Hw4 & Hs4).
  (* the series *)
  step_bind H n3 w5 Hn3. apply read_length_byte_Done in Hn3.
  destruct Hn3 as (c3 & Hw5 & -> & Hs5).
  step_bind H series_text w6 Hser. apply text_field_Done in Hser.
  destruct Hser as (User & Hw6 & Hs6).
  (* the separator *)
  edestruct (@bind_gap (option GBDoc) (i <? n - 1)%Z) as (w7 & Hw7 & Hs7 & Hrun);
    rewrite Hrun in H; clear Hrun.
  (* the layout *)
  set (notes := firstn (Byte.to_nat c1) (fp_rest w1)) in *.
  set (sn_raw := firstn (Byte.to_nat c2) (fp_rest w3)) in *.
  set (series_raw := firstn (Byte.to_nat c3) (fp_rest w5)) in *.
  set (rest := fp_rest w6) in *.
  assert (Hnotes : c1 :: fp_rest w1 = length_prefixed notes ++ fp_rest w2
                   /\ length notes = Byte.to_nat c1).
  { rewrite Hw2. apply length_prefixed_read. rewrite <- Hw2, Hw3. discriminate. }
  assert (Hsn : c2 :: fp_rest w3 = length_prefixed sn_raw ++ fp_rest w4
                /\ length sn_raw = Byte.to_nat c2).
  { rewrite Hw4. apply length_prefixed_read. rewrite <- Hw4, Hw5. discriminate. }
  assert (Hseries : fp_rest w5 = series_raw ++ rest).
  { subst series_raw rest. rewrite Hw6. symmetry. apply firstn_skipn. }
  assert (Hdeclared : Byte.to_nat c3 = length series_raw
                      \/ (length series_raw < Byte.to_nat c3 /\ rest = [])).
  { subst series_raw rest. rewrite Hw6, length_firstn.
    destruct (Nat.le_gt_cases (Byte.to_nat c3) (length (fp_rest w5))) as [Hle|Hgt].
    - left. lia.
    - right. split; [lia|]. apply skipn_all2. lia. }
  pose proof (Byte.to_nat_bounded c1) as Hc1.
  pose proof (Byte.to_nat_bounded c2) as Hc2.
  pose proof (Byte.to_nat_bounded c3) as Hc3.
  set (r := {| rec_block := block; rec_notes := notes; rec_sn := sn_raw;
               rec_series := series_raw;
               rec_gap := if 2 <=? length rest then firstn 2 rest
                          else [x00; x00] |}).
  assert (Hreadable :
            length (rec_block r) = 84 /\ length (rec_notes r) <= 255
            /\ length (rec_sn r) <= 255 /\ length (rec_series r) <= 255
            /\ length (rec_gap r) = 2
            /\ utf8_decode (rec_sn r) <> None /\ utf8_decode (rec_series r) <> None).
  { cbn [r rec_block rec_notes rec_sn rec_series rec_gap].
    split; [exact Hlen|]. split; [lia|]. split; [lia|].
    split; [subst series_raw; rewrite length_firstn; lia|].
    split; [destruct (Nat.leb_spec 2 (length rest));
            [rewrite length_firstn; lia|reflexivity]|].
    split; congruence. }
  assert (Htext : text_of (rec_series r) = series_text)
    by (unfold text_of; cbn [r rec_series]; now rewrite User).
  assert (Hsntext : text_of (rec_sn r) = sn_text)
    by (unfold text_of; cbn [r rec_sn]; now rewrite Usn).
  assert (Hlayout : fp_rest w = record_bytes_declaring r c3 ++ rest).
  { unfold record_bytes_declaring. cbn [r rec_block rec_notes rec_sn rec_series].
    rewrite <- !app_assoc. cbn [app]. rewrite <- Hseries, <- Hw5.
    rewrite <- (proj1 Hsn), <- Hw3, <- (proj1 Hnotes), <- Hw1, Hw0, Hblock.
    symmetry. apply firstn_skipn. }
  assert (Hs7' : status_code w7 = GB_OK) by congruence.
  change (le_field 4 6 block) with (record_denom r) in H.
  change (le_field 4 10 block) with (record_idate r) in H.
  rewrite <- Htext in H. fold (record_kept r) in H. rewrite Htext in H.
  (* the bond *)
  destruct (record_kept r) eqn:Hkept.
  - step_bind H d w8 Hd. unfold lift in Hd.
    destruct (gb_date_fmt (Z.to_N (record_idate r))) as [d'|] eqn:Hfmt;
      [|discriminate Hd].
    injection Hd as -> <-.
    step_bind H bond w9 Hbond.
    destruct (gb_doc_bond_new_inv _ _ _ _ _ _ _ Hbond)
      as [(f & Hf & -> & ->)|(_ & _ & Hcode)]; clear Hbond.
    2:{ rewrite bind_get_status, Hcode in H. discriminate H. }
    rewrite bind_get_status, Hs7' in H.
    change (negb (GB_OK =? GB_OK)%Z) with false in H. cbv iota in H.
    exists r, c3, rest, w7.
    split.
    { destruct Hreadable as (H1 & H2 & H3 & H4 & H5 & H6 & H7).
      repeat (split; [assumption|]). intros _.
      apply gb_date_fmt_Ok_inv in Hfmt. destruct Hfmt as [Hle _].
      pose proof (le_field_bounds 4 10 (rec_block r)) as Hb.
      fold (record_idate r) in Hb. lia. }
    split.
    { intros H2. cbn [r rec_gap].
      destruct (Nat.leb_spec 2 (length rest)); [reflexivity|lia]. }
    split; [exact Hlayout|]. split; [exact Hdeclared|].
    split; [exact Hw7|]. split; [exact Hs7'|].
    unfold doc_after. rewrite Hkept. unfold record_bond.
    cbn [py_float] in Hf. rewrite Hfmt, Hf, Htext, Hsntext. exact H.
  - exists r, c3, rest, w7.
    split.
    { destruct Hreadable as (H1 & H2 & H3 & H4 & H5 & H6 & H7).
      repeat (split; [assumption|]). congruence. }
    split.
    { intros H2. cbn [r rec_gap].
      destruct (Nat.leb_spec 2 (length rest)); [reflexivity|lia]. }
    split; [exact Hlayout|]. split; [exact Hdeclared|].
    split; [exact Hw7|]. split; [exact Hs7'|].
    unfold doc_after. rewrite Hkept. exact H.
Qed.

(** The bond of a kept record carries field 6 of its block. *)
Lemma record_bond_denom {interp : Interpreter} (recs : list sbw4_record) :
  Forall record_valid recs ->
  Forall2 denom_of_record
          (map record_bond (filter record_kept recs)) (filter record_kept recs).
Proof.
  induction 1 as [|r rs Hr _ IH]; [constructor|].
  cbn [filter]. destruct (record_kept r) eqn:Hk; [|exact IH].
  cbn [map]. constructor; [|exact IH].
  destruct (record_bond_kept r Hr Hk) as (d & f & _ & Hf & ->).
  pose proof (le_field_bounds 4 6 (rec_block r)) as Hb.
  fold (record_denom r) in Hb. change (256 ^ Z.of_nat 4)%Z with (2 ^ 32)%Z in Hb.
  eexists. split; [reflexivity|]. cbn [denom]. split; [exact Hb|].
  split; [apply py_float_of_int_exact; [lia|exact Hf]|].
  exact (py_float_of_int_nonneg _ _ (proj1 Hb) Hf).
Qed.

Lemma gapped_records_not_empty {interp : Interpreter}
      (init : list sbw4_record) (last : sbw4_record) (k : byte) (tail : bytes) :
  Forall record_valid (init ++ [last]) ->
  2 < length (gapped_records init ++ record_bytes_declaring last k ++ tail).
Proof.
  intros Hvalid.
  assert (Hblock : forall r x, record_valid r -> 2 < length (rec_block r ++ x)).
  { intros r x (Hb & _). rewrite length_app, Hb. lia. }
  destruct init as [|r rs].
  - inversion Hvalid as [|? ? Hl _]; subst. cbn [gapped_records flat_map app].
    unfold record_bytes_declaring. rewrite <- app_assoc. now apply Hblock.
  - inversion Hvalid as [|? ? Hr _]; subst. cbn [gapped_records flat_map].
    unfold record_bytes at 1. rewrite <- !app_assoc. now apply Hblock.
Qed.

(** A run of the v4 loop that returns a document has gone through one
    record in each round: the bytes at the position hold these records,
    and the document has gained the bonds of the kept ones. *)
Lemma read_sbw4_bonds_records {interp : Interpreter} (todo : nat) :
  forall (i n : Z) (doc doc' : GBDoc) (w w' : world),
    status_code w = GB_OK ->
    n = (i + Z.of_nat todo)%Z ->
    read_sbw4_bonds todo i n doc w = Done (Some doc') w' ->
    exists recs,
      length recs = todo
      /\ Forall record_valid recs
      /\ bonds doc' = bonds doc ++ map record_bond (filter record_kept recs)
      /\ (recs = []
          \/ exists init last k tail,
               recs = init ++ [last]
               /\ fp_rest w = gapped_records init
                                ++ record_bytes_declaring last k ++ tail
               /\ (Byte.to_nat k = length (rec_series last)
                   \/ (length (rec_series last) < Byte.to_nat k /\ tail = []))).
Proof.
  induction todo as [|todo IH]; intros i n doc doc' w w' Hs Hn H.
  - cbn in H. assert (doc' = doc) by (unfold ret in H; congruence). subst doc'.
    exists []. rewrite app_nil_r. repeat split; auto.
  - destruct (read_sbw4_bonds_round todo i n doc doc' w w' Hs H)
      as (r & k & rest & w1 & Hr & Hgap & Hw & Hk & Hw1 & Hs1 & Hrun).
    destruct (IH (i + 1)%Z n (doc_after doc r) doc' w1 w' Hs1 ltac:(lia) Hrun)
      as (recs & Hlen & Hvalid & Hbonds & Hlayout).
    exists (r :: recs).
    split; [cbn; now rewrite Hlen|]. split; [now constructor|].
    split.
    { rewrite Hbonds. unfold doc_after. cbn [filter].
      destruct (record_kept r); [|reflexivity].
      cbn [add_bond bonds map]. now rewrite <- app_assoc. }
    right. destruct Hlayout as [->|(init & last & k' & tail & -> & Hw1' & Hk')].
    + (* the last round *)
      exists [], r, k, rest. cbn [gapped_records flat_map app].
      split; [reflexivity|]. split; [exact Hw|exact Hk].
    + (* a round before the last: the record is whole and has its separator *)
      assert (Htodo : 0 < todo) by (rewrite <- Hlen, length_app; cbn; lia).
      destruct (Z.ltb_spec i (n - 1)) as [_|Hge]; [|lia].
      pose proof (gapped_records_not_empty init last k' tail Hvalid) as Hlong.
      rewrite <- Hw1', Hw1 in Hlong.
      assert (Hrest : 2 <= length rest).
      { destruct (Nat.le_gt_cases 2 (length rest)) as [Hle|Hgt]; [exact Hle|].
        rewrite skipn_all2 in Hlong by lia. cbn in Hlong. lia. }
      destruct Hk as [Hk|[_ Hnil]]; [|rewrite Hnil in Hrest; cbn in Hrest; lia].
      exists (r :: init), last, k', tail. split; [reflexivity|]. split; [|exact Hk'].
      cbn [gapped_records flat_map]. fold (gapped_records init).
      rewrite <- !app_assoc, <- Hw1', Hw1, (Hgap Hrest), firstn_skipn.
      rewrite Hw. f_equal. unfold record_bytes_declaring, record_bytes.
      now rewrite (length_prefixed_declared k (rec_series r)) by (symmetry; exact Hk).
Qed.

(** A document of the v4 reader: the source holds as many records as its
    header declares, each one that the reader gets through, and the bonds
    are those of the kept records. *)
Lemma read_sbw4_document_records {interp : Interpreter}
      (content : bytes) (code : Z) (doc : GBDoc) (w' : world) :
  read_sbw4 (opened content code) = Done (Some doc) w' ->
  exists recs,
    sbw4_holds content recs
    /\ Forall record_valid recs
    /\ bonds doc = map record_bond (filter record_kept recs).
Proof.
  unfold read_sbw4. rewrite bind_set_status.
  set (w0 := {| fp_content := _; fp_pos := _; status_code := GB_OK |}).
  assert (Hw0 : fp_rest w0 = content) by reflexivity.
  assert (Hs0 : status_code w0 = GB_OK) by reflexivity.
  intros H.
  step_bind H head_raw w1 Hhead. apply fp_read_Done in Hhead.
  rewrite Hw0 in Hhead. destruct Hhead as (Hhead & Hw1 & Hs1).
  destruct (Nat.ltb_spec (length head_raw) 12) as [Hshort|Hfull];
    [rewrite bind_set_status in H; discriminate H|].
  assert (Hlen : length head_raw = 12).
  { subst head_raw. rewrite length_firstn in *. lia. }
  step_bind H fields wu Hu. apply lift_struct_unpack_Done in Hu.
  destruct Hu as (_ & -> & ->).
  unfold fmt_HHHHHH in H. rewrite !nth_unpack_fields in H by lia.
  fold (header_count head_raw) in H.
  step_bind H marker w2 Hmarker. apply fp_read_Done in Hmarker.
  destruct Hmarker as (Hmarker & Hw2 & Hs2). unfold SBW4_CBOND_SIZE in *.
  pose proof (le_field_bounds 2 2 head_raw) as Hcount. fold (header_count head_raw) in Hcount.
  assert (Hs2' : status_code w2 = GB_OK) by congruence.
  assert (Hn : header_count head_raw
               = (0 + Z.of_nat (Z.to_nat (header_count head_raw)))%Z)
    by (rewrite Z2Nat.id by lia; reflexivity).
  destruct (read_sbw4_bonds_records _ _ _ _ _ _ _ Hs2' Hn H)
    as (recs & Hrecs & Hvalid & Hbonds & Hlayout).
  exists recs. split; [|split; [exact Hvalid|exact Hbonds]].
  exists head_raw, (skipn 12 content).
  split; [subst head_raw; symmetry; apply firstn_skipn|]. split; [exact Hlen|].
  split; [rewrite Hrecs, Z2Nat.id by lia; reflexivity|].
  destruct Hlayout as [->|(init & last & k & tail & -> & Hrest & Hk)];
    [now left|right].
  exists marker, init, last, k, tail.
  pose proof (gapped_records_not_empty init last k tail Hvalid) as Hlong.
  rewrite <- Hrest, Hw2, Hw1 in Hlong.
  assert (Hfive : length marker = 5).
  { subst marker. rewrite Hw1. apply firstn_whole. intros Hnil.
    rewrite Hnil in Hlong. cbn in Hlong. lia. }
  split; [|split; [exact Hfive|split; [reflexivity|exact Hk]]].
  rewrite <- Hrest, Hw2, Hmarker, Hw1. symmetry. apply firstn_skipn.
Qed.

(** C4, as stated, fails for the v2 reader: [float] accepts a signed
    denomination, and the bond then holds a negative value. *)
Lemma read_sbw2_negative_denomination :
  gb_doc_sbw_open (interp := plain_interpreter) (Some v2_negative_source) GB_OK
  = Returned (Some v2_negative_doc) GB_OK
  /\ map (option_map (fun b => float_nonneg (denom b))) (bonds v2_negative_doc)
     = [Some false].
Proof. split; vm_compute; reflexivity. Qed.

(** C4 (amended): a document returned by the v4 reader comes from a source
    that holds the records its header declares, and its entries are, in
    order, the bonds of the records with a listed series code: each one a
    bond whose denomination is field 6 of the block of its record, that
    unsigned 32-bit integer as a float, finite and not negative; no record
    is left out for its denomination.  A document returned by the v2 reader
    comes from a source with a good head whose declared lines are all UTF-8
    text, and its entries are, in order, the bonds of the lines of at least
    four fields: each one a bond whose denomination is the value that
    [float] gave for the second field of its line, whatever its sign; so no
    line of four fields had a denomination that [float] rejected. *)
Theorem decoded_denominations {interp : Interpreter}
        (content : bytes) (code : Z) (doc : GBDoc) (w' : world) :
  (read_sbw4 (opened content code) = Done (Some doc) w' ->
   exists recs,
     sbw4_holds content recs
     /\ Forall record_valid recs
     /\ bonds doc = map record_bond (filter record_kept recs)
     /\ Forall2 denom_of_record (bonds doc) (filter record_kept recs))
  /\ (read_sbw2 (opened content code) = Done (Some doc) w' ->
      exists n texts,
        v2_header_ok content n
        /\ length texts = Z.to_nat n
        /\ map utf8_decode (read_lines (length texts) (v2_body content))
           = map Some texts
        /\ bonds doc = map v2_bond (filter v2_is_record texts)
        /\ Forall2 denom_of_line (bonds doc) (filter v2_is_record texts)).
Proof.
  split; intros H.
  - destruct (read_sbw4_document_records content code doc w' H)
      as (recs & Hholds & Hvalid & Hbonds).
    exists recs. split; [exact Hholds|]. split; [exact Hvalid|].
    split; [exact Hbonds|]. rewrite Hbonds. now apply record_bond_denom.
  - exact (read_sbw2_document_lines content code doc w' H).
Qed.

(** ** Further properties of the reader *)

(** A missing file gives the cannot-open code; a source that the probe
    does not recognise gives the bad-magic code; neither gives a document. *)
Theorem gb_doc_sbw_open_unrecognized {interp : Interpreter}
        (content : bytes) (code : Z) :
  bytes_startswith content magic_2 = false ->
  bytes_startswith content magic_3 = false ->
  firstn 5 (skipn 12 content) <> magic_cbond ->
  gb_doc_sbw_open None code = Returned None GB_ERROR_OPEN_SBW_CANNOT_OPEN_FILE
  /\ gb_doc_sbw_open (Some content) code = Returned None GB_ERROR_OPEN_SBW_BAD_MAGIC.
Proof.
  intros H2 H3 Hc. split; [reflexivity|].
  unfold gb_doc_sbw_open. fold (opened content code).
  erewrite bind_Done by apply sniff_version_run.
  unfold source_version. rewrite H2, H3. cbn [orb].
  destruct (bytes_eqb (firstn 5 (skipn 12 content)) magic_cbond) eqn:E.
  - apply bytes_eqb_eq in E. contradiction.
  - reflexivity.
Qed.

(** A source that starts with a magic literal but whose first line,
    trimmed, is not exactly that literal is sent to the v2 reader, which
    answers bad magic: it is never tried as a v4 source. *)
Theorem gb_doc_sbw_open_inexact_magic_line {interp : Interpreter}
        (content : bytes) (code : Z) :
  bytes_startswith content magic_2 || bytes_startswith content magic_3 = true ->
  bytes_in (bytes_strip (take_line content)) [magic_2; magic_3] = false ->
  gb_doc_sbw_open (Some content) code = Returned None GB_ERROR_OPEN_SBW_BAD_MAGIC.
Proof.
  intros Hv Hline.
  unfold gb_doc_sbw_open. fold (opened content code).
  erewrite bind_Done by apply sniff_version_run.
  unfold source_version. rewrite Hv. cbn [Z.eqb Pos.eqb].
  unfold read_sbw2. rewrite bind_set_status, bind_fp_readline.
  change (fp_rest _) with content. rewrite Hline. reflexivity.
Qed.

(** A v2 source whose count line is not an integer gives no document and
    the parse error. *)
Theorem read_sbw2_bad_count {interp : Interpreter} (content : bytes) (code : Z) :
  bytes_in (bytes_strip (v2_head_line 0 content)) [magic_2; magic_3] = true ->
  utf8_decode (v2_head_line 1 content) <> None ->
  read_count_line (v2_head_line 3 content) = None ->
  exists w,
    read_sbw2 (opened content code) = Done None w
    /\ status_code w = GB_ERROR_OPEN_SBW_PARSE.
Proof.
  intros Hmagic Htitle Hcount.
  destruct (read_sbw2_reads_head content code Hmagic Htitle) as (w & _ & _ & Hrun).
  rewrite Hcount, bind_set_status in Hrun.
  eexists. split; [exact Hrun|reflexivity].
Qed.

(** The float of an unsigned 32-bit denomination is that very number. *)
Theorem py_float_of_uint32 (n : Z) :
  (0 <= n < 2 ^ 32)%Z ->
  exists x,
    py_float_of_int n = Some x
    /\ float_integer x = Some n
    /\ float_nonneg x = true.
Proof.
  intros Hn.
  destruct (py_float_of_int n) as [x|] eqn:Hx.
  - exists x. split; [reflexivity|]. split.
    + apply (py_float_of_int_exact n); [lia|exact Hx].
    + apply (py_float_of_int_nonneg n x); [lia|exact Hx].
  - exfalso. now apply (py_float_of_int_uint32 n Hn).
Qed.

(** * The theorems at concrete sources

    Each theorem above that has a hypothesis is applied here to a concrete
    source, its hypotheses discharged by evaluation. *)

(** C8 at 0, 12, 9 and 900 months. *)
Lemma gb_date_fmt_calendar_months_examples :
  gb_date_fmt 0 = Ok (s_lit "04/1941")
  /\ gb_date_fmt 12 = Ok (s_lit "04/1942")
  /\ gb_date_fmt 9 = Ok (s_lit "01/1942")
  /\ gb_date_fmt 900 = Ok (s_lit "04/2016")
  /\ gb_date_fmt 96704 = Ok (s_lit "12/9999")
  /\ gb_date_fmt 25769780480 = Err ValueError
  /\ gb_date_fmt 25769780481 = Err OverflowError.
Proof.
  assert (H : forall m n : N, (m <=? n)%N = true -> (m <= n)%N)
    by (intros m n; apply N.leb_le).
  split; [|split; [|split; [|split; [|split; [|split]]]]].
  - exact (proj1 (gb_date_fmt_calendar_months 0) (H 0%N LAST_MONTHS eq_refl)).
  - exact (proj1 (gb_date_fmt_calendar_months 12) (H 12%N LAST_MONTHS eq_refl)).
  - exact (proj1 (gb_date_fmt_calendar_months 9) (H 9%N LAST_MONTHS eq_refl)).
  - exact (proj1 (gb_date_fmt_calendar_months 900) (H 900%N LAST_MONTHS eq_refl)).
  - exact (proj1 (gb_date_fmt_calendar_months 96704) (H 96704%N LAST_MONTHS eq_refl)).
  - exact (proj1 (proj2 (gb_date_fmt_calendar_months 25769780480))
             (conj eq_refl eq_refl)).
  - exact (proj2 (proj2 (gb_date_fmt_calendar_months 25769780481))
             (H OVERFLOW_MONTHS 25769780481%N eq_refl)).
Defined.

(** C1 (amended) at the example source, with zero header fields, a block that
    is zero but for the denomination, and no notes. *)
Lemma read_sbw4_example_row_at_example :
  exists doc w,
    read_sbw4 (interp := plain_interpreter)
      (opened (sbw4_source header_one magic_cbond [example_record block_50 []] [])
              GB_OK)
    = Done (Some doc) w
    /\ status_code w = GB_OK
    /\ to_csv false doc = Ok (s_lit "E,50.0,A1,04/1941" ++ crlf)
    /\ to_csv true doc
       = Ok (s_lit "Series,Denomination,Serial Number,Issue Date" ++ crlf
             ++ s_lit "E,50.0,A1,04/1941" ++ crlf).
Proof.
  apply (read_sbw4_example_row (interp := plain_interpreter)
           header_one magic_cbond block_50 [] [] GB_OK);
    first [reflexivity | simpl; lia].
Defined.

(** The four records of the filter example are valid. *)
Lemma filter_records_valid :
  Forall (record_valid (interp := plain_interpreter)) filter_records.
Proof.
  unfold filter_records.
  repeat (constructor;
          [unfold record_valid; cbn [rec_block rec_notes rec_sn rec_series rec_gap];
           repeat split; try reflexivity; try (simpl; lia); try discriminate;
           intros _; vm_compute; discriminate|]).
  constructor.
Defined.

(** C6 at four records of series E, X, none and ee: the first and the last
    are kept. *)
Lemma read_sbw4_keeps_listed_series_at_example :
  exists doc w,
    read_sbw4 (interp := plain_interpreter)
      (opened (sbw4_source header_four magic_cbond filter_records []) GB_OK)
    = Done (Some doc) w
    /\ status_code w = GB_OK
    /\ bonds doc
       = map record_bond (filter (record_kept (interp := plain_interpreter))
                                 filter_records)
    /\ map (option_map sn) (bonds doc) = [Some (s_lit "A1"); Some (s_lit "D4")].
Proof.
  destruct (read_sbw4_keeps_listed_series (interp := plain_interpreter)
              header_four magic_cbond filter_records [] GB_OK
              eq_refl eq_refl eq_refl filter_records_valid)
    as (doc & w & Hrun & Hs & Hb & _).
  exists doc, w. repeat split; try assumption.
  rewrite Hb. vm_compute. reflexivity.
Defined.


(** C4 at the v4 example source, at that source with a series field cut
    short, and at the v2 source with a negative denomination. *)
Lemma decoded_denominations_at_examples :
  (exists recs,
      sbw4_holds sbw4_example_source recs
      /\ Forall (record_valid (interp := plain_interpreter)) recs
      /\ bonds sbw4_example_doc
         = map record_bond (filter (record_kept (interp := plain_interpreter)) recs)
      /\ Forall2 denom_of_record (bonds sbw4_example_doc)
                 (filter (record_kept (interp := plain_interpreter)) recs))
  /\ (exists recs,
         sbw4_holds sbw4_short_series recs
         /\ Forall (record_valid (interp := plain_interpreter)) recs
         /\ bonds sbw4_example_doc
            = map record_bond (filter (record_kept (interp := plain_interpreter)) recs)
         /\ Forall2 denom_of_record (bonds sbw4_example_doc)
                    (filter (record_kept (interp := plain_interpreter)) recs))
  /\ (exists n texts,
         v2_header_ok (interp := plain_interpreter) v2_negative_source n
         /\ length texts = Z.to_nat n
         /\ map utf8_decode (read_lines (length texts) (v2_body v2_negative_source))
            = map Some texts
         /\ bonds v2_negative_doc
            = map (v2_bond (interp := plain_interpreter)) (filter v2_is_record texts)
         /\ Forall2 (denom_of_line (interp := plain_interpreter))
                    (bonds v2_negative_doc) (filter v2_is_record texts)).
Proof.
  split; [|split].
  - eapply (proj1 (decoded_denominations (interp := plain_interpreter)
                     sbw4_example_source GB_OK sbw4_example_doc _)).
    vm_compute. reflexivity.
  - eapply (proj1 (decoded_denominations (interp := plain_interpreter)
                     sbw4_short_series GB_OK sbw4_example_doc _)).
    vm_compute. reflexivity.
  - eapply (proj2 (decoded_denominations (interp := plain_interpreter)
                     v2_negative_source GB_OK v2_negative_doc _)).
    vm_compute. reflexivity.
Defined.


(** C5 at a source whose first record line has the denomination abc, at
    a source whose first record line has two fields, and at a source whose
    only declared line is a byte outside UTF-8. *)
Lemma read_sbw2_denominations_and_short_lines_at_examples :
  (exists w,
      read_sbw2 (interp := plain_interpreter) (opened v2_bad_denomination_source GB_OK)
      = Done None w
      /\ status_code w = GB_ERROR_OPEN_SBW_PARSE)
  /\ (exists doc w,
         read_sbw2 (interp := plain_interpreter) (opened v2_short_line_source GB_OK)
         = Done (Some doc) w
         /\ status_code w = GB_OK
         /\ bonds doc = bonds v2_one_bond_doc)
  /\ read_sbw2 (interp := plain_interpreter) (opened v2_undecodable_short_source GB_OK)
     = Raised UnicodeDecodeError.
Proof.
  split; [|split].
  - apply (proj1 (proj1 (read_sbw2_denominations_and_short_lines
                    (interp := plain_interpreter) v2_bad_denomination_source GB_OK 2
                    ltac:(v2_head_by_computation))
                    [text_line "A1,abc,E,01/2000"; text_line "B2,100,EE,02/2001"]
                    ltac:(vm_compute; lia) ltac:(vm_compute; reflexivity))).
    exists (text_line "A1,abc,E,01/2000").
    split; [now left|]. split; vm_compute; reflexivity.
  - destruct (proj1 (proj2 (proj1 (read_sbw2_denominations_and_short_lines
                       (interp := plain_interpreter) v2_short_line_source GB_OK 2
                       ltac:(v2_head_by_computation))
                       [text_line "short,line"; text_line "B2,100,EE,02/2001"]
                       ltac:(vm_compute; lia) ltac:(vm_compute; reflexivity)))
                eq_refl ltac:(v2_lines_parse))
      as (doc & w & Hrun & Hs & _ & Hb).
    exists doc, w. split; [exact Hrun|]. split; [exact Hs|].
    rewrite Hb. vm_compute. reflexivity.
  - apply (proj2 (proj2 (proj1 (read_sbw2_denominations_and_short_lines
                    (interp := plain_interpreter) v2_undecodable_short_source GB_OK 1
                    ltac:(v2_head_by_computation))
                    [] ltac:(vm_compute; lia) ltac:(vm_compute; reflexivity)))).
    + vm_compute. lia.
    + v2_lines_parse.
    + vm_compute. reflexivity.
Defined.


(** No file, and a file that is neither format. *)
Lemma gb_doc_sbw_open_unrecognized_at_example :
  gb_doc_sbw_open (interp := plain_interpreter) None GB_OK
  = Returned None GB_ERROR_OPEN_SBW_CANNOT_OPEN_FILE
  /\ gb_doc_sbw_open (interp := plain_interpreter) (Some (b_lit "not an inventory")) GB_OK
     = Returned None GB_ERROR_OPEN_SBW_BAD_MAGIC.
Proof.
  apply (gb_doc_sbw_open_unrecognized (interp := plain_interpreter)
           (b_lit "not an inventory") GB_OK);
    [reflexivity | reflexivity | discriminate].
Defined.

(** The source of the C3 counterexample ends as bad magic, although the
    marker stands at offset 12. *)
Lemma gb_doc_sbw_open_inexact_magic_line_at_example :
  gb_doc_sbw_open (interp := plain_interpreter) (Some trailing_magic_source) GB_OK
  = Returned None GB_ERROR_OPEN_SBW_BAD_MAGIC.
Proof.
  apply (gb_doc_sbw_open_inexact_magic_line (interp := plain_interpreter)
           trailing_magic_source GB_OK); reflexivity.
Defined.

(** A count line that reads two. *)
Lemma read_sbw2_bad_count_at_example :
  exists w,
    read_sbw2 (interp := plain_interpreter)
      (opened (v2_example_head "two" ++ lf_line "B2,100,EE,02/2001") GB_OK)
    = Done None w
    /\ status_code w = GB_ERROR_OPEN_SBW_PARSE.
Proof.
  apply (read_sbw2_bad_count (interp := plain_interpreter)
           (v2_example_head "two" ++ lf_line "B2,100,EE,02/2001") GB_OK);
    [vm_compute; reflexivity | vm_compute; discriminate | vm_compute; reflexivity].
Defined.

(** The denomination of the example. *)
Lemma py_float_of_uint32_at_50 :
  exists x,
    py_float_of_int 50 = Some x
    /\ float_integer x = Some 50%Z
    /\ float_nonneg x = true.
Proof.
  apply (py_float_of_uint32 50). split; [apply Z.leb_le|apply Z.ltb_lt]; reflexivity.
Defined.

(** * Further properties: the reader on any source *)

(** ** The status code along a run *)

Lemma keeps_status_ret {A} (a : A) : keeps_status (ret a).
Proof. intros w x w1 [= _ <-]. reflexivity. Qed.

Lemma keeps_status_lift {A} (r : pyresult A) : keeps_status (lift r).
Proof. intros w x w1. unfold lift. destruct r; [intros [= _ <-]; reflexivity|discriminate]. Qed.

Lemma keeps_status_fp_read (n : nat) : keeps_status (fp_read n).
Proof. intros w x w1 [= _ <-]. reflexivity. Qed.

Lemma keeps_status_fp_readline : keeps_status fp_readline.
Proof. intros w x w1 [= _ <-]. reflexivity. Qed.

Lemma keeps_status_bind {A B} (m : M A) (k : A -> M B) :
  keeps_status m -> (forall a, keeps_status (k a)) -> keeps_status (bind m k).
Proof.
  intros Hm Hk w b w2 H. inv_bind H.
  rewrite (Hk _ _ _ _ H). exact (Hm _ _ _ Hm0).
Qed.

Lemma keeps_status_if {A} (c : bool) (m1 m2 : M A) :
  keeps_status m1 -> keeps_status m2 -> keeps_status (if c then m1 else m2).
Proof. now destruct c. Qed.

Lemma keeps_status_read_length_byte : keeps_status read_length_byte.
Proof.
  unfold read_length_byte.
  apply keeps_status_bind; [apply keeps_status_fp_read|]. intros b.
  apply keeps_status_bind; [apply keeps_status_lift|]. intros u.
  apply keeps_status_ret.
Qed.

Create HintDb keeps.

#[local] Hint Resolve keeps_status_ret keeps_status_lift keeps_status_fp_read
  keeps_status_fp_readline keeps_status_bind keeps_status_if
  keeps_status_read_length_byte : keeps.

(** From a run of [bind m k] where [m] keeps the status: the run of [k]. *)
Lemma bind_keeps {A B} (m : M A) (k : A -> M B) (w w' : world) (b : B) :
  keeps_status m ->
  bind m k w = Done b w' ->
  exists a w1, status_code w1 = status_code w /\ m w = Done a w1 /\ k a w1 = Done b w'.
Proof.
  intros Hm H. inv_bind H. exists a, w0. split; [exact (Hm _ _ _ Hm0)|].
  split; [reflexivity|exact H].
Qed.

(** Steps over the first computation of [H], a run from a world whose
    status is known, and records the status of the world it leaves. *)
Ltac keep_bind_as H a w1 Hs1 :=
  match type of H with
  | bind ?m ?k ?w = Done _ _ =>
      let Hm := fresh "Hm" in
      match goal with
      | Hs : status_code w = _ |- _ =>
          apply bind_keeps in H; [|auto 6 with keeps; fail];
          destruct H as (a & w1 & Hs1 & Hm & H);
          rewrite Hs in Hs1; clear Hm
      end
  end.

Ltac keep_bind H :=
  let a := fresh "a" in
  let w1 := fresh "w" in
  let Hs1 := fresh "Hs" in
  keep_bind_as H a w1 Hs1.

(** ** The loops on any bytes *)

(** Whatever the bytes, a run of the v4 loop that ends without an
    exception either returns a document, with the status still [GB_OK],
    the title untouched, at most one more bond for each round and only
    bonds of the v4 shape, or returns [None] with the parse error. *)
Lemma read_sbw4_bonds_outcome {interp : Interpreter} (todo : nat) :
  forall (i n : Z) (doc : GBDoc) (w w' : world) (r : option GBDoc),
    status_code w = GB_OK ->
    read_sbw4_bonds todo i n doc w = Done r w' ->
    match r with
    | Some doc' =>
        status_code w' = GB_OK
        /\ title doc' = title doc
        /\ length (bonds doc') <= length (bonds doc) + todo
        /\ (Forall bond_of_v4 (bonds doc) -> Forall bond_of_v4 (bonds doc'))
    | None => status_code w' = GB_ERROR_OPEN_SBW_PARSE
    end.
Proof.
  induction todo as [|todo IH]; intros i n doc w w' r Hs H.
  - cbn in H. injection H as <- <-. rewrite Nat.add_0_r. auto.
  - cbn [read_sbw4_bonds] in H.
    keep_bind H. destruct (_ <? 84).
    { rewrite bind_set_status in H. injection H as <- <-. reflexivity. }
    keep_bind_as H unpacked wu Hsu. do 5 keep_bind H.
    keep_bind_as H ser wser Hsser. keep_bind_as H gap w7 Hs7.
    destruct (str_in (py_upper ser) series_codes) eqn:Hkept.
    + apply bind_keeps in H; [|auto with keeps].
      destruct H as (d & w8 & Hs8 & Hdate & H). rewrite Hs7 in Hs8.
      unfold lift in Hdate.
      destruct (gb_date_fmt (Z.to_N (nth 10 unpacked 0%Z))) as [d'|] eqn:Hfmt;
        [|discriminate Hdate].
      injection Hdate as -> _.
      apply gb_date_fmt_Ok_inv in Hfmt. destruct Hfmt as [Hle Hd].
      inv_bind H.
      destruct (gb_doc_bond_new_inv _ _ _ _ _ _ _ Hm)
        as [(f & Hf & -> & ->)|(_ & _ & Hcode)]; clear Hm.
      * rewrite bind_get_status, Hs8 in H.
        change (negb (GB_OK =? GB_OK)%Z) with false in H. cbv iota in H.
        specialize (IH _ _ _ _ _ _ Hs8 H). destruct r as [doc'|]; [|exact IH].
        destruct IH as (Hs' & Ht & Hlen & Hall).
        cbn [add_bond title bonds] in *. rewrite length_app in Hlen. cbn in Hlen.
        split; [exact Hs'|]. split; [exact Ht|]. split; [lia|].
        intros Hdoc. apply Hall. apply Forall_app. split; [exact Hdoc|].
        constructor; [|constructor].
        eexists. exists (Z.to_N (nth 10 unpacked 0%Z)). split; [reflexivity|].
        cbn [series idate]. auto.
      * rewrite bind_get_status, Hcode in H. injection H as <- <-. exact Hcode.
    + specialize (IH _ _ _ _ _ _ Hs7 H). destruct r as [doc'|]; [|exact IH].
      destruct IH as (Hs' & Ht & Hlen & Hall).
      split; [exact Hs'|]. split; [exact Ht|]. split; [lia|exact Hall].
Qed.

(** The same for the v2 loop: a document with the status still [GB_OK],
    the title untouched, at most one more bond for each round and no
    entry that is [None]; or [None] with the parse error. *)
Lemma read_sbw2_bonds_outcome {interp : Interpreter} (todo : nat) :
  forall (doc : GBDoc) (w w' : world) (r : option GBDoc),
    status_code w = GB_OK ->
    read_sbw2_bonds todo doc w = Done r w' ->
    match r with
    | Some doc' =>
        status_code w' = GB_OK
        /\ title doc' = title doc
        /\ length (bonds doc') <= length (bonds doc) + todo
        /\ (Forall (fun ob => ob <> None) (bonds doc) ->
            Forall (fun ob => ob <> None) (bonds doc'))
    | None => status_code w' = GB_ERROR_OPEN_SBW_PARSE
    end.
Proof.
  induction todo as [|todo IH]; intros doc w w' r Hs H.
  - cbn in H. injection H as <- <-. rewrite Nat.add_0_r. auto.
  - cbn [read_sbw2_bonds] in H.
    keep_bind H. keep_bind_as H line wl Hsl.
    destruct (_ <? 4).
    + specialize (IH _ _ _ _ Hsl H). destruct r as [doc'|]; [|exact IH].
      destruct IH as (Hs' & Ht & Hlen & Hall).
      split; [exact Hs'|]. split; [exact Ht|]. split; [lia|exact Hall].
    + inv_bind H.
      destruct (gb_doc_bond_new_inv _ _ _ _ _ _ _ Hm)
        as [(f & Hf & -> & ->)|(_ & _ & Hcode)]; clear Hm.
      * rewrite bind_get_status, Hsl in H.
        change (negb (GB_OK =? GB_OK)%Z) with false in H. cbv iota in H.
        specialize (IH _ _ _ _ Hsl H). destruct r as [doc'|]; [|exact IH].
        destruct IH as (Hs' & Ht & Hlen & Hall).
        cbn [add_bond title bonds] in *. rewrite length_app in Hlen. cbn in Hlen.
        split; [exact Hs'|]. split; [exact Ht|]. split; [lia|].
        intros Hdoc. apply Hall. apply Forall_app. split; [exact Hdoc|].
        constructor; [discriminate|constructor].
      * rewrite bind_get_status, Hcode in H. injection H as <- <-. exact Hcode.
Qed.

Lemma lift_struct_unpack_H6 (buf : bytes) (w w' : world) (u : list Z) (i : nat) :
  i < 6 ->
  lift (struct_unpack fmt_HHHHHH buf) w = Done u w' ->
  (0 <= nth i u 0 < 2 ^ 16)%Z.
Proof.
  intros Hi. unfold lift, struct_unpack. destruct (_ =? _); [|discriminate].
  intros H. assert (Hu : u = unpack_fields fmt_HHHHHH buf) by congruence.
  subst u. unfold fmt_HHHHHH. rewrite nth_unpack_fields by exact Hi.
  change (2 ^ 16)%Z with (256 ^ Z.of_nat 2)%Z. apply le_field_bounds.
Qed.

(** ** The readers on any bytes *)

Lemma read_sbw4_outcome {interp : Interpreter} (w w' : world) (r : option GBDoc) :
  read_sbw4 w = Done r w' ->
  match r with
  | Some doc =>
      status_code w' = GB_OK
      /\ title doc = s_lit "Imported SBW4 Inventory"
      /\ (Z.of_nat (length (bonds doc)) < 65536)%Z
      /\ Forall bond_of_v4 (bonds doc)
  | None => status_code w' = GB_ERROR_OPEN_SBW_PARSE
  end.
Proof.
  unfold read_sbw4. rewrite bind_set_status.
  set (w0 := {| fp_content := _; fp_pos := _; status_code := GB_OK |}).
  assert (Hs0 : status_code w0 = GB_OK) by reflexivity.
  intros H. keep_bind H. destruct (_ <? 12).
  { rewrite bind_set_status in H. injection H as <- <-. reflexivity. }
  apply bind_keeps in H; [|auto with keeps].
  destruct H as (head & w2 & Hs2 & Hhead & H). rewrite Hs in Hs2.
  pose proof (lift_struct_unpack_H6 _ _ _ _ 2 ltac:(lia) Hhead) as Hn.
  keep_bind H.
  pose proof (read_sbw4_bonds_outcome _ _ _ _ _ _ _ Hs1 H) as Hloop.
  destruct r as [doc|]; [|exact Hloop].
  destruct Hloop as (Hs' & Ht & Hlen & Hall). cbn in Hlen.
  split; [exact Hs'|]. split; [exact Ht|]. split; [lia|].
  apply Hall. constructor.
Qed.

Lemma read_sbw2_outcome {interp : Interpreter} (w w' : world) (r : option GBDoc) :
  read_sbw2 w = Done r w' ->
  match r with
  | Some doc =>
      status_code w' = GB_OK /\ Forall (fun ob => ob <> None) (bonds doc)
  | None =>
      status_code w' = GB_ERROR_OPEN_SBW_BAD_MAGIC
      \/ status_code w' = GB_ERROR_OPEN_SBW_PARSE
  end.
Proof.
  unfold read_sbw2. rewrite bind_set_status.
  set (w0 := {| fp_content := _; fp_pos := _; status_code := GB_OK |}).
  assert (Hs0 : status_code w0 = GB_OK) by reflexivity.
  intros H. keep_bind H. destruct (negb _).
  { rewrite bind_set_status in H. injection H as <- <-. now left. }
  do 4 keep_bind H.
  destruct (read_count_line _) as [n|].
  - pose proof (read_sbw2_bonds_outcome _ _ _ _ _ Hs4 H) as Hloop.
    destruct r as [doc|]; [|now right].
    destruct Hloop as (Hs' & _ & _ & Hall). split; [exact Hs'|].
    apply Hall. constructor.
  - rewrite bind_set_status in H. injection H as <- <-. now right.
Qed.

(** ** [gb_doc_sbw_open] on any file *)

Lemma bond_of_v4_not_None {interp : Interpreter} (bs : list (option GBDocBond)) :
  Forall bond_of_v4 bs -> Forall (fun ob => ob <> None) bs.
Proof.
  apply Forall_impl. intros ob (b & m & -> & _). discriminate.
Qed.

Lemma gb_doc_sbw_open_outcome {interp : Interpreter}
      (file : option bytes) (code c : Z) (doc : option GBDoc) :
  gb_doc_sbw_open file code = Returned doc c ->
  match doc with
  | Some d => c = GB_OK /\ file <> None /\ Forall (fun ob => ob <> None) (bonds d)
  | None =>
      (file = None /\ c = GB_ERROR_OPEN_SBW_CANNOT_OPEN_FILE)
      \/ (file <> None
          /\ (c = GB_ERROR_OPEN_SBW_BAD_MAGIC \/ c = GB_ERROR_OPEN_SBW_PARSE))
  end.
Proof.
  destruct file as [content|]; [|intros [= <- <-]; now left].
  unfold gb_doc_sbw_open. fold (opened content code).
  erewrite bind_Done by apply sniff_version_run.
  destruct (source_version content =? 2)%Z.
  - destruct (read_sbw2 (opened content code)) as [r w'|e] eqn:Hrun; [|discriminate].
    intros [= <- <-]. apply read_sbw2_outcome in Hrun.
    destruct r as [d|].
    + destruct Hrun as [Hs Hall]. split; [exact Hs|]. split; [discriminate|exact Hall].
    + right. split; [discriminate|exact Hrun].
  - destruct (source_version content =? 4)%Z.
    + destruct (read_sbw4 (opened content code)) as [r w'|e] eqn:Hrun; [|discriminate].
      intros [= <- <-]. apply read_sbw4_outcome in Hrun.
      destruct r as [d|].
      * destruct Hrun as (Hs & _ & _ & Hall). split; [exact Hs|].
        split; [discriminate|]. now apply bond_of_v4_not_None.
      * right. split; [discriminate|]. now right.
    + rewrite bind_set_status. intros [= <- <-]. right.
      split; [discriminate|]. now left.
Qed.

(** Whenever [gb_doc_sbw_open] returns, the document and the status code
    agree: there is no document exactly when the code is not [GB_OK]; the
    code is one of the four constants, and it is the cannot-open code
    exactly when there is no such file; a returned document holds no entry
    that is [None]. *)
Theorem gb_doc_sbw_open_status_agrees {interp : Interpreter}
        (file : option bytes) (code c : Z) (doc : option GBDoc) :
  gb_doc_sbw_open file code = Returned doc c ->
  (doc = None <-> c <> GB_OK)
  /\ (c = GB_OK \/ c = GB_ERROR_OPEN_SBW_CANNOT_OPEN_FILE
      \/ c = GB_ERROR_OPEN_SBW_BAD_MAGIC \/ c = GB_ERROR_OPEN_SBW_PARSE)
  /\ (c = GB_ERROR_OPEN_SBW_CANNOT_OPEN_FILE <-> file = None)
  /\ (forall d, doc = Some d -> Forall (fun ob => ob <> None) (bonds d)).
Proof.
  intros H. apply gb_doc_sbw_open_outcome in H.
  destruct doc as [d|].
  - destruct H as (-> & Hfile & Hall). split; [|split; [|split]].
    + split; [discriminate|]. intros Hc. now contradiction Hc.
    + now left.
    + split; [discriminate|]. intros ->. now contradiction Hfile.
    + intros d' [= <-]. exact Hall.
  - split; [|split; [|split]].
    + split; [|reflexivity]. intros _.
      destruct H as [[_ ->]|[_ [->| ->]]]; discriminate.
    + destruct H as [[_ ->]|[_ [->| ->]]]; auto.
    + destruct H as [[-> ->]|[Hfile [->| ->]]].
      * split; reflexivity.
      * split; [discriminate|]. intros ->. now contradiction Hfile.
      * split; [discriminate|]. intros ->. now contradiction Hfile.
    + discriminate.
Qed.

(** The status code on entry has no part in the result of
    [gb_doc_sbw_open]: a status object that still carries the code of an
    earlier failure can be used again. *)
Theorem gb_doc_sbw_open_entry_status {interp : Interpreter}
        (file : option bytes) (code code' : Z) :
  gb_doc_sbw_open file code = gb_doc_sbw_open file code'.
Proof.
  destruct file as [content|]; [|reflexivity].
  unfold gb_doc_sbw_open. fold (opened content code) (opened content code').
  do 2 (erewrite bind_Done by apply sniff_version_run).
  destruct (source_version content =? 2)%Z; [reflexivity|].
  destruct (source_version content =? 4)%Z; reflexivity.
Qed.

(** Whatever the bytes of the source, a document that the v4 reader
    returns has the title of an imported inventory and the status
    [GB_OK]; it holds fewer than 65536 bonds, each with a series code
    that, upper-cased, is one of E, S, EE, I and an issue date of the form
    [MM/YYYY] for a month count within the year 9999.  When the reader
    returns no document the status is the parse error. *)
Theorem read_sbw4_document_shape {interp : Interpreter}
        (content : bytes) (code : Z) (r : option GBDoc) (w' : world) :
  read_sbw4 (opened content code) = Done r w' ->
  match r with
  | Some doc =>
      status_code w' = GB_OK
      /\ title doc = s_lit "Imported SBW4 Inventory"
      /\ (Z.of_nat (length (bonds doc)) < 65536)%Z
      /\ Forall bond_of_v4 (bonds doc)
  | None => status_code w' = GB_ERROR_OPEN_SBW_PARSE
  end.
Proof. apply read_sbw4_outcome. Qed.

(** ** A v4 record with an issue date past the year 9999 *)



(** ** What the v4 reader takes from a record *)

Lemma same_payload_bonds {interp : Interpreter} (recs recs' : list sbw4_record) :
  Forall2 same_payload recs recs' ->
  map record_bond (filter record_kept recs)
  = map record_bond (filter record_kept recs').
Proof.
  induction 1 as [|r r' rs rs' (Hd & Hi & Hsn & Hser) _ IH]; [reflexivity|].
  assert (Hk : record_kept r = record_kept r')
    by (unfold record_kept; now rewrite Hser).
  cbn [filter]. rewrite Hk.
  destruct (record_kept r'); [|exact IH].
  cbn [map]. rewrite IH. f_equal.
  unfold record_bond. now rewrite Hd, Hi, Hsn, Hser.
Qed.

(** Of a valid v4 source only the count, and of each record the
    denomination, the issue date, the serial number and the series reach
    the document: two sources that agree on these decode to the same
    document, whatever their notes, separators, unused fields, markers
    and trailing bytes. *)
Theorem read_sbw4_payload_only {interp : Interpreter}
        (head head' marker marker' : bytes) (recs recs' : list sbw4_record)
        (tail tail' : bytes) (code code' : Z) :
  length head = 12 -> length head' = 12 ->
  header_count head = Z.of_nat (length recs) ->
  header_count head' = Z.of_nat (length recs') ->
  length marker = 5 -> length marker' = 5 ->
  Forall record_valid recs -> Forall record_valid recs' ->
  Forall2 same_payload recs recs' ->
  exists doc w w',
    read_sbw4 (opened (sbw4_source head marker recs tail) code) = Done (Some doc) w
    /\ read_sbw4 (opened (sbw4_source head' marker' recs' tail') code')
       = Done (Some doc) w'.
Proof.
  intros Hh Hh' Hc Hc' Hm Hm' Hv Hv' Hsame.
  destruct (read_sbw4_valid_source head marker recs tail code Hh Hc Hm Hv)
    as (w & Hrun & _).
  destruct (read_sbw4_valid_source head' marker' recs' tail' code' Hh' Hc' Hm' Hv')
    as (w' & Hrun' & _).
  eexists. exists w, w'. split; [exact Hrun|].
  rewrite Hrun'. now rewrite (same_payload_bonds recs recs' Hsame).
Qed.

(** ** Sources without records *)

Lemma startswith_app {A} (eqb : A -> A -> bool) (x y p : list A) :
  length p <= length x -> startswith eqb (x ++ y) p = startswith eqb x p.
Proof.
  revert x. induction p as [|b p IH]; intros x Hlen.
  - now destruct (x ++ y), x.
  - destruct x as [|a x]; simpl in *; [lia|].
    rewrite IH by lia. reflexivity.
Qed.

(** A file that carries the marker at offset 12 and a zero count in its
    header opens to the empty inventory with [GB_OK], whatever follows the
    marker. *)
Theorem gb_doc_sbw_open_v4_no_records {interp : Interpreter}
        (head rest : bytes) (code : Z) :
  length head = 12 ->
  header_count head = 0%Z ->
  bytes_startswith head magic_2 = false ->
  bytes_startswith head magic_3 = false ->
  gb_doc_sbw_open (Some (head ++ magic_cbond ++ rest)) code
  = Returned (Some sbw4_doc_new) GB_OK.
Proof.
  intros Hhead Hcount H2 H3.
  unfold gb_doc_sbw_open. fold (opened (head ++ magic_cbond ++ rest) code).
  erewrite bind_Done by apply sniff_version_run.
  unfold source_version, bytes_startswith.
  rewrite !startswith_app by (rewrite Hhead; simpl; lia).
  fold (bytes_startswith head magic_2). fold (bytes_startswith head magic_3).
  rewrite H2, H3. cbn [orb].
  assert (Hp : firstn 5 (skipn 12 (head ++ magic_cbond ++ rest)) = magic_cbond).
  { rewrite <- Hhead, skipn_length_app. apply (firstn_length_app magic_cbond rest). }
  rewrite Hp.
  change (bytes_eqb magic_cbond magic_cbond) with true. cbv iota.
  change (4 =? 2)%Z with false. change (4 =? 4)%Z with true. cbv iota.
  destruct (read_sbw4_enters_loop head magic_cbond rest code Hhead eq_refl)
    as (w & _ & Hs & Hrun).
  rewrite Hrun, Hcount. cbn [Z.to_nat read_sbw4_bonds]. unfold ret.
  now rewrite Hs.
Qed.

(** A v2 source whose count line reads zero or a negative number decodes
    with [GB_OK] to a document that has the title and no bond, whatever
    lines follow. *)
Theorem read_sbw2_no_records {interp : Interpreter}
        (content : bytes) (code n : Z) :
  v2_header_ok content n ->
  (n <= 0)%Z ->
  exists w,
    read_sbw2 (opened content code)
    = Done (Some (set_title gb_doc_new (v2_title content))) w
    /\ status_code w = GB_OK.
Proof.
  intros Hhead Hn.
  destruct (read_sbw2_enters_loop content code n Hhead) as (w & _ & Hs & Hrun).
  rewrite Hrun. replace (Z.to_nat n) with 0 by lia.
  exists w. split; [reflexivity|exact Hs].
Qed.

(** ** Lines of a v2 source that are not UTF-8 *)

(** The v2 reader catches no decoding error outside the count line: a
    title line that is not UTF-8, or a record line among the declared ones
    that is not, raises [UnicodeDecodeError] to the caller. *)
Theorem read_sbw2_undecodable_line {interp : Interpreter}
        (content : bytes) (code : Z) :
  bytes_in (bytes_strip (v2_head_line 0 content)) [magic_2; magic_3] = true ->
  (utf8_decode (v2_head_line 1 content) = None ->
   read_sbw2 (opened content code) = Raised UnicodeDecodeError)
  /\ (forall (n : Z) (texts : list str),
        v2_header_ok content n ->
        length texts < Z.to_nat n ->
        map utf8_decode (read_lines (length texts) (v2_body content))
        = map Some texts ->
        (forall t, In t texts -> v2_is_record t = true ->
                   py_float_of_str (v2_field 1 t) <> None) ->
        utf8_decode (take_line (after_lines (length texts) (v2_body content))) = None ->
        read_sbw2 (opened content code) = Raised UnicodeDecodeError).
Proof.
  intros Hmagic. split.
  - intros Htitle. now apply read_sbw2_title_undecodable.
  - intros n texts Hhead Hlen Hlines Hparse Hbad.
    exact (read_sbw2_undecodable_record_line content code n texts
             Hhead Hlen Hlines Hparse Hbad).
Qed.

(** ** The date codec: its domain, and no two counts with one text *)

(** [gb_date_fmt] returns a text, of seven characters, exactly for the
    counts of months up to December 9999; it raises [ValueError] exactly
    for the counts past it whose year fits a C [int], [OverflowError]
    exactly for the counts from [OVERFLOW_MONTHS] on, and no other
    exception. *)
Theorem gb_date_fmt_domain (m : N) :
  ((exists d, gb_date_fmt m = Ok d /\ length d = 7) <-> (m <= LAST_MONTHS)%N)
  /\ (gb_date_fmt m = Err ValueError <-> (LAST_MONTHS < m < OVERFLOW_MONTHS)%N)
  /\ (gb_date_fmt m = Err OverflowError <-> (OVERFLOW_MONTHS <= m)%N)
  /\ (forall e, gb_date_fmt m = Err e -> e = ValueError \/ e = OverflowError).
Proof.
  assert (Hlt : (LAST_MONTHS < OVERFLOW_MONTHS)%N) by reflexivity.
  destruct (N.leb_spec m LAST_MONTHS) as [Hle|Hgt].
  - rewrite (gb_date_fmt_text m Hle).
    split; [split; [intros _; exact Hle|]; intros _; eexists; split; reflexivity|].
    split; [split; [discriminate|lia]|].
    split; [split; [discriminate|lia]|discriminate].
  - rewrite (gb_date_fmt_beyond m Hgt).
    split; [split; [intros (d & Hd & _); discriminate Hd|lia]|].
    destruct (N.ltb_spec m OVERFLOW_MONTHS) as [Hv|Ho].
    + split; [split; [intros _; split; assumption|reflexivity]|].
      split; [split; [discriminate|lia]|].
      intros e [= <-]. now left.
    + split; [split; [discriminate|lia]|].
      split; [split; [intros _; exact Ho|reflexivity]|].
      intros e [= <-]. now right.
Qed.

Lemma digit_char_inj (a b : N) : digit_char a = digit_char b -> a = b.
Proof. unfold digit_char. lia. Qed.

Lemma mm_yyyy_inj (month month' year year' : N) :
  (month < 100)%N -> (month' < 100)%N -> (year < 10000)%N -> (year' < 10000)%N ->
  mm_yyyy month year = mm_yyyy month' year' -> month = month' /\ year = year'.
Proof.
  intros Hm Hm' Hy Hy' H. unfold mm_yyyy in H.
  pose proof (f_equal (fun l => nth 0 l 0%N) H) as H1.
  pose proof (f_equal (fun l => nth 1 l 0%N) H) as H2.
  pose proof (f_equal (fun l => nth 3 l 0%N) H) as H3.
  pose proof (f_equal (fun l => nth 4 l 0%N) H) as H4.
  pose proof (f_equal (fun l => nth 5 l 0%N) H) as H5.
  pose proof (f_equal (fun l => nth 6 l 0%N) H) as H6.
  cbn [nth] in H1, H2, H3, H4, H5, H6. clear H.
  apply digit_char_inj in H1, H2, H3, H4, H5, H6.
  assert (E1 : (year / 10 / 10 = year / 100)%N) by (rewrite N.Div0.div_div; reflexivity).
  assert (E2 : (year / 100 / 10 = year / 1000)%N) by (rewrite N.Div0.div_div; reflexivity).
  assert (E1' : (year' / 10 / 10 = year' / 100)%N) by (rewrite N.Div0.div_div; reflexivity).
  assert (E2' : (year' / 100 / 10 = year' / 1000)%N) by (rewrite N.Div0.div_div; reflexivity).
  pose proof (N.div_mod year 10 ltac:(lia)).
  pose proof (N.div_mod (year / 10) 10 ltac:(lia)).
  pose proof (N.div_mod (year / 100) 10 ltac:(lia)).
  pose proof (N.div_mod year' 10 ltac:(lia)).
  pose proof (N.div_mod (year' / 10) 10 ltac:(lia)).
  pose proof (N.div_mod (year' / 100) 10 ltac:(lia)).
  pose proof (N.div_mod month 10 ltac:(lia)).
  pose proof (N.div_mod month' 10 ltac:(lia)).
  split; lia.
Qed.

(** Within its range the date codec gives different texts for different
    counts of months: the text determines the count. *)
Theorem gb_date_fmt_injective (m m' : N) :
  (m <= LAST_MONTHS)%N -> (m' <= LAST_MONTHS)%N ->
  m <> m' -> gb_date_fmt m <> gb_date_fmt m'.
Proof.
  intros Hm Hm' Hne. rewrite (gb_date_fmt_text m Hm), (gb_date_fmt_text m' Hm').
  intros H0. apply Hne.
  assert (H : mm_yyyy ((3 + m) mod 12 + 1) (1941 + (3 + m) / 12)
              = mm_yyyy ((3 + m') mod 12 + 1) (1941 + (3 + m') / 12))
    by congruence.
  clear H0. unfold LAST_MONTHS in *.
  pose proof (N.mod_upper_bound (3 + m) 12 ltac:(lia)) as Hb.
  pose proof (N.mod_upper_bound (3 + m') 12 ltac:(lia)) as Hb'.
  assert (Hq : ((3 + m) / 12 < 8059)%N)
    by (apply N.Div0.div_lt_upper_bound; lia).
  assert (Hq' : ((3 + m') / 12 < 8059)%N)
    by (apply N.Div0.div_lt_upper_bound; lia).
  apply mm_yyyy_inj in H; try lia.
  destruct H as [Hmonth Hyear].
  pose proof (N.div_mod (3 + m) 12 ltac:(lia)).
  pose proof (N.div_mod (3 + m') 12 ltac:(lia)).
  lia.
Qed.

(** ** [strip] and [split] on a record line *)

Lemma rstrip_snoc_keep {A} (f : A -> bool) (y : list A) (c : A) :
  f c = false -> rstrip f (y ++ [c]) = y ++ [c].
Proof.
  intros Hc. unfold rstrip. rewrite rev_app_distr. cbn [rev app lstrip].
  rewrite Hc. change (c :: rev y) with (rev [c] ++ rev y).
  now rewrite <- rev_app_distr, rev_involutive.
Qed.

Lemma rstrip_snoc_drop {A} (f : A -> bool) (y : list A) (c : A) :
  f c = true -> rstrip f (y ++ [c]) = rstrip f y.
Proof.
  intros Hc. unfold rstrip. rewrite rev_app_distr. cbn [rev app lstrip].
  now rewrite Hc.
Qed.

Lemma rstrip_app_dropped {A} (f : A -> bool) (y ws : list A) :
  Forall (fun c => f c = true) ws -> rstrip f (y ++ ws) = rstrip f y.
Proof.
  induction ws as [|c ws IH] using rev_ind; intros Hws.
  - now rewrite app_nil_r.
  - apply Forall_app in Hws. destruct Hws as [Hws Hc].
    inversion Hc as [|? ? Hfc _]; subst.
    rewrite app_assoc, rstrip_snoc_drop by exact Hfc. now apply IH.
Qed.

Lemma lstrip_all_dropped {A} (f : A -> bool) (ws : list A) :
  Forall (fun c => f c = true) ws -> lstrip f ws = [].
Proof.
  induction 1 as [|c ws Hc _ IH]; [reflexivity|]. cbn [lstrip]. now rewrite Hc.
Qed.

Lemma lstrip_app {A} (f : A -> bool) (x ws : list A) :
  lstrip f (x ++ ws)
  = match lstrip f x with
    | [] => lstrip f ws
    | l => l ++ ws
    end.
Proof.
  induction x as [|a x IH]; [reflexivity|].
  cbn [app lstrip]. destruct (f a); [exact IH|reflexivity].
Qed.

(** Characters that [strip] drops, after the text, change nothing. *)
Lemma strip_app_dropped {A} (f : A -> bool) (x ws : list A) :
  Forall (fun c => f c = true) ws -> strip f (x ++ ws) = strip f x.
Proof.
  intros Hws. unfold strip. rewrite lstrip_app.
  destruct (lstrip f x) as [|a l] eqn:E.
  - now rewrite lstrip_all_dropped.
  - now apply rstrip_app_dropped.
Qed.

Lemma not_In_cons {A} (a c : A) (x : list A) :
  ~ In a (c :: x) -> c <> a /\ ~ In a x.
Proof. intros H. split; intros H'; apply H; [now left|now right]. Qed.

(** A piece without separator, before a separator. *)
Lemma str_split_piece (sep : N) (m : nat) (a rest : str) :
  ~ In sep a ->
  str_split sep (S m) (a ++ sep :: rest) = a :: str_split sep m rest.
Proof.
  induction a as [|c a IH]; intros Ha.
  - cbn [app str_split]. now rewrite N.eqb_refl.
  - apply not_In_cons in Ha. destruct Ha as [Hc Ha].
    cbn [app str_split]. apply N.eqb_neq in Hc. rewrite Hc.
    now rewrite (IH Ha).
Qed.

(** A text without separator is one piece. *)
Lemma str_split_whole (sep : N) (m : nat) (a : str) :
  ~ In sep a -> str_split sep m a = [a].
Proof.
  revert m. induction a as [|c a IH]; intros m Ha; [reflexivity|].
  apply not_In_cons in Ha. destruct Ha as [Hc Ha].
  cbn [str_split]. destruct m as [|m]; [reflexivity|].
  apply N.eqb_neq in Hc. rewrite Hc. now rewrite (IH (S m) Ha).
Qed.

(** The number of pieces: one more than the separators, up to [maxsplit]. *)
Lemma length_str_split (sep : N) (s : str) :
  forall m, length (str_split sep m s) = S (Nat.min m (count_occ N.eq_dec s sep)).
Proof.
  induction s as [|c s IH]; intros m.
  - cbn. now rewrite Nat.min_0_r.
  - cbn [str_split]. destruct m as [|m]; [reflexivity|].
    destruct (N.eqb_spec c sep) as [->|Hne].
    + rewrite count_occ_cons_eq by reflexivity. cbn [length]. now rewrite IH.
    + rewrite count_occ_cons_neq by exact Hne.
      specialize (IH (S m)).
      destruct (str_split sep (S m) s) as [|f fs]; [discriminate IH|exact IH].
Qed.

(** Appending text without separator touches the last piece only. *)
Lemma str_split_app (sep : N) (ws : str) :
  ~ In sep ws ->
  forall (t : str) (m : nat),
    Forall2 (fun a b => b = a \/ b = a ++ ws)
            (str_split sep m t) (str_split sep m (t ++ ws)).
Proof.
  intros Hws. induction t as [|c t IH]; intros m.
  - cbn [app str_split]. rewrite (str_split_whole sep m ws Hws).
    constructor; [now right|constructor].
  - cbn [app str_split]. destruct m as [|m].
    + constructor; [now right|constructor].
    + destruct (c =? sep)%N.
      * constructor; [now left|apply IH].
      * specialize (IH (S m)).
        destruct IH as [|f f' fs fs' Hf Hfs]; [repeat constructor; now left|].
        constructor; [|exact Hfs].
        destruct Hf as [->| ->]; [now left|now right].
Qed.

Lemma Forall2_nth_strip (f : N -> bool) (ws : str) (l l' : list str) (i : nat) :
  Forall (fun c => f c = true) ws ->
  Forall2 (fun a b => b = a \/ b = a ++ ws) l l' ->
  strip f (nth i l' []) = strip f (nth i l []).
Proof.
  intros Hws H. revert i. induction H as [|a b l l' Hab _ IH]; intros i.
  - now destruct i.
  - destruct i as [|i]; [|apply IH]. cbn [nth].
    destruct Hab as [->| ->]; [reflexivity|now apply strip_app_dropped].
Qed.

Lemma space_no_comma (ws : str) : Forall is_space ws -> ~ In c_comma ws.
Proof.
  intros H Hin. rewrite Forall_forall in H. specialize (H _ Hin). discriminate H.
Qed.

Lemma v2_field_app_space (i : nat) (t ws : str) :
  Forall is_space ws -> v2_field i (t ++ ws) = v2_field i t.
Proof.
  intros Hws. unfold v2_field, v2_fields, str_strip. f_equal.
  apply Forall2_nth_strip with (ws := ws); [exact Hws|].
  apply str_split_app. now apply space_no_comma.
Qed.

(** Blanks after a record line (a line feed, a carriage return and a line
    feed, spaces) have no effect on how the v2 reader takes the line: it
    is a record or not, and gives the same bond, with or without them. *)
Theorem v2_line_end_ignored {interp : Interpreter} (t ws : str) :
  Forall is_space ws ->
  v2_is_record (t ++ ws) = v2_is_record t /\ v2_bond (t ++ ws) = v2_bond t.
Proof.
  intros Hws. split.
  - unfold v2_is_record, v2_fields.
    pose proof (str_split_app c_comma ws (space_no_comma ws Hws) t 4) as H.
    do 2 f_equal. symmetry. exact (Forall2_length H).
  - unfold v2_bond. now rewrite !v2_field_app_space by exact Hws.
Qed.

(** A decoded line is taken as a record exactly when it holds at least
    three commas, wherever they stand: quotes do not protect a comma. *)
Theorem v2_is_record_three_commas (t : str) :
  v2_is_record t = true <-> 3 <= count_occ N.eq_dec t c_comma.
Proof.
  unfold v2_is_record, v2_fields. rewrite length_str_split.
  destruct (Nat.ltb_spec (S (Nat.min 4 (count_occ N.eq_dec t c_comma))) 4);
    cbn [negb]; split; try discriminate; try reflexivity; lia.
Qed.

(** ** A quoted record line read back *)

Lemma quoted_no_comma (a : str) : ~ In c_comma a -> ~ In c_comma (quoted a).
Proof.
  intros Ha Hin. unfold quoted in Hin. destruct Hin as [H|Hin]; [discriminate H|].
  apply in_app_or in Hin. destruct Hin as [Hin|[H|[]]]; [now apply Ha|discriminate H].
Qed.

Lemma str_strip_quoted (a ws : str) :
  Forall is_space ws -> str_strip (quoted a ++ ws) = quoted a.
Proof.
  intros Hws. unfold str_strip. rewrite strip_app_dropped by exact Hws.
  unfold strip, quoted. cbn [lstrip].
  change (is_unicode_space c_dquote) with false. cbv iota.
  change (c_dquote :: a ++ [c_dquote]) with ((c_dquote :: a) ++ [c_dquote]).
  now apply rstrip_snoc_keep.
Qed.

Lemma dquote_dropped (c : N) :
  existsb (N.eqb c) [c_dquote] = false <-> c <> c_dquote.
Proof.
  cbn [existsb]. rewrite orb_false_r. apply N.eqb_neq.
Qed.

Lemma unquote_quoted (a : str) :
  (forall a', a <> c_dquote :: a') -> (forall a', a <> a' ++ [c_dquote]) ->
  str_strip_chars [c_dquote] (quoted a) = a.
Proof.
  intros Hhead Hlast. unfold str_strip_chars, strip, quoted.
  set (f := fun c => existsb (N.eqb c) [c_dquote]).
  assert (Hq : f c_dquote = true) by reflexivity.
  cbn [lstrip]. rewrite Hq.
  destruct a as [|c a]; [reflexivity|].
  assert (Hc : f c = false).
  { apply dquote_dropped. intros ->. now apply (Hhead a). }
  cbn [app lstrip]. rewrite Hc.
  change (c :: a ++ [c_dquote]) with ((c :: a) ++ [c_dquote]).
  rewrite rstrip_snoc_drop by exact Hq.
  destruct (exists_last (l := c :: a) ltac:(discriminate)) as (y & c' & E).
  rewrite E. apply rstrip_snoc_keep.
  apply dquote_dropped. intros ->. now apply (Hlast y).
Qed.

Lemma str_split_0 (sep : N) (s : str) : str_split sep 0 s = [s].
Proof. now destruct s. Qed.

(** The pieces of a quoted record line, and of one with a fifth field. *)
Lemma v2_fields_line (sn de se da ws : str) :
  ~ In c_comma sn -> ~ In c_comma de -> ~ In c_comma se -> ~ In c_comma da ->
  Forall is_space ws ->
  v2_fields (v2_line sn de se da ws)
  = [quoted sn; quoted de; quoted se; quoted da ++ ws]
  /\ forall junk,
       v2_fields (v2_line sn de se da (ws ++ c_comma :: junk))
       = [quoted sn; quoted de; quoted se; quoted da ++ ws; junk].
Proof.
  intros Hsn Hde Hse Hda Hws. unfold v2_fields, v2_line.
  apply quoted_no_comma in Hsn, Hde, Hse, Hda.
  apply space_no_comma in Hws.
  cbn [app].
  split.
  - rewrite !str_split_piece by assumption.
    rewrite str_split_whole; [reflexivity|].
    intros Hin. apply in_app_or in Hin. tauto.
  - intros junk. rewrite !str_split_piece by assumption.
    rewrite app_assoc, str_split_piece, str_split_0; [reflexivity|].
    intros Hin. apply in_app_or in Hin. tauto.
Qed.

(** A record line whose four fields are written between double quotes is
    read back field by field, in the order serial number, denomination,
    series, issue date: when no field holds a comma or has a double quote
    at either end, the bond carries the three texts as they were written
    and the float of the denomination text, and the line is no bond only
    when [float] rejects that text.  Blanks after the fourth field, and a
    fifth field after a further comma, are ignored. *)
Theorem v2_line_round_trip {interp : Interpreter} (sn de se da ws junk : str) :
  v2_plain_field sn -> v2_plain_field de -> v2_plain_field se -> v2_plain_field da ->
  Forall is_space ws ->
  forall line,
    line = v2_line sn de se da ws
    \/ line = v2_line sn de se da (ws ++ c_comma :: junk) ->
    v2_is_record line = true
    /\ v2_bond line
       = match py_float_of_str de with
         | Some d => Some {| series := se; idate := da; denom := d; sn := sn |}
         | None => None
         end.
Proof.
  intros (Csn & Hsn & Lsn) (Cde & Hde & Lde) (Cse & Hse & Lse) (Cda & Hda & Lda)
         Hws line Hline.
  destruct (v2_fields_line sn de se da ws Csn Cde Cse Cda Hws) as [F4 F5].
  assert (Hf : exists more,
             v2_fields line
             = quoted sn :: quoted de :: quoted se :: (quoted da ++ ws) :: more).
  { destruct Hline as [-> | ->]; [exists []; exact F4|exists [junk]; apply F5]. }
  destruct Hf as [more Hf]. split.
  - unfold v2_is_record. now rewrite Hf.
  - unfold v2_bond, v2_field. rewrite Hf. cbn [nth].
    rewrite <- (app_nil_r (quoted sn)), <- (app_nil_r (quoted de)),
      <- (app_nil_r (quoted se)).
    rewrite !str_strip_quoted by (try exact Hws; constructor).
    now rewrite !unquote_quoted by assumption.
Qed.

(** ** [float] of the decimal text of a number *)

Lemma dec_digits_fuel_acc (fuel : nat) :
  forall (n : N) (acc : list N),
    dec_digits_fuel fuel n acc = dec_digits_fuel fuel n [] ++ acc.
Proof.
  induction fuel as [|fuel IH]; intros n acc; [reflexivity|].
  cbn [dec_digits_fuel]. destruct (n <? 10)%N; [reflexivity|].
  rewrite (IH _ (_ :: acc)), (IH _ [_]), <- app_assoc. reflexivity.
Qed.

Lemma digits_value_snoc (ds : list N) (d : N) :
  digits_value (ds ++ [d]) = (10 * digits_value ds + d)%N.
Proof. unfold digits_value. now rewrite fold_left_app. Qed.

Lemma dec_digits_fuel_spec (fuel : nat) :
  forall n : N,
    (n < 2 ^ N.of_nat fuel)%N ->
    digits_value (dec_digits_fuel fuel n []) = n
    /\ Forall (fun d => (d < 10)%N) (dec_digits_fuel fuel n []).
Proof.
  induction fuel as [|fuel IH]; intros n Hn.
  - cbn in Hn. assert (n = 0%N) by lia. subst n. split; [reflexivity|constructor].
  - cbn [dec_digits_fuel]. destruct (N.ltb_spec n 10) as [Hlt|Hge].
    + split; [cbn; lia|]. constructor; [exact Hlt|constructor].
    + rewrite Nat2N.inj_succ, N.pow_succ_r' in Hn.
      assert (Hq : (n / 10 < 2 ^ N.of_nat fuel)%N)
        by (apply N.Div0.div_lt_upper_bound; lia).
      destruct (IH (n / 10)%N Hq) as [Hv Hall].
      rewrite dec_digits_fuel_acc, digits_value_snoc, Hv. split.
      * pose proof (N.div_mod n 10 ltac:(lia)). lia.
      * apply Forall_app. split; [exact Hall|].
        constructor; [|constructor]. apply N.mod_upper_bound. lia.
Qed.

(** The decimal digits of a number: digits below ten, at least one, whose
    value is the number. *)
Lemma dec_digits_spec (n : N) :
  digits_value (dec_digits n) = n
  /\ Forall (fun d => (d < 10)%N) (dec_digits n)
  /\ dec_digits n <> [].
Proof.
  unfold dec_digits.
  assert (Hn : (n < 2 ^ N.of_nat (S (N.to_nat (N.log2 n))))%N).
  { rewrite Nat2N.inj_succ, N2Nat.id.
    destruct (N.eq_dec n 0) as [->|Hnz]; [reflexivity|].
    apply N.log2_spec. lia. }
  destruct (dec_digits_fuel_spec _ n Hn) as [Hv Hall].
  split; [exact Hv|]. split; [exact Hall|].
  cbn [dec_digits_fuel]. destruct (n <? 10)%N; [discriminate|].
  rewrite dec_digits_fuel_acc. intros E. apply app_eq_nil in E.
  destruct E as [_ E]. discriminate E.
Qed.

Lemma span_digits_digits (ds : list N) :
  Forall (fun d => (d < 10)%N) ds -> span_digits (map digit_char ds) = (ds, []).
Proof.
  induction 1 as [|d ds Hd _ IH]; [reflexivity|].
  cbn [map span_digits]. rewrite IH.
  assert (H1 : is_digit (digit_char d) = true).
  { unfold is_digit, in_range, digit_char. apply andb_true_intro.
    split; apply N.leb_le; lia. }
  rewrite H1. f_equal. f_equal. unfold digit_char. lia.
Qed.

Lemma strip_nothing_dropped {A} (f : A -> bool) (x : list A) :
  Forall (fun c => f c = false) x -> strip f x = x.
Proof.
  intros H. unfold strip, rstrip.
  assert (Hl : forall y, Forall (fun c => f c = false) y -> lstrip f y = y).
  { intros y Hy. destruct Hy as [|c y Hc _]; [reflexivity|]. cbn. now rewrite Hc. }
  rewrite (Hl x H), Hl by (apply Forall_rev; exact H).
  apply rev_involutive.
Qed.

Lemma drop_underscores_none (s : str) :
  forall prev : N,
    prev <> c_underscore ->
    Forall (fun c => c <> c_underscore) s ->
    drop_underscores prev s = Some s.
Proof.
  induction s as [|c s IH]; intros prev Hprev Hs.
  - cbn. apply N.eqb_neq in Hprev. now rewrite Hprev.
  - inversion Hs as [|? ? Hc Hs']; subst. cbn [drop_underscores].
    apply N.eqb_neq in Hprev. rewrite Hprev. cbn [andb].
    pose proof Hc as Hc'. apply N.eqb_neq in Hc'. rewrite Hc'.
    now rewrite (IH c Hc Hs').
Qed.

(** What the digits of a text of digits look like to the number grammar. *)
Lemma digit_char_facts (d : N) :
  (d < 10)%N ->
  let c := digit_char d in
  (c <? 128)%N = true
  /\ is_ascii_space c = false
  /\ c <> c_underscore
  /\ (c =? 45)%N = false
  /\ (c =? 43)%N = false
  /\ ascii_lower c = c
  /\ (c =? 105)%N = false
  /\ (c =? 110)%N = false.
Proof.
  intros Hd c. subst c. unfold digit_char, is_ascii_space, ascii_lower, in_range,
    c_underscore.
  assert (E1 : (48 + d <? 128)%N = true) by (apply N.ltb_lt; lia).
  assert (E2 : (48 + d <=? 13)%N = false) by (apply N.leb_gt; lia).
  assert (E3 : (48 + d =? 32)%N = false) by (apply N.eqb_neq; lia).
  assert (E4 : (48 + d =? 45)%N = false) by (apply N.eqb_neq; lia).
  assert (E5 : (48 + d =? 43)%N = false) by (apply N.eqb_neq; lia).
  assert (E6 : (65 <=? 48 + d)%N = false) by (apply N.leb_gt; lia).
  assert (E7 : (48 + d =? 105)%N = false) by (apply N.eqb_neq; lia).
  assert (E8 : (48 + d =? 110)%N = false) by (apply N.eqb_neq; lia).
  rewrite E2, E3, E6, andb_false_r.
  repeat split; try assumption; try reflexivity. lia.
Qed.

Lemma py_float_of_digits {interp : Interpreter} (ds : list N) :
  Forall (fun d => (d < 10)%N) ds -> ds <> [] ->
  py_float_of_str (map digit_char ds)
  = Some (float_of_ratio false (Z.of_N (digits_value ds)) 1).
Proof.
  intros Hds Hne.
  assert (Hall : Forall (fun c => (c <? 128)%N = true /\ is_ascii_space c = false
                                  /\ c <> c_underscore) (map digit_char ds)).
  { apply Forall_map. revert Hds. apply Forall_impl. intros d Hd.
    destruct (digit_char_facts d Hd) as (H1 & H2 & H3 & _). auto. }
  unfold py_float_of_str, number_text, transform_decimal_and_space.
  assert (H128 : forallb (fun c => (c <? 128)%N) (map digit_char ds) = true).
  { apply forallb_forall. rewrite Forall_forall in Hall. intros c Hc.
    now apply Hall. }
  rewrite H128, strip_nothing_dropped
    by (revert Hall; apply Forall_impl; tauto).
  rewrite drop_underscores_none
    by (try discriminate; revert Hall; apply Forall_impl; tauto).
  destruct ds as [|d ds]; [contradiction|].
  inversion Hds as [|? ? Hd Hds']; subst.
  destruct (digit_char_facts d Hd) as (_ & _ & _ & Hm & Hp & Hlow & Hi & Hn).
  cbn [map parse_sign]. rewrite Hm, Hp.
  cbn [map]. rewrite Hlow.
  change (s_lit "inf") with [105; 110; 102]%N.
  change (s_lit "infinity") with [105; 110; 102; 105; 110; 105; 116; 121]%N.
  change (s_lit "nan") with [110; 97; 110]%N.
  cbn [str_in existsb str_eqb list_eqb]. rewrite Hi, Hn. cbn [andb orb].
  change (digit_char d :: map digit_char ds) with (map digit_char (d :: ds)).
  rewrite span_digits_digits by exact Hds.
  cbn [app parse_exponent length]. rewrite app_nil_r.
  unfold float_of_decimal, scale10. cbn [Z.of_nat Z.sub Z.opp Z.max Z.pow].
  now rewrite !Z.mul_1_r.
Qed.

(** The decimal text of a number below [2^32] is read by [float] as the
    float that [float] makes of the number itself, which is exactly that
    number: a denomination written in digits in a v2 source gives the same
    value as the same denomination stored in a v4 block. *)
Theorem py_float_of_decimal_text {interp : Interpreter} (n : N) :
  (n < 2 ^ 32)%N ->
  py_float_of_str (str_of_N n) = py_float_of_int (Z.of_N n)
  /\ exists x,
       py_float_of_str (str_of_N n) = Some x
       /\ float_integer x = Some (Z.of_N n).
Proof.
  intros Hn. destruct (dec_digits_spec n) as (Hv & Hall & Hne).
  unfold str_of_N. rewrite (py_float_of_digits _ Hall Hne), Hv.
  assert (Hz : (0 <= Z.of_N n < 2 ^ 32)%Z).
  { split; [lia|]. change (2 ^ 32)%Z with (Z.of_N (2 ^ 32)). lia. }
  pose proof (py_float_of_int_uint32 (Z.of_N n) Hz) as Hsome.
  assert (Hint : py_float_of_int (Z.of_N n)
                 = Some (float_of_ratio false (Z.of_N n) 1)).
  { revert Hsome. unfold py_float_of_int. rewrite Z.abs_eq by lia.
    destruct (Z.ltb_spec (Z.of_N n) 0) as [|_]; [lia|].
    destruct (float_of_ratio false (Z.of_N n) 1); [reflexivity| |reflexivity].
    intros H. now contradiction H. }
  split; [now rewrite Hint|].
  eexists. split; [reflexivity|].
  apply (py_float_of_int_exact (Z.of_N n)); [|exact Hint].
  split; [lia|]. apply Z.lt_trans with (2 ^ 32)%Z; [apply Hz|reflexivity].
Qed.

(** * Further properties: the writers *)

(** ** The texts that the decoder gives *)

Ltac bool_facts :=
  repeat match goal with
         | H : in_range _ _ _ = true |- _ =>
             unfold in_range in H; apply andb_prop in H; destruct H
         | H : (_ && _) = true |- _ => apply andb_prop in H; destruct H
         | H : (_ <=? _)%N = true |- _ => apply N.leb_le in H
         | H : (_ <? _)%N = true |- _ => apply N.ltb_lt in H
         | H : (_ <? _)%N = false |- _ => apply N.ltb_ge in H
         | H : (_ =? _)%N = true |- _ => apply N.eqb_eq in H
         | H : (_ =? _)%N = false |- _ => apply N.eqb_neq in H
         end.

Lemma option_map_cons_Some {A} (a : A) (o : option (list A)) (s : list A) :
  option_map (cons a) o = Some s -> exists s', o = Some s' /\ s = a :: s'.
Proof. destruct o as [s'|]; [intros [= <-]; now exists s'|discriminate]. Qed.

(** The strict decoder gives scalar values only. *)
Lemma utf8_decode_N_scalar (n : nat) :
  forall (x : list N) (s : str),
    length x <= n -> utf8_decode_N x = Some s -> Forall scalar s.
Proof.
  induction n as [|n IH]; intros x s Hlen H.
  - destruct x; [injection H as <-; constructor|simpl in Hlen; lia].
  - destruct x as [|b0 x1]; [injection H as <-; constructor|].
    cbn [length] in Hlen. cbn [utf8_decode_N] in H.
    destruct (b0 <? 128)%N eqn:E0.
    { apply option_map_cons_Some in H. destruct H as (s' & Hs' & ->).
      bool_facts. constructor; [unfold scalar; lia|].
      apply (IH x1); [lia|exact Hs']. }
    destruct (in_range 194 223 b0) eqn:E1.
    { destruct x1 as [|b1 x2]; [discriminate H|].
      destruct (in_range 128 191 b1) eqn:E2; [|discriminate H].
      apply option_map_cons_Some in H. destruct H as (s' & Hs' & ->).
      cbn [length] in Hlen. unfold cont_bits. bool_facts.
      constructor; [unfold scalar; lia|]. apply (IH x2); [lia|exact Hs']. }
    destruct (in_range 224 239 b0) eqn:E2.
    { destruct x1 as [|b1 [|b2 x3]]; try discriminate H.
      destruct (b0 =? 224)%N eqn:Ea; destruct (b0 =? 237)%N eqn:Eb;
        cbv zeta in H;
        match type of H with
        | (if ?c then _ else _) = _ => destruct c eqn:E3; [|discriminate H]
        end;
        apply option_map_cons_Some in H; destruct H as (s' & Hs' & ->);
        cbn [length] in Hlen; unfold cont_bits; bool_facts;
        (constructor; [unfold scalar; lia|]); apply (IH x3); solve [lia|exact Hs']. }
    destruct (in_range 240 244 b0) eqn:E3; [|discriminate H].
    destruct x1 as [|b1 [|b2 [|b3 x4]]]; try discriminate H.
    destruct (b0 =? 240)%N eqn:Ea; destruct (b0 =? 244)%N eqn:Eb;
      cbv zeta in H;
      match type of H with
      | (if ?c then _ else _) = _ => destruct c eqn:E4; [|discriminate H]
      end;
      apply option_map_cons_Some in H; destruct H as (s' & Hs' & ->);
      cbn [length] in Hlen; unfold cont_bits; bool_facts;
      (constructor; [unfold scalar; lia|]); apply (IH x4); solve [lia|exact Hs'].
Qed.

Lemma bytes_decode_scalar (x : bytes) (s : str) :
  utf8_decode x = Some s -> Forall scalar s.
Proof.
  unfold utf8_decode. apply (utf8_decode_N_scalar (length (map Byte.to_N x))). lia.
Qed.

(** ** Parts of a text *)

Lemma Forall_firstn {A} (P : A -> Prop) (n : nat) (l : list A) :
  Forall P l -> Forall P (firstn n l).
Proof.
  intros H. revert n. induction H as [|a l Ha _ IH]; intros [|n]; cbn;
    constructor; auto.
Qed.

Lemma Forall_skipn {A} (P : A -> Prop) (n : nat) (l : list A) :
  Forall P l -> Forall P (skipn n l).
Proof.
  intros H. revert n. induction H as [|a l Ha Hl IH]; intros [|n]; cbn;
    try constructor; auto.
Qed.

Lemma repeat_char_all (P : N -> Prop) (n : nat) (c : N) :
  P c -> Forall P (repeat c n).
Proof.
  intros Hc. induction n as [|n IH]; cbn [repeat]; [constructor|now constructor].
Qed.

Lemma Forall_lstrip {A} (P : A -> Prop) (f : A -> bool) (l : list A) :
  Forall P l -> Forall P (lstrip f l).
Proof.
  induction 1 as [|a l Ha Hl IH]; [constructor|].
  cbn. destruct (f a); [exact IH|now constructor].
Qed.

Lemma Forall_strip {A} (P : A -> Prop) (f : A -> bool) (l : list A) :
  Forall P l -> Forall P (strip f l).
Proof.
  intros H. unfold strip, rstrip.
  apply Forall_rev, Forall_lstrip, Forall_rev, Forall_lstrip, H.
Qed.

Lemma Forall_str_split (P : N -> Prop) (sep : N) (s : str) :
  Forall P s -> forall m, Forall (Forall P) (str_split sep m s).
Proof.
  induction 1 as [|c s Hc Hs IH]; intros m; [repeat constructor|].
  cbn [str_split]. destruct m as [|m]; [repeat constructor; assumption|].
  destruct (c =? sep)%N; [constructor; [constructor|apply IH]|].
  specialize (IH (S m)).
  destruct (str_split sep (S m) s) as [|f fs]; [repeat constructor; assumption|].
  inversion IH; subst. constructor; [now constructor|assumption].
Qed.

Lemma Forall_nth_default {A} (P : list A -> Prop) (l : list (list A)) (i : nat) :
  P [] -> Forall P l -> P (nth i l []).
Proof.
  intros H0 H. revert i. induction H as [|a l Ha _ IH]; intros [|i]; cbn; auto.
Qed.

Lemma Forall_join (P : N -> Prop) (sep : str) (xs : list str) :
  Forall P sep -> Forall (Forall P) xs -> Forall P (join sep xs).
Proof.
  intros Hsep. induction 1 as [|x xs Hx Hxs IH]; [constructor|].
  cbn [join]. destruct xs as [|y ys]; [exact Hx|].
  apply Forall_app. split; [exact Hx|]. apply Forall_app. split; [exact Hsep|exact IH].
Qed.

(** ** Printable texts *)

Lemma printable_scalar (c : N) : printable c -> scalar c.
Proof. unfold printable, scalar. lia. Qed.

Lemma digit_char_printable (d : N) : (d < 10)%N -> printable (digit_char d).
Proof. unfold printable, digit_char. lia. Qed.

Lemma digits_printable (ds : list N) :
  Forall (fun d => (d < 10)%N) ds -> Forall printable (map digit_char ds).
Proof.
  intros H. apply Forall_map. revert H. apply Forall_impl.
  exact digit_char_printable.
Qed.

Lemma str_of_N_printable (n : N) : Forall printable (str_of_N n).
Proof. apply digits_printable. apply dec_digits_spec. Qed.

Lemma mm_yyyy_printable (month year : N) :
  (month < 100)%N -> (year < 10000)%N -> Forall printable (mm_yyyy month year).
Proof.
  intros Hm Hy. unfold mm_yyyy.
  assert (H1 : (month / 10 < 10)%N) by (apply N.Div0.div_lt_upper_bound; lia).
  assert (H2 : (year / 1000 < 10)%N) by (apply N.Div0.div_lt_upper_bound; lia).
  repeat constructor; try (apply digit_char_printable);
    try assumption; try (apply N.mod_upper_bound; lia); unfold printable; lia.
Qed.

Lemma s_lit_printable (s : string) :
  forallb (fun c => (32 <=? c)%N && (c <=? 126)%N) (s_lit s) = true ->
  Forall printable (s_lit s).
Proof.
  intros H. apply Forall_forall. intros c Hc.
  rewrite forallb_forall in H. specialize (H c Hc).
  apply andb_prop in H. destruct H as [H1 H2].
  apply N.leb_le in H1. apply N.leb_le in H2. split; assumption.
Qed.

Lemma strip_trailing_zeros_digits (ds : list N) :
  Forall (fun d => (d < 10)%N) ds ->
  Forall (fun d => (d < 10)%N) (strip_trailing_zeros ds).
Proof.
  intros H. unfold strip_trailing_zeros.
  assert (Hr : Forall (fun d => (d < 10)%N) (rstrip (N.eqb 0) ds))
    by (unfold rstrip; apply Forall_rev, Forall_lstrip, Forall_rev, H).
  destruct (rstrip (N.eqb 0) ds); [repeat constructor|exact Hr].
Qed.

(** A list of given characters is printable. *)
Ltac printable_list :=
  repeat first [ apply Forall_nil
               | apply Forall_cons;
                 [first [ assumption
                        | unfold printable, c_dquote, c_comma; lia ]|] ].

Lemma repr_layout_printable (ds : list N) (decpt : Z) :
  Forall (fun d => (d < 10)%N) ds -> Forall printable (repr_layout ds decpt).
Proof.
  intros Hds. apply digits_printable in Hds. unfold repr_layout.
  assert (H46 : printable 46) by (unfold printable; lia).
  assert (H48 : printable 48) by (unfold printable; lia).
  destruct ((decpt <=? -4)%Z || (16 <? decpt)%Z).
  - apply Forall_app. split; [now apply Forall_firstn|].
    apply Forall_app. split.
    + pose proof (Forall_skipn printable 1 _ Hds) as Hsk.
      destruct (skipn 1 (map digit_char ds)); [constructor|now constructor].
    + apply Forall_app. split.
      * constructor; [unfold printable; lia|]. constructor; [|constructor].
        destruct (_ <? 0)%Z; unfold printable; lia.
      * destruct (_ <? 10)%Z; [constructor; [exact H48|]|]; apply str_of_N_printable.
  - destruct (decpt <=? 0)%Z.
    + apply Forall_app. split; [printable_list|].
      apply Forall_app. split; [now apply repeat_char_all|exact Hds].
    + destruct (_ <=? decpt)%Z.
      * apply Forall_app. split; [exact Hds|].
        apply Forall_app. split; [now apply repeat_char_all|].
        printable_list.
      * apply Forall_app. split; [now apply Forall_firstn|].
        apply Forall_app. split; [printable_list|].
        now apply Forall_skipn.
Qed.

(** [repr] of a float is made of printable ASCII characters. *)
Lemma float_repr_printable (x : pyfloat) : Forall printable (float_repr x).
Proof.
  assert (H45 : printable 45) by (unfold printable; lia).
  assert (Hsign : forall neg : bool, Forall printable (if neg then [45%N] else [])).
  { intros [|]; printable_list. }
  destruct x as [neg m e|neg|]; cbn [float_repr].
  - apply Forall_app. split; [apply Hsign|].
    destruct (m =? 0)%N; [now apply s_lit_printable|].
    destruct (shortest_digits _ _ _ _ _ _) as [c s].
    apply repr_layout_printable, strip_trailing_zeros_digits, dec_digits_spec.
  - apply Forall_app. split; [apply Hsign|now apply s_lit_printable].
  - now apply s_lit_printable.
Qed.

(** ** The characters of the JSON output *)

Lemma hex_digit_printable (d : N) : (d < 16)%N -> printable (hex_digit d).
Proof.
  intros Hd. unfold hex_digit, printable.
  destruct (N.ltb_spec d 10); lia.
Qed.

Lemma json_u_escape_printable (n : N) :
  (n < 65536)%N -> Forall printable (json_u_escape n).
Proof.
  intros Hn. unfold json_u_escape.
  assert (H1 : (n / 4096 < 16)%N) by (apply N.Div0.div_lt_upper_bound; lia).
  repeat (apply Forall_cons;
          [first [ unfold printable; lia
                 | apply hex_digit_printable;
                   first [exact H1 | apply N.mod_upper_bound; lia] ]|]).
  constructor.
Qed.

Lemma json_escape_char_printable (c : N) : Forall printable (json_escape_char c).
Proof.
  unfold json_escape_char.
  repeat match goal with
         | |- Forall _ (if ?b then _ else _) => destruct b eqn:?
         end; bool_facts; try solve [printable_list].
  - apply json_u_escape_printable. assumption.
  - cbv zeta. apply Forall_app. split; apply json_u_escape_printable.
    + pose proof (N.mod_upper_bound ((c - 65536) / 1024) 1024 ltac:(lia)). lia.
    + pose proof (N.mod_upper_bound (c - 65536) 1024 ltac:(lia)). lia.
Qed.

Lemma json_string_printable (s : str) : Forall printable (json_string s).
Proof.
  unfold json_string. constructor; [unfold printable, c_dquote; lia|].
  apply Forall_app. split; [|printable_list].
  induction s as [|c s IH]; [constructor|].
  cbn [flat_map]. apply Forall_app. split; [apply json_escape_char_printable|exact IH].
Qed.

Lemma json_float_printable (x : pyfloat) : Forall printable (json_float x).
Proof.
  destruct x as [neg m e|[|]|]; cbn [json_float];
    try (now apply s_lit_printable). apply float_repr_printable.
Qed.

Lemma json_char_printable (p : bool) (l : str) :
  Forall printable l -> Forall (json_char p) l.
Proof. apply Forall_impl. intros c Hc. now left. Qed.

Lemma json_newline_char (indent : option nat) (level : nat) :
  Forall (json_char (indented indent)) (json_newline indent level).
Proof.
  destruct indent as [k|]; cbn; [|constructor].
  constructor; [right; split; reflexivity|].
  apply repeat_char_all. left. unfold printable. lia.
Qed.

Lemma json_item_separator_char (indent : option nat) :
  Forall (json_char (indented indent)) (json_item_separator indent).
Proof.
  apply json_char_printable. destruct indent; cbn; unfold c_comma; printable_list.
Qed.

(** Solves a goal on the characters of a layout of strings and floats. *)
Ltac json_layout :=
  repeat first
    [ apply Forall_app; split
    | apply json_newline_char
    | apply json_item_separator_char
    | apply json_char_printable;
      first [ apply json_string_printable
            | apply json_float_printable
            | solve [unfold json_key_separator; printable_list] ]
    | apply Forall_cons; [left; unfold printable; lia|]
    | apply Forall_nil ].

Lemma json_encode_bond_char (indent : option nat) (level : nat) (b : GBDocBond) :
  Forall (json_char (indented indent)) (json_encode indent level (bond_json b)).
Proof.
  unfold bond_json. cbn [json_encode map fst snd join]. json_layout.
Qed.

Lemma bonds_json_items (bs : list (option GBDocBond)) (items : list json) :
  bonds_json bs = Ok items -> Forall (fun j => exists b, j = bond_json b) items.
Proof.
  revert items. induction bs as [|[b|] bs IH]; intros items H; cbn in H.
  - injection H as <-. constructor.
  - destruct (bonds_json bs) as [items'|e]; [|discriminate H].
    injection H as <-. constructor; [now exists b|now apply IH].
  - discriminate H.
Qed.

Lemma json_dumps_document_char (indent : option nat) (t : str) (items : list json) :
  Forall (fun j => exists b, j = bond_json b) items ->
  Forall (json_char (indented indent))
         (json_dumps indent (JDict [ (s_lit "title", JStr t);
                                     (s_lit "bonds", JList items) ])).
Proof.
  intros Hitems. unfold json_dumps. cbn [json_encode map fst snd join].
  json_layout.
  destruct items as [|j items]; [json_layout|].
  set (js := j :: items) in *. json_layout.
  apply Forall_join; [json_layout|].
  apply Forall_map. revert Hitems. apply Forall_impl.
  intros j' (b & ->). apply json_encode_bond_char.
Qed.

(** The JSON text of a document is printable ASCII from the first
    character to the last, whatever the title and the texts of the bonds
    hold: on one line in the compact layout, with line feeds as the only
    other character in the pretty layout. *)
Theorem to_json_ascii (pretty : bool) (doc : GBDoc) (out : str) :
  to_json pretty doc = Ok out ->
  Forall (fun c => (32 <= c <= 126)%N \/ (pretty = true /\ c = c_lf)) out.
Proof.
  unfold to_json. destruct (bonds_json (bonds doc)) as [items|e] eqn:Hb;
    [|discriminate].
  intros [= <-]. apply bonds_json_items in Hb.
  destruct pretty.
  - exact (json_dumps_document_char (Some 2) (title doc) items Hb).
  - exact (json_dumps_document_char None (title doc) items Hb).
Qed.

(** ** The UTF-8 encoder and the decoder *)

Ltac bool_cases :=
  repeat match goal with
         | H : in_range _ _ _ = false |- _ =>
             unfold in_range in H; apply andb_false_iff in H; destruct H
         | H : (_ && _) = false |- _ => apply andb_false_iff in H; destruct H
         | H : (_ <=? _)%N = false |- _ => apply N.leb_gt in H
         end;
  bool_facts.

(** The quotients that the encoder takes of a code point. *)
Lemma utf8_quotients (c : N) :
  (c = 64 * (c / 64) + c mod 64
   /\ c / 64 = 64 * (c / 4096) + (c / 64) mod 64
   /\ c / 4096 = 64 * (c / 262144) + (c / 4096) mod 64
   /\ c mod 64 < 64 /\ (c / 64) mod 64 < 64 /\ (c / 4096) mod 64 < 64)%N.
Proof.
  assert (E1 : (c / 4096 = c / 64 / 64)%N) by (now rewrite N.Div0.div_div).
  assert (E2 : (c / 262144 = c / 4096 / 64)%N) by (now rewrite N.Div0.div_div).
  rewrite E2. rewrite E1 at 1.
  pose proof (N.div_mod c 64 ltac:(lia)).
  pose proof (N.div_mod (c / 64) 64 ltac:(lia)).
  pose proof (N.div_mod (c / 4096) 64 ltac:(lia)).
  pose proof (N.mod_upper_bound c 64 ltac:(lia)).
  pose proof (N.mod_upper_bound (c / 64) 64 ltac:(lia)).
  pose proof (N.mod_upper_bound (c / 4096) 64 ltac:(lia)).
  repeat split; assumption.
Qed.

Lemma Some_inj {A} (a b : A) : Some a = Some b -> a = b.
Proof. now intros [= ->]. Qed.

(** The bytes of a code point are bytes. *)
Lemma utf8_encode_char_bytes (c : N) (x : list N) :
  utf8_encode_char c = Some x -> Forall (fun b => (b < 256)%N) x.
Proof.
  destruct (utf8_quotients c) as (Q1 & Q2 & Q3 & R1 & R2 & R3).
  unfold utf8_encode_char.
  set (q1 := (c / 64)%N) in *. set (r0 := (c mod 64)%N) in *.
  set (q2 := (c / 4096)%N) in *. set (r1 := (q1 mod 64)%N) in *.
  set (q3 := (c / 262144)%N) in *. set (r2 := (q2 mod 64)%N) in *.
  clearbody q1 r0 q2 r1 q3 r2.
  repeat match goal with
         | |- (if ?b then _ else _) = _ -> _ => destruct b eqn:?
         end; try discriminate; intros H; apply Some_inj in H; subst x; bool_cases;
    repeat (apply Forall_cons; [cbv beta; lia|]); apply Forall_nil.
Qed.

Ltac ltb_false a b :=
  let E := fresh "E" in
  assert (E : (a <? b)%N = false) by (apply N.ltb_ge; lia); rewrite E; clear E.

Ltac range_true lo hi e :=
  let E := fresh "E" in
  assert (E : in_range lo hi e = true)
    by (unfold in_range; apply andb_true_intro; split; apply N.leb_le; lia);
  rewrite E; clear E.

Ltac range_false lo hi e :=
  let E := fresh "E" in
  assert (E : in_range lo hi e = false)
    by (unfold in_range; apply andb_false_iff;
        first [left; apply N.leb_gt; lia | right; apply N.leb_gt; lia]);
  rewrite E; clear E.

(** Decoding the bytes of a code point gives the code point back. *)
Lemma utf8_decode_encode_char (c : N) (x rest : list N) :
  utf8_encode_char c = Some x ->
  utf8_decode_N (x ++ rest) = option_map (cons c) (utf8_decode_N rest).
Proof.
  destruct (utf8_quotients c) as (Q1 & Q2 & Q3 & R1 & R2 & R3).
  unfold utf8_encode_char.
  set (q1 := (c / 64)%N) in *. set (r0 := (c mod 64)%N) in *.
  set (q2 := (c / 4096)%N) in *. set (r1 := (q1 mod 64)%N) in *.
  set (q3 := (c / 262144)%N) in *. set (r2 := (q2 mod 64)%N) in *.
  clearbody q1 r0 q2 r1 q3 r2.
  destruct (N.ltb_spec c 128) as [C1|C1].
  { (* one byte *)
    intros H. apply Some_inj in H. subst x. cbn [app utf8_decode_N].
    destruct (N.ltb_spec c 128); [reflexivity|lia]. }
  destruct (N.ltb_spec c 2048) as [C2|C2].
  { (* two bytes *)
    intros H. apply Some_inj in H. subst x. cbn [app utf8_decode_N].
    ltb_false (192 + q1)%N 128%N.
    range_true 194%N 223%N (192 + q1)%N.
    range_true 128%N 191%N (128 + r0)%N.
    f_equal. f_equal. unfold cont_bits. lia. }
  destruct (N.ltb_spec c 65536) as [C3|C3].
  { (* three bytes *)
    destruct (in_range 55296 57343 c) eqn:Es; [discriminate|].
    intros H. apply Some_inj in H. subst x. bool_cases.
    - cbn [app utf8_decode_N]. cbv zeta.
      ltb_false (224 + q2)%N 128%N.
      range_false 194%N 223%N (224 + q2)%N.
      range_true 224%N 239%N (224 + q2)%N.
      range_true 128%N 191%N (128 + r0)%N.
      destruct (N.eqb_spec (224 + q2) 224); destruct (N.eqb_spec (224 + q2) 237);
        try lia.
      + range_true 160%N 191%N (128 + r1)%N.
        cbn [andb]. f_equal. f_equal. unfold cont_bits. lia.
      + range_true 128%N 159%N (128 + r1)%N.
        cbn [andb]. f_equal. f_equal. unfold cont_bits. lia.
      + range_true 128%N 191%N (128 + r1)%N.
        cbn [andb]. f_equal. f_equal. unfold cont_bits. lia.
    - cbn [app utf8_decode_N]. cbv zeta.
      ltb_false (224 + q2)%N 128%N.
      range_false 194%N 223%N (224 + q2)%N.
      range_true 224%N 239%N (224 + q2)%N.
      range_true 128%N 191%N (128 + r0)%N.
      destruct (N.eqb_spec (224 + q2) 224); destruct (N.eqb_spec (224 + q2) 237);
        try lia.
      range_true 128%N 191%N (128 + r1)%N.
      cbn [andb]. f_equal. f_equal. unfold cont_bits. lia. }
  destruct (N.ltb_spec c 1114112) as [C4|C4]; [|discriminate].
  (* four bytes *)
  intros H. apply Some_inj in H. subst x.
  cbn [app utf8_decode_N]. cbv zeta.
  ltb_false (240 + q3)%N 128%N.
  range_false 194%N 223%N (240 + q3)%N.
  range_false 224%N 239%N (240 + q3)%N.
  range_true 240%N 244%N (240 + q3)%N.
  range_true 128%N 191%N (128 + r1)%N.
  range_true 128%N 191%N (128 + r0)%N.
  destruct (N.eqb_spec (240 + q3) 240); destruct (N.eqb_spec (240 + q3) 244);
    try lia.
  - range_true 144%N 191%N (128 + r2)%N.
    cbn [andb]. f_equal. f_equal. unfold cont_bits. lia.
  - range_true 128%N 143%N (128 + r2)%N.
    cbn [andb]. f_equal. f_equal. unfold cont_bits. lia.
  - range_true 128%N 191%N (128 + r2)%N.
    cbn [andb]. f_equal. f_equal. unfold cont_bits. lia.
Qed.

Lemma utf8_decode_encode_N (s : str) :
  forall x, utf8_encode_N s = Some x ->
            utf8_decode_N x = Some s /\ Forall (fun b => (b < 256)%N) x.
Proof.
  induction s as [|c s IH]; intros x H; cbn [utf8_encode_N] in H.
  - apply Some_inj in H. subst x. split; [reflexivity|constructor].
  - destruct (utf8_encode_char c) as [xc|] eqn:Ec; [|discriminate H].
    destruct (utf8_encode_N s) as [xs|]; [|discriminate H].
    apply Some_inj in H. subst x.
    destruct (IH xs eq_refl) as [Hd Hb]. split.
    + rewrite (utf8_decode_encode_char c xc xs Ec), Hd. reflexivity.
    + apply Forall_app. split; [exact (utf8_encode_char_bytes c xc Ec)|exact Hb].
Qed.

Lemma to_N_byte_of_N (x : list N) :
  Forall (fun b => (b < 256)%N) x -> map Byte.to_N (map byte_of_N x) = x.
Proof.
  induction 1 as [|b x Hb _ IH]; [reflexivity|].
  cbn [map]. rewrite IH. f_equal. unfold byte_of_N.
  destruct (Byte.of_N b) as [y|] eqn:E; [now apply Byte.to_of_N|].
  apply Byte.of_N_None_iff in E. lia.
Qed.

(** A text that has an encoding is read back from it. *)
Lemma utf8_decode_encode (s : str) (x : bytes) :
  utf8_encode s = Some x -> utf8_decode x = Some s.
Proof.
  unfold utf8_encode, utf8_decode.
  destruct (utf8_encode_N s) as [y|] eqn:E; [|discriminate].
  intros H. apply Some_inj in H. subst x.
  destruct (utf8_decode_encode_N s y E) as [Hd Hb].
  now rewrite to_N_byte_of_N.
Qed.

Lemma utf8_encode_N_app (a b : str) :
  utf8_encode_N (a ++ b)
  = match utf8_encode_N a, utf8_encode_N b with
    | Some x, Some y => Some (x ++ y)
    | _, _ => None
    end.
Proof.
  induction a as [|c a IH]; cbn [app utf8_encode_N].
  - now destruct (utf8_encode_N b).
  - rewrite IH. destruct (utf8_encode_char c) as [xc|]; [|reflexivity].
    destruct (utf8_encode_N a) as [xa|]; [|reflexivity].
    destruct (utf8_encode_N b) as [xb|]; [|reflexivity].
    now rewrite app_assoc.
Qed.

(** The encoding of two texts in a row is that of the first followed by
    that of the second. *)
Lemma utf8_encode_app (a b : str) :
  utf8_encode (a ++ b)
  = match utf8_encode a, utf8_encode b with
    | Some x, Some y => Some (x ++ y)
    | _, _ => None
    end.
Proof.
  unfold utf8_encode. rewrite utf8_encode_N_app.
  destruct (utf8_encode_N a) as [xa|]; [|reflexivity].
  destruct (utf8_encode_N b) as [xb|]; [|reflexivity].
  cbn [option_map]. now rewrite map_app.
Qed.

(** A text has an encoding exactly when it is made of scalar values. *)
Lemma utf8_encode_char_scalar (c : N) :
  scalar c <-> utf8_encode_char c <> None.
Proof.
  unfold scalar, utf8_encode_char, in_range.
  destruct (N.ltb_spec c 128); [split; [discriminate|lia]|].
  destruct (N.ltb_spec c 2048); [split; [discriminate|lia]|].
  destruct (N.ltb_spec c 65536).
  - destruct (N.leb_spec 55296 c); destruct (N.leb_spec c 57343); cbn [andb];
      split; try discriminate; try lia; intros Hx; now contradiction Hx.
  - destruct (N.ltb_spec c 1114112); split; try discriminate; try lia.
    intros Hx. now contradiction Hx.
Qed.

Lemma utf8_encode_scalar (s : str) :
  Forall scalar s <-> utf8_encode s <> None.
Proof.
  unfold utf8_encode. induction s as [|c s IH]; cbn [utf8_encode_N].
  - split; [discriminate|constructor].
  - pose proof (utf8_encode_char_scalar c) as Hc.
    destruct (utf8_encode_char c) as [xc|].
    + destruct (utf8_encode_N s) as [xs|]; cbn [option_map] in *.
      * split; [discriminate|]. intros _. constructor; [apply Hc; discriminate|].
        apply IH. discriminate.
      * split; [|intros H; now contradiction H].
        intros H. inversion H as [|? ? _ Hs]; subst. now apply IH in Hs.
    + split; [|intros H; now contradiction H].
      intros H. inversion H as [|? ? Hc' _]; subst. now apply Hc in Hc'.
Qed.

(** ** The tabular writers *)

Lemma to_csv_rows_app (bs bs' : list (option GBDocBond)) :
  to_csv_rows (bs ++ bs')
  = match to_csv_rows bs with
    | Ok a => match to_csv_rows bs' with
              | Ok b => Ok (a ++ b)
              | Err e => Err e
              end
    | Err e => Err e
    end.
Proof.
  induction bs as [|[b|] bs IH]; cbn [app to_csv_rows].
  - now destruct (to_csv_rows bs').
  - rewrite IH. destruct (to_csv_rows bs) as [a|e]; [|reflexivity].
    destruct (to_csv_rows bs') as [a'|e]; [|reflexivity].
    now rewrite app_assoc.
  - reflexivity.
Qed.

(** Adding a bond to a document adds its row at the end of the tabular
    output and leaves the rows before it as they were; adding [None]
    makes the writer raise [AttributeError]; the title has no part in the
    output. *)
Theorem to_csv_add_bond (include_header : bool) (doc : GBDoc) (out : str) :
  to_csv include_header doc = Ok out ->
  (forall b, to_csv include_header (add_bond doc (Some b)) = Ok (out ++ csv_row b))
  /\ to_csv include_header (add_bond doc None) = Err AttributeError
  /\ (forall t, to_csv include_header (set_title doc t) = Ok out).
Proof.
  unfold to_csv. cbn [add_bond set_title bonds].
  destruct (to_csv_rows (bonds doc)) as [rows|e] eqn:Hrows; [|discriminate].
  intros H. apply (f_equal (fun r => match r with Ok s => s | Err _ => [] end)) in H.
  cbv beta iota in H. subst out.
  split; [|split].
  - intros b. rewrite to_csv_rows_app, Hrows. cbn [to_csv_rows].
    unfold csv_row. now rewrite app_nil_r, app_assoc.
  - rewrite to_csv_rows_app, Hrows. reflexivity.
  - intros t. reflexivity.
Qed.

Lemma to_csv_file_rows_encoded (bs : list (option GBDocBond)) :
  forall (acc : bytes) (text : str) (x : bytes),
    to_csv_rows bs = Ok text ->
    utf8_encode text = Some x ->
    to_csv_file_rows bs acc = (acc ++ x, None).
Proof.
  induction bs as [|[b|] bs IH]; intros acc text x Hrows Henc;
    cbn [to_csv_rows] in Hrows.
  - assert (text = []) by congruence. subst text.
    apply Some_inj in Henc. subst x. cbn. now rewrite app_nil_r.
  - destruct (to_csv_rows bs) as [out|e] eqn:Hout; [|discriminate Hrows].
    assert (Ht : text = csv_writerow [series b; float_repr (denom b); sn b; idate b]
                        ++ out) by congruence.
    subst text. rewrite utf8_encode_app in Henc.
    cbn [to_csv_file_rows]. unfold file_writerow.
    destruct (utf8_encode (csv_writerow _)) as [xr|]; [|discriminate Henc].
    destruct (utf8_encode out) as [xo|] eqn:Eo; [|discriminate Henc].
    apply Some_inj in Henc. subst x.
    rewrite (IH (acc ++ xr) out xo eq_refl Eo). now rewrite app_assoc.
  - discriminate Hrows.
Qed.

Lemma to_csv_file_of_to_csv (filename : str) (include_header : bool)
      (doc : GBDoc) (text : str) :
  to_csv include_header doc = Ok text ->
  Forall scalar text ->
  exists content,
    utf8_encode text = Some content
    /\ to_csv_file true filename include_header doc
       = {| stdout := print (s_lit "CSV file saved as: " ++ filename);
            saved := Some (filename, content); raised := None |}
    /\ utf8_decode content = Some text.
Proof.
  intros Hcsv Hscalar. apply utf8_encode_scalar in Hscalar.
  destruct (utf8_encode text) as [content|] eqn:Henc; [|now contradiction Hscalar].
  exists content. split; [reflexivity|]. split; [|now apply utf8_decode_encode].
  unfold to_csv in Hcsv.
  destruct (to_csv_rows (bonds doc)) as [rows|e] eqn:Hrows; [|discriminate Hcsv].
  assert (Ht : text = (if include_header then csv_writerow csv_header else []) ++ rows)
    by congruence.
  subst text. rewrite utf8_encode_app in Henc.
  match type of Henc with
  | match ?e with _ => _ end = _ => destruct e as [xh|] eqn:Eh; [|discriminate Henc]
  end.
  destruct (utf8_encode rows) as [xr|] eqn:Er; [|discriminate Henc].
  apply Some_inj in Henc. subst content.
  unfold to_csv_file. cbn [negb].
  assert (Hhead : (if include_header then file_writerow csv_header [] else ([], None))
                  = (xh, None)).
  { destruct include_header.
    - unfold file_writerow. now rewrite Eh.
    - cbn in Eh. apply Some_inj in Eh. now subst xh. }
  rewrite Hhead, (to_csv_file_rows_encoded _ xh rows xr Hrows Er). reflexivity.
Qed.

(** [to_csv_file] writes what [to_csv] returns: when the tabular text is
    made of scalar values, the file holds its UTF-8 encoding, row for row,
    the saved line is printed and nothing is raised; decoding the file
    gives the text back. *)
Theorem to_csv_file_writes_to_csv (filename : str) (include_header : bool)
        (doc : GBDoc) (text : str) :
  to_csv include_header doc = Ok text ->
  Forall scalar text ->
  exists content,
    utf8_encode text = Some content
    /\ to_csv_file true filename include_header doc
       = {| stdout := print (s_lit "CSV file saved as: " ++ filename);
            saved := Some (filename, content); raised := None |}
    /\ utf8_decode content = Some text.
Proof.
  intros Hcsv Hscalar.
  destruct (to_csv_file_of_to_csv filename include_header doc text Hcsv Hscalar)
    as (content & Henc & Hfile & Hdec).
  exists content. auto.
Qed.

(** ** The texts of a decoded document *)

Lemma lift_bytes_decode_scalar (raw : bytes) (w w1 : world) (s : str) :
  lift (bytes_decode raw) w = Done s w1 -> Forall scalar s.
Proof.
  unfold lift, bytes_decode. destruct (utf8_decode raw) as [t|] eqn:E; [|discriminate].
  intros H. assert (s = t) by congruence. subst t.
  exact (bytes_decode_scalar raw s E).
Qed.

Lemma text_field_scalar (n : nat) (w w1 : world) (s : str) :
  (if 0 <? n then raw <- fp_read n ;; lift (bytes_decode raw) else ret []) w
  = Done s w1 ->
  Forall scalar s.
Proof.
  destruct (0 <? n).
  - intros H. inv_bind H. exact (lift_bytes_decode_scalar _ _ _ _ H).
  - intros H. assert (s = []) by (unfold ret in H; congruence). subst s. constructor.
Qed.

Lemma v2_field_scalar (i : nat) (line : str) :
  Forall scalar line ->
  Forall scalar (str_strip_chars [c_dquote] (str_strip (nth i (str_split c_comma 4 line) []))).
Proof.
  intros H. unfold str_strip_chars, str_strip. do 2 apply Forall_strip.
  apply (Forall_nth_default (Forall scalar)); [constructor|].
  now apply Forall_str_split.
Qed.

Lemma gb_date_fmt_scalar (m : N) (d : str) : gb_date_fmt m = Ok d -> Forall scalar d.
Proof.
  intros H. apply gb_date_fmt_Ok_inv in H. destruct H as [Hm ->].
  unfold LAST_MONTHS in Hm.
  pose proof (N.mod_upper_bound (3 + m) 12 ltac:(lia)) as Hb.
  assert (Hq : ((3 + m) / 12 < 8059)%N) by (apply N.Div0.div_lt_upper_bound; lia).
  eapply Forall_impl; [exact printable_scalar|].
  apply mm_yyyy_printable; lia.
Qed.

Lemma lift_gb_date_fmt_scalar (m : N) (w w1 : world) (s : str) :
  lift (gb_date_fmt m) w = Done s w1 -> Forall scalar s.
Proof.
  unfold lift. destruct (gb_date_fmt m) as [d|] eqn:Hfmt; [|discriminate].
  intros H. assert (s = d) by congruence. subst d.
  exact (gb_date_fmt_scalar m s Hfmt).
Qed.

Lemma read_sbw4_bonds_encodable {interp : Interpreter} (todo : nat) :
  forall (i n : Z) (doc doc' : GBDoc) (w w' : world),
    Forall bond_encodable (bonds doc) ->
    read_sbw4_bonds todo i n doc w = Done (Some doc') w' ->
    Forall bond_encodable (bonds doc') /\ title doc' = title doc.
Proof.
  induction todo as [|todo IH]; intros i n doc doc' w w' Hdoc H.
  - cbn in H. assert (doc' = doc) by (unfold ret in H; congruence). subst doc'. auto.
  - cbn [read_sbw4_bonds] in H.
    skip_bind H. destruct (_ <? 84); [discriminate H|].
    do 4 skip_bind H.
    inv_bind H. apply text_field_scalar in Hm. rename Hm into Hsn.
    skip_bind H.
    inv_bind H. apply text_field_scalar in Hm. rename Hm into Hser.
    skip_bind H.
    destruct (str_in _ series_codes); [|exact (IH _ _ _ _ _ _ Hdoc H)].
    inv_bind H. apply lift_gb_date_fmt_scalar in Hm. rename Hm into Hdate.
    inv_bind H.
    destruct (gb_doc_bond_new_inv _ _ _ _ _ _ _ Hm)
      as [(f & Hf & -> & ->)|(_ & _ & Hcode)]; clear Hm.
    + rewrite bind_get_status in H.
      destruct (negb _); [discriminate H|].
      apply (IH _ _ _ _ _ _) in H; [exact H|].
      cbn [add_bond bonds]. apply Forall_app. split; [exact Hdoc|].
      constructor; [|constructor].
      eexists. split; [reflexivity|]. cbn [series idate sn]. auto.
    + rewrite bind_get_status, Hcode in H. discriminate H.
Qed.

Lemma read_sbw2_bonds_encodable {interp : Interpreter} (todo : nat) :
  forall (doc doc' : GBDoc) (w w' : world),
    Forall bond_encodable (bonds doc) ->
    read_sbw2_bonds todo doc w = Done (Some doc') w' ->
    Forall bond_encodable (bonds doc') /\ title doc' = title doc.
Proof.
  induction todo as [|todo IH]; intros doc doc' w w' Hdoc H.
  - cbn in H. assert (doc' = doc) by (unfold ret in H; congruence). subst doc'. auto.
  - cbn [read_sbw2_bonds] in H.
    skip_bind H. inv_bind H. apply lift_bytes_decode_scalar in Hm.
    destruct (_ <? 4); [exact (IH _ _ _ _ Hdoc H)|].
    inv_bind H.
    destruct (gb_doc_bond_new_inv _ _ _ _ _ _ _ Hm0)
      as [(f & Hf & -> & ->)|(_ & _ & Hcode)]; clear Hm0.
    + rewrite bind_get_status in H.
      destruct (negb _); [discriminate H|].
      apply (IH _ _ _ _) in H; [exact H|].
      cbn [add_bond bonds]. apply Forall_app. split; [exact Hdoc|].
      constructor; [|constructor].
      eexists. split; [reflexivity|]. cbn [series idate sn].
      split; [|split]; now apply v2_field_scalar.
    + rewrite bind_get_status, Hcode in H. discriminate H.
Qed.

(** The texts of a document that [gb_doc_sbw_open] returns are made of
    scalar values. *)
Lemma gb_doc_sbw_open_encodable {interp : Interpreter}
      (file : option bytes) (code c : Z) (doc : GBDoc) :
  gb_doc_sbw_open file code = Returned (Some doc) c -> doc_encodable doc.
Proof.
  destruct file as [content|]; [|discriminate].
  unfold gb_doc_sbw_open. fold (opened content code).
  erewrite bind_Done by apply sniff_version_run.
  destruct (source_version content =? 2)%Z.
  - destruct (read_sbw2 (opened content code)) as [r w'|e] eqn:Hrun; [|discriminate].
    intros H. assert (r = Some doc) by congruence. subst r. clear H.
    unfold read_sbw2 in Hrun. do 2 skip_bind Hrun.
    destruct (negb _); [discriminate Hrun|].
    skip_bind Hrun. inv_bind Hrun. apply lift_bytes_decode_scalar in Hm.
    do 2 skip_bind Hrun.
    destruct (read_count_line _); [|discriminate Hrun].
    apply read_sbw2_bonds_encodable in Hrun; [|constructor].
    destruct Hrun as [Hb Ht]. split; [|exact Hb].
    rewrite Ht. cbn [set_title title].
    unfold str_strip_chars, str_strip. now do 2 apply Forall_strip.
  - destruct (source_version content =? 4)%Z.
    + destruct (read_sbw4 (opened content code)) as [r w'|e] eqn:Hrun; [|discriminate].
      intros H. assert (r = Some doc) by congruence. subst r. clear H.
      unfold read_sbw4 in Hrun. do 2 skip_bind Hrun.
      destruct (_ <? 12); [discriminate Hrun|].
      do 2 skip_bind Hrun.
      apply read_sbw4_bonds_encodable in Hrun; [|constructor].
      destruct Hrun as [Hb Ht]. split; [|exact Hb].
      rewrite Ht. cbn [set_title title].
      eapply Forall_impl; [exact printable_scalar|]. now apply s_lit_printable.
    + rewrite bind_set_status. discriminate.
Qed.

(** ** The exports of a decoded document *)

Ltac scalar_list :=
  repeat first [ apply Forall_nil
               | apply Forall_cons;
                 [first [ assumption
                        | unfold scalar, c_dquote, c_comma, c_cr, c_lf; lia ]|] ].

Lemma csv_field_scalar (s : str) : Forall scalar s -> Forall scalar (csv_field s).
Proof.
  intros H. unfold csv_field.
  destruct (existsb csv_special s); [|exact H].
  apply Forall_cons; [unfold scalar, c_dquote; lia|].
  apply Forall_app. split; [|scalar_list].
  induction H as [|c s Hc _ IH]; [constructor|].
  cbn [flat_map]. apply Forall_app. split; [|exact IH].
  destruct (c =? c_dquote)%N; scalar_list.
Qed.

Lemma csv_writerow_scalar (fields : list str) :
  Forall (Forall scalar) fields -> Forall scalar (csv_writerow fields).
Proof.
  intros H.
  assert (Hrow : Forall scalar (join [c_comma] (map csv_field fields) ++ [c_cr; c_lf])).
  { apply Forall_app. split; [|scalar_list].
    apply Forall_join; [scalar_list|].
    apply Forall_map. revert H. apply Forall_impl. exact csv_field_scalar. }
  unfold csv_writerow. destruct fields as [|[|c f] [|g fs]]; try exact Hrow.
  scalar_list.
Qed.

Lemma to_csv_rows_scalar (bs : list (option GBDocBond)) :
  Forall bond_encodable bs ->
  exists text, to_csv_rows bs = Ok text /\ Forall scalar text.
Proof.
  induction 1 as [|ob bs (b & -> & Hse & Hda & Hsn) _ (text & Ht & Hs)].
  - exists []. split; [reflexivity|constructor].
  - cbn [to_csv_rows]. rewrite Ht. eexists. split; [reflexivity|].
    apply Forall_app. split; [|exact Hs].
    apply csv_writerow_scalar.
    repeat (apply Forall_cons; [try assumption|]); [|apply Forall_nil].
    eapply Forall_impl; [exact printable_scalar|apply float_repr_printable].
Qed.

Lemma to_csv_scalar (include_header : bool) (doc : GBDoc) :
  doc_encodable doc ->
  exists text, to_csv include_header doc = Ok text /\ Forall scalar text.
Proof.
  intros [_ Hb]. destruct (to_csv_rows_scalar _ Hb) as (rows & Hr & Hs).
  unfold to_csv. rewrite Hr. eexists. split; [reflexivity|].
  apply Forall_app. split; [|exact Hs].
  destruct include_header; [|constructor].
  apply csv_writerow_scalar. unfold csv_header.
  repeat (apply Forall_cons;
          [eapply Forall_impl; [exact printable_scalar|now apply s_lit_printable]|]).
  apply Forall_nil.
Qed.

Lemma bonds_json_encodable (bs : list (option GBDocBond)) :
  Forall bond_encodable bs -> exists items, bonds_json bs = Ok items.
Proof.
  induction 1 as [|ob bs (b & -> & _) _ (items & Hi)].
  - now exists [].
  - cbn [bonds_json]. rewrite Hi. now eexists.
Qed.

(** A document that [gb_doc_sbw_open] returns can always be exported:
    [to_json] and [to_csv] return a text, and [to_csv_file] on a file that
    opens writes the UTF-8 encoding of that text and raises nothing; no
    source makes an export fail on a missing bond or on a character that
    has no encoding. *)
Theorem decoded_document_exports {interp : Interpreter}
        (file : option bytes) (code c : Z) (doc : GBDoc)
        (filename : str) (include_header pretty : bool) :
  gb_doc_sbw_open file code = Returned (Some doc) c ->
  (exists json_output, to_json pretty doc = Ok json_output)
  /\ exists text content,
       to_csv include_header doc = Ok text
       /\ utf8_encode text = Some content
       /\ to_csv_file true filename include_header doc
          = {| stdout := print (s_lit "CSV file saved as: " ++ filename);
               saved := Some (filename, content); raised := None |}.
Proof.
  intros H. apply gb_doc_sbw_open_encodable in H. split.
  - destruct (bonds_json_encodable _ (proj2 H)) as (items & Hi).
    unfold to_json. rewrite Hi. now eexists.
  - destruct (to_csv_scalar include_header doc H) as (text & Hcsv & Hs).
    destruct (to_csv_file_of_to_csv filename include_header doc text Hcsv Hs)
      as (content & Henc & Hfile & _).
    exists text, content. auto.
Qed.

(** ** The export functions *)

(** When the open fails without an exception, both exports print the one
    line that names the error code, which is 1, 2 or 3, write no file and
    raise nothing. *)
Theorem export_failure {interp : Interpreter}
        (file : option bytes) (c : Z) (outFile : option str) (opens pretty : bool) :
  gb_doc_sbw_open file GB_OK = Returned None c ->
  (1 <= c <= 3)%Z
  /\ export_sbw_to_csv file outFile opens
     = {| stdout := s_lit "Failed to parse file. Error code: "
                      ++ [digit_char (Z.to_N c); c_lf];
          saved := None; raised := None |}
  /\ export_sbw_to_json file pretty
     = {| stdout := s_lit "Failed to parse file. Error code: "
                      ++ [digit_char (Z.to_N c); c_lf];
          saved := None; raised := None |}.
Proof.
  intros H. pose proof (gb_doc_sbw_open_outcome _ _ _ _ H) as Hc.
  unfold export_sbw_to_csv, export_sbw_to_json. rewrite H.
  destruct Hc as [[_ ->]|[_ [->| ->]]];
    (split; [unfold GB_ERROR_OPEN_SBW_CANNOT_OPEN_FILE, GB_ERROR_OPEN_SBW_BAD_MAGIC,
               GB_ERROR_OPEN_SBW_PARSE; lia|split; reflexivity]).
Qed.

(** When the open returns a document, the exports raise nothing of their
    own: the JSON export prints the JSON text; the CSV export without a
    file name prints its notice and the tabular text; with a file name it
    prints its notice, writes the UTF-8 encoding of the tabular text to
    that file and prints the saved line, or raises the error of [open]
    without writing. *)
Theorem export_success {interp : Interpreter}
        (file : option bytes) (c : Z) (doc : GBDoc) (name : str) (pretty : bool) :
  gb_doc_sbw_open file GB_OK = Returned (Some doc) c ->
  exists json_output text content,
    to_json pretty doc = Ok json_output
    /\ to_csv true doc = Ok text
    /\ utf8_decode content = Some text
    /\ export_sbw_to_json file pretty
       = {| stdout := json_output ++ [c_lf]; saved := None; raised := None |}
    /\ export_sbw_to_csv file None true
       = {| stdout := s_lit "CSV Display Output, pass a filename to write file."
                        ++ [c_lf] ++ text ++ [c_lf];
            saved := None; raised := None |}
    /\ (name <> [] ->
        export_sbw_to_csv file (Some name) true
        = {| stdout := s_lit "CSV file write, to display on screen leave outFile blank."
                         ++ [c_lf] ++ s_lit "CSV file saved as: " ++ name ++ [c_lf];
             saved := Some (name, content); raised := None |}
        /\ export_sbw_to_csv file (Some name) false
           = {| stdout := s_lit "CSV file write, to display on screen leave outFile blank."
                            ++ [c_lf];
                saved := None; raised := Some OSError |}).
Proof.
  intros H. pose proof (gb_doc_sbw_open_outcome _ _ _ _ H) as (-> & _ & _).
  pose proof (gb_doc_sbw_open_encodable _ _ _ _ H) as Henc.
  destruct (bonds_json_encodable _ (proj2 Henc)) as (items & Hi).
  destruct (to_csv_scalar true doc Henc) as (text & Hcsv & Hs).
  destruct (to_csv_file_of_to_csv name true doc text Hcsv Hs)
    as (content & _ & Hfile & Hdec).
  eexists. exists text, content.
  split; [unfold to_json; rewrite Hi; reflexivity|].
  split; [exact Hcsv|]. split; [exact Hdec|].
  unfold export_sbw_to_json, export_sbw_to_csv. rewrite H.
  change (negb (GB_OK =? GB_OK)%Z) with false. cbv iota.
  split; [unfold to_json; rewrite Hi; reflexivity|].
  split; [rewrite Hcsv; unfold print; now rewrite <- !app_assoc|].
  intros Hname. destruct name as [|ch name]; [now contradiction Hname|].
  split.
  - rewrite Hfile. cbn [stdout saved raised]. unfold print.
    now rewrite <- !app_assoc.
  - cbn [to_csv_file negb stdout saved raised]. unfold print.
    now rewrite app_nil_r.
Qed.

(** ** [main] *)

(** Without [--csv] and without a file name for the CSV, [main] writes no
    file, and whenever the export ends without an exception it prints the
    text [None] on a line of its own after the output of the export: the
    value of [export_sbw_to_json].  For a file that does not exist the
    output is the failure line with code 1, then that line. *)
Theorem main_json_mode {interp : Interpreter}
        (args : Namespace) (file : option bytes) (opens : bool) :
  csv args = false ->
  truthy (csv_file args) = false ->
  saved (main args file opens) = None
  /\ (raised (export_sbw_to_json file (pretty args)) = None ->
      main args file opens
      = {| stdout := stdout (export_sbw_to_json file (pretty args))
                       ++ s_lit "None" ++ [c_lf];
           saved := None; raised := None |})
  /\ (raised (export_sbw_to_json file (pretty args)) <> None ->
      main args file opens = export_sbw_to_json file (pretty args))
  /\ (file = None ->
      stdout (main args file opens)
      = s_lit "Failed to parse file. Error code: 1" ++ [c_lf]
          ++ s_lit "None" ++ [c_lf]).
Proof.
  intros Hcsv Hfile. unfold main. rewrite Hcsv, Hfile. cbn [orb].
  set (r := export_sbw_to_json file (pretty args)).
  assert (Hsaved : saved r = None).
  { subst r. unfold export_sbw_to_json.
    destruct (gb_doc_sbw_open file GB_OK) as [doc c|e]; [|reflexivity].
    destruct (if negb (c =? GB_OK)%Z then None else doc) as [d|]; [|reflexivity].
    destruct (to_json (pretty args) d); reflexivity. }
  split; [|split; [|split]].
  - destruct (raised r); exact Hsaved.
  - intros Hr. rewrite Hr, Hsaved. reflexivity.
  - intros Hr. destruct (raised r); [reflexivity|now contradiction Hr].
  - intros ->. reflexivity.
Qed.

Lemma is_scalar_Forall (s : str) : forallb is_scalar s = true -> Forall scalar s.
Proof.
  intros H. apply Forall_forall. intros c Hc.
  rewrite forallb_forall in H. specialize (H c Hc).
  unfold is_scalar in H. unfold scalar.
  apply orb_prop in H. destruct H as [H|H]; bool_facts; lia.
Qed.

(** * Further properties: short reads and line ends *)

(** ** A v4 source that ends inside a record *)

Lemma read_length_byte_eof {B} (k : nat -> M B) (w : world) :
  fp_rest w = [] -> bind read_length_byte k w = Raised struct_error.
Proof.
  intros Hw. unfold read_length_byte. rewrite !bind_bind.
  unfold bind at 1. unfold fp_read. rewrite Hw. reflexivity.
Qed.

(** The v4 reader checks the length of the header and of each block, not
    that of the three length bytes: a source that ends right after a
    block, after the notes or after the serial number of a declared
    record makes it raise [struct.error], after any number of valid
    records, where a truncated block gives the parse error. *)
Theorem read_sbw4_missing_length_byte {interp : Interpreter}
        (head marker : bytes) (recs : list sbw4_record) (block notes sn : bytes)
        (code : Z) :
  length head = 12 ->
  length marker = 5 ->
  (Z.of_nat (length recs) < header_count head)%Z ->
  Forall record_valid recs ->
  length block = 84 ->
  length notes <= 255 ->
  length sn <= 255 ->
  utf8_decode sn <> None ->
  read_sbw4 (opened (head ++ marker ++ gapped_records recs ++ block) code)
  = Raised struct_error
  /\ read_sbw4 (opened (head ++ marker ++ gapped_records recs ++ block
                          ++ length_prefixed notes) code)
     = Raised struct_error
  /\ read_sbw4 (opened (head ++ marker ++ gapped_records recs ++ block
                          ++ length_prefixed notes ++ length_prefixed sn) code)
     = Raised struct_error.
Proof.
  intros Hhead Hmarker Hcount Hvalid Hblock Hnotes Hsn Usn.
  assert (Hcut : forall cut : bytes,
             (cut = [] \/ cut = length_prefixed notes
              \/ cut = length_prefixed notes ++ length_prefixed sn) ->
             read_sbw4 (opened (head ++ marker ++ gapped_records recs ++ block ++ cut)
                               code)
             = Raised struct_error).
  { intros cut Hc.
    destruct (read_sbw4_enters_loop head marker
                (gapped_records recs ++ block ++ cut) code Hhead Hmarker)
      as (w & Hw & Hs & Hrun).
    rewrite Hrun. clear Hrun.
    set (n := header_count head) in *.
    replace (Z.to_nat n) with (length recs + S (Z.to_nat n - length recs - 1)) by lia.
    destruct (read_sbw4_bonds_gapped recs (S (Z.to_nat n - length recs - 1)) 0 n
                sbw4_doc_new w _ Hvalid ltac:(lia) Hw Hs)
      as (w1 & Hw1 & Hs1 & Hrun).
    rewrite Hrun. clear Hrun. cbn [read_sbw4_bonds].
    edestruct (@bind_fp_read_n (option GBDoc) 84) as [Hrun Hw2];
      [exact Hblock | exact Hw1 | ].
    rewrite Hrun. clear Hrun. rewrite Hblock.
    change (84 <? 84) with false. cbv iota.
    unfold struct_unpack at 1. rewrite Hblock.
    change (84 =? list_sum fmt_I21) with true. cbv iota.
    rewrite bind_lift_Ok.
    destruct Hc as [->|[->| ->]].
    - now apply read_length_byte_eof.
    - rewrite <- (app_nil_r (length_prefixed notes)) in Hw2.
      edestruct (@bind_skip_field (option GBDoc)) as (w3 & Hw3 & _ & Hrun);
        [exact Hnotes | exact Hw2 | rewrite Hrun; clear Hrun].
      now apply read_length_byte_eof.
    - edestruct (@bind_skip_field (option GBDoc)) as (w3 & Hw3 & _ & Hrun);
        [exact Hnotes | exact Hw2 | rewrite Hrun; clear Hrun].
      rewrite <- (app_nil_r (length_prefixed sn)) in Hw3.
      edestruct (@bind_text_field (option GBDoc)) as (w4 & Hw4 & _ & Hrun);
        [exact Hsn | exact Usn | exact Hw3 | rewrite Hrun; clear Hrun].
      now apply read_length_byte_eof. }
  split; [|split].
  - rewrite <- (app_nil_r block). apply Hcut. now left.
  - apply Hcut. right. now left.
  - apply Hcut. right. now right.
Qed.

(** ** Carriage returns before the line feeds of a v2 source *)

Lemma take_line_with_crlf (x : bytes) :
  take_line (with_crlf x) = with_crlf (take_line x).
Proof.
  induction x as [|b x IH]; [reflexivity|].
  cbn [with_crlf take_line]. destruct (Byte.eqb b b_lf) eqn:E.
  - cbn [take_line with_crlf]. change (Byte.eqb b_cr b_lf) with false. cbv iota.
    now rewrite E.
  - cbn [take_line with_crlf]. now rewrite E, IH.
Qed.

Lemma drop_line_cons (b : byte) (x : bytes) :
  drop_line (b :: x) = if Byte.eqb b b_lf then x else drop_line x.
Proof.
  unfold drop_line. cbn [take_line]. now destruct (Byte.eqb b b_lf).
Qed.

Lemma drop_line_with_crlf (x : bytes) :
  drop_line (with_crlf x) = with_crlf (drop_line x).
Proof.
  induction x as [|b x IH]; [reflexivity|].
  cbn [with_crlf]. rewrite (drop_line_cons b x). destruct (Byte.eqb b b_lf) eqn:E.
  - rewrite !drop_line_cons. change (Byte.eqb b_cr b_lf) with false. cbv iota.
    now rewrite E.
  - now rewrite drop_line_cons, E.
Qed.

(** A line as read from the source with carriage returns: the line of the
    plain source, with a carriage return before its line feed if it has
    one. *)
Lemma take_line_cases (x : bytes) :
  (exists p, take_line x = p ++ [b_lf]
             /\ with_crlf (take_line x) = p ++ [b_cr; b_lf])
  \/ with_crlf (take_line x) = take_line x.
Proof.
  induction x as [|b x IH]; [now right|].
  cbn [take_line]. destruct (Byte.eqb b b_lf) eqn:E.
  - left. exists []. apply byte_eqb_eq in E. subst b. split; reflexivity.
  - cbn [with_crlf]. rewrite E. destruct IH as [(p & Hp & Hc)|Hc].
    + left. exists (b :: p). rewrite Hc, Hp. split; reflexivity.
    + right. now rewrite Hc.
Qed.

Lemma utf8_decode_N_ascii_char (a : N) :
  (a < 128)%N -> utf8_decode_N [a] = Some [a].
Proof. intros Ha. cbn. apply N.ltb_lt in Ha. now rewrite Ha. Qed.

Lemma option_map_snoc_cons (c a : N) (o : option str) :
  option_map (cons c) (option_map (fun s => s ++ [a]) o)
  = option_map (fun s => s ++ [a]) (option_map (cons c) o).
Proof. now destruct o. Qed.

(** An ASCII character after the bytes is decoded after their text, and
    makes no text of bytes that are none. *)
Lemma utf8_decode_N_snoc_ascii (a : N) (n : nat) :
  (a < 128)%N ->
  forall l : list N,
    length l <= n ->
    utf8_decode_N (l ++ [a]) = option_map (fun s => s ++ [a]) (utf8_decode_N l).
Proof.
  intros Ha.
  assert (Hr : forall lo hi, (128 <= lo)%N -> in_range lo hi a = false).
  { intros lo hi Hlo. unfold in_range. apply andb_false_iff. left.
    apply N.leb_gt. lia. }
  assert (Hlo3 : forall b0 : N, (128 <= (if (b0 =? 224)%N then 160 else 128))%N)
    by (intros b0; destruct (b0 =? 224)%N; lia).
  assert (Hlo4 : forall b0 : N, (128 <= (if (b0 =? 240)%N then 144 else 128))%N)
    by (intros b0; destruct (b0 =? 240)%N; lia).
  induction n as [|n IH]; intros l Hlen.
  - destruct l; [now apply utf8_decode_N_ascii_char|simpl in Hlen; lia].
  - destruct l as [|b0 x1]; [now apply utf8_decode_N_ascii_char|].
    cbn [length] in Hlen. cbn [app utf8_decode_N].
    destruct (b0 <? 128)%N.
    { rewrite IH by lia. apply option_map_snoc_cons. }
    destruct (in_range 194 223 b0).
    { destruct x1 as [|b1 x2]; cbn [app].
      - now rewrite (Hr 128%N 191%N).
      - cbn [length] in Hlen. destruct (in_range 128 191 b1); [|reflexivity].
        rewrite IH by lia. apply option_map_snoc_cons. }
    destruct (in_range 224 239 b0).
    { cbv zeta. destruct x1 as [|b1 [|b2 x3]]; cbn [app].
      - reflexivity.
      - rewrite (Hr 128%N 191%N) by lia. now rewrite andb_false_r.
      - cbn [length] in Hlen. destruct (_ && _); [|reflexivity].
        rewrite IH by lia. apply option_map_snoc_cons. }
    destruct (in_range 240 244 b0); [|reflexivity].
    cbv zeta. destruct x1 as [|b1 [|b2 [|b3 x4]]]; cbn [app].
    + reflexivity.
    + reflexivity.
    + rewrite (Hr 128%N 191%N) by lia. now rewrite andb_false_r.
    + cbn [length] in Hlen. destruct (_ && _); [|reflexivity].
      rewrite IH by lia. apply option_map_snoc_cons.
Qed.

Lemma utf8_decode_snoc_ascii (p : bytes) (b : byte) :
  (Byte.to_N b < 128)%N ->
  utf8_decode (p ++ [b])
  = option_map (fun s => s ++ [Byte.to_N b]) (utf8_decode p).
Proof.
  intros Hb. unfold utf8_decode. rewrite map_app. cbn [map].
  now apply (utf8_decode_N_snoc_ascii _ (length (map Byte.to_N p)) Hb).
Qed.

(** The two forms of a line decode alike: both are no UTF-8, or their
    texts differ in the blanks at the end only. *)
Lemma decode_line_pair (x : bytes) :
  match bytes_decode (take_line x), bytes_decode (with_crlf (take_line x)) with
  | Ok t, Ok t' => same_but_line_end t t'
  | Err e, Err e' => e = e'
  | _, _ => False
  end.
Proof.
  unfold bytes_decode.
  destruct (take_line_cases x) as [(p & Hp & Hc) | Hc]; rewrite Hc; [rewrite Hp|].
  - change (p ++ [b_cr; b_lf]) with (p ++ [b_cr] ++ [b_lf]). rewrite app_assoc.
    rewrite !utf8_decode_snoc_ascii by (vm_compute; reflexivity).
    destruct (utf8_decode p) as [s|]; cbn [option_map]; [|reflexivity].
    exists s, [c_lf], [c_cr; c_lf]. rewrite <- app_assoc.
    repeat split; repeat constructor.
  - destruct (utf8_decode (take_line x)) as [t|]; [|reflexivity].
    exists t, [], []. rewrite app_nil_r. repeat split; constructor.
Qed.

Lemma bytes_strip_line_pair (x : bytes) :
  bytes_strip (with_crlf (take_line x)) = bytes_strip (take_line x).
Proof.
  unfold bytes_strip.
  destruct (take_line_cases x) as [(p & Hp & Hc) | Hc]; rewrite Hc; [|reflexivity].
  rewrite Hp, !strip_app_dropped; [reflexivity| |]; repeat constructor.
Qed.

Lemma same_but_line_end_strip (t t' : str) :
  same_but_line_end t t' -> str_strip t' = str_strip t.
Proof.
  intros (s & ws & ws' & -> & -> & Hws & Hws'). unfold str_strip.
  now rewrite !strip_app_dropped.
Qed.

Lemma same_but_line_end_fields (t t' : str) :
  same_but_line_end t t' ->
  length (str_split c_comma 4 t') = length (str_split c_comma 4 t)
  /\ forall i, str_strip (nth i (str_split c_comma 4 t') [])
               = str_strip (nth i (str_split c_comma 4 t) []).
Proof.
  intros (s & ws & ws' & -> & -> & Hws & Hws').
  pose proof (str_split_app c_comma ws (space_no_comma ws Hws) s 4) as H.
  pose proof (str_split_app c_comma ws' (space_no_comma ws' Hws') s 4) as H'.
  split.
  - transitivity (length (str_split c_comma 4 s));
      [symmetry; exact (Forall2_length H')|exact (Forall2_length H)].
  - intros i. unfold str_strip.
    rewrite (Forall2_nth_strip is_unicode_space ws _ _ i Hws H).
    now rewrite (Forall2_nth_strip is_unicode_space ws' _ _ i Hws' H').
Qed.

Lemma read_count_line_pair {interp : Interpreter} (x : bytes) :
  read_count_line (with_crlf (take_line x)) = read_count_line (take_line x).
Proof.
  unfold read_count_line. pose proof (decode_line_pair x) as H.
  destruct (bytes_decode (take_line x)) as [t|e];
    destruct (bytes_decode (with_crlf (take_line x))) as [t'|e'];
    try contradiction; [|reflexivity].
  now rewrite (same_but_line_end_strip t t' H).
Qed.

Lemma fp_readline_pair {A} (k k' : bytes -> M A) (w w' : world) :
  fp_rest w' = with_crlf (fp_rest w) ->
  status_code w' = status_code w ->
  exists w1 w1',
    fp_rest w1' = with_crlf (fp_rest w1)
    /\ status_code w1 = status_code w
    /\ status_code w1' = status_code w
    /\ bind fp_readline k w = k (take_line (fp_rest w)) w1
    /\ bind fp_readline k' w' = k' (with_crlf (take_line (fp_rest w))) w1'.
Proof.
  intros Hrest Hs.
  exists (advance (length (take_line (fp_rest w))) w),
         (advance (length (take_line (fp_rest w'))) w').
  split; [|split; [reflexivity|split; [exact Hs|split]]].
  - rewrite !fp_rest_after_line, Hrest. apply drop_line_with_crlf.
  - apply bind_fp_readline.
  - rewrite bind_fp_readline, Hrest, take_line_with_crlf. reflexivity.
Qed.

Lemma bind_lift {A B} (r : pyresult A) (k : A -> M B) (w : world) :
  bind (lift r) k w = match r with Ok a => k a w | Err e => Raised e end.
Proof. now destruct r. Qed.

(** The v2 loop on the two forms of a source. *)
Lemma read_sbw2_bonds_crlf {interp : Interpreter} (todo : nat) :
  forall (doc : GBDoc) (w w' : world),
    fp_rest w' = with_crlf (fp_rest w) ->
    status_code w' = status_code w ->
    same_outcome (read_sbw2_bonds todo doc w) (read_sbw2_bonds todo doc w').
Proof.
  induction todo as [|todo IH]; intros doc w w' Hrest Hs.
  - cbn. auto.
  - cbn [read_sbw2_bonds].
    edestruct (@fp_readline_pair (option GBDoc)) as (w1 & w1' & Hr1 & Hs1 & Hs1' & E & E');
      [exact Hrest | exact Hs | rewrite E, E'; clear E E'].
    pose proof (decode_line_pair (fp_rest w)) as Hline.
    rewrite !bind_lift.
    destruct (bytes_decode (take_line (fp_rest w))) as [t|e];
      destruct (bytes_decode (with_crlf (take_line (fp_rest w)))) as [t'|e'];
      try contradiction; [|exact Hline].
    destruct (same_but_line_end_fields t t' Hline) as [Hlen Hfield].
    rewrite Hlen, !Hfield.
    destruct (length (str_split c_comma 4 t) <? 4);
      [apply IH; [exact Hr1|congruence]|].
    unfold gb_doc_bond_new.
    destruct (py_float _) as [d|].
    + rewrite !bind_ret, !bind_get_status, Hs1, Hs1'.
      destruct (negb (status_code w =? GB_OK)%Z).
      * unfold same_outcome, ret.
        split; [reflexivity|split; [congruence|exact Hr1]].
      * apply IH; [exact Hr1|congruence].
    + rewrite !bind_bind, !bind_set_status, !bind_ret, !bind_get_status.
      unfold same_outcome, ret. cbn [status_code negb Z.eqb].
      split; [reflexivity|split; [reflexivity|exact Hr1]].
Qed.

(** The v2 reader on the two forms of a source. *)
Lemma read_sbw2_crlf {interp : Interpreter} (content : bytes) (code : Z) :
  same_outcome (read_sbw2 (opened content code))
               (read_sbw2 (opened (with_crlf content) code)).
Proof.
  unfold read_sbw2. rewrite !bind_set_status.
  set (w0 := {| fp_content := fp_content (opened content code); fp_pos := _;
                status_code := GB_OK |}).
  set (w0' := {| fp_content := fp_content (opened (with_crlf content) code);
                 fp_pos := _; status_code := GB_OK |}).
  assert (Hr0 : fp_rest w0' = with_crlf (fp_rest w0)) by reflexivity.
  assert (Hs0 : status_code w0' = status_code w0) by reflexivity.
  edestruct (@fp_readline_pair (option GBDoc)) as (w1 & w1' & Hr1 & Hs1 & Hs1' & E & E');
    [exact Hr0 | exact Hs0 | rewrite E, E'; clear E E'].
  rewrite bytes_strip_line_pair.
  destruct (negb _).
  { rewrite !bind_set_status. unfold same_outcome, ret.
    split; [reflexivity|split; [reflexivity|exact Hr1]]. }
  edestruct (@fp_readline_pair (option GBDoc)) as (w2 & w2' & Hr2 & Hs2 & Hs2' & E & E');
    [exact Hr1 | congruence | rewrite E, E'; clear E E'].
  pose proof (decode_line_pair (fp_rest w1)) as Hline.
  rewrite !bind_lift.
  destruct (bytes_decode (take_line (fp_rest w1))) as [t|e];
    destruct (bytes_decode (with_crlf (take_line (fp_rest w1)))) as [t'|e'];
    try contradiction; [|exact Hline].
  rewrite (same_but_line_end_strip t t' Hline).
  edestruct (@fp_readline_pair (option GBDoc)) as (w3 & w3' & Hr3 & Hs3 & Hs3' & E & E');
    [exact Hr2 | congruence | rewrite E, E'; clear E E'].
  edestruct (@fp_readline_pair (option GBDoc)) as (w4 & w4' & Hr4 & Hs4 & Hs4' & E & E');
    [exact Hr3 | congruence | rewrite E, E'; clear E E'].
  rewrite read_count_line_pair.
  destruct (read_count_line _) as [n|].
  - apply read_sbw2_bonds_crlf; [exact Hr4|congruence].
  - rewrite !bind_set_status. unfold same_outcome, ret.
    split; [reflexivity|split; [reflexivity|exact Hr4]].
Qed.

Lemma startswith_with_crlf (p x : bytes) :
  ~ In b_lf p -> ~ In b_cr p ->
  bytes_startswith (with_crlf x) p = bytes_startswith x p.
Proof.
  unfold bytes_startswith. revert x. induction p as [|q p IH]; intros x Hlf Hcr.
  - now destruct (with_crlf x), x.
  - apply not_In_cons in Hlf. destruct Hlf as [Hq Hlf].
    apply not_In_cons in Hcr. destruct Hcr as [Hq' Hcr].
    destruct x as [|b x]; [reflexivity|]. cbn [with_crlf].
    destruct (Byte.eqb b b_lf) eqn:E.
    + apply byte_eqb_eq in E. subst b. cbn [startswith].
      assert (E1 : Byte.eqb b_cr q = false).
      { destruct (Byte.eqb b_cr q) eqn:E1; [|reflexivity].
        apply byte_eqb_eq in E1. now contradiction Hq'. }
      assert (E2 : Byte.eqb b_lf q = false).
      { destruct (Byte.eqb b_lf q) eqn:E2; [|reflexivity].
        apply byte_eqb_eq in E2. now contradiction Hq. }
      now rewrite E1, E2.
    + cbn [startswith]. now rewrite (IH x Hlf Hcr).
Qed.

(** A file that the probe sends to the v2 reader opens to the same result
    when a carriage return stands before each of its line feeds: line ends
    of the two kinds give the same document and status code, or the same
    exception. *)
Theorem gb_doc_sbw_open_crlf {interp : Interpreter} (content : bytes) (code : Z) :
  bytes_startswith content magic_2 || bytes_startswith content magic_3 = true ->
  gb_doc_sbw_open (Some (with_crlf content)) code
  = gb_doc_sbw_open (Some content) code.
Proof.
  intros Hv. unfold gb_doc_sbw_open.
  fold (opened content code) (opened (with_crlf content) code).
  do 2 (erewrite bind_Done by apply sniff_version_run).
  unfold source_version.
  rewrite !startswith_with_crlf
    by (unfold magic_2, magic_3; simpl; intuition discriminate).
  rewrite Hv. cbn [Z.eqb Pos.eqb].
  pose proof (read_sbw2_crlf content code) as H. unfold same_outcome in H.
  destruct (read_sbw2 (opened content code)) as [r w|e];
    destruct (read_sbw2 (opened (with_crlf content) code)) as [r' w'|e'];
    try contradiction.
  - destruct H as (-> & -> & _). reflexivity.
  - now subst e'.
Qed.

(** ** The texts of a document of the v2 reader *)

Lemma str_split_piece_no_sep (sep : N) (s : str) :
  forall m i, i < m -> ~ In sep (nth i (str_split sep m s) []).
Proof.
  induction s as [|c s IH]; intros m i Hi.
  - cbn. destruct i as [|[|i]]; intros [].
  - cbn [str_split]. destruct m as [|m]; [lia|].
    destruct (N.eqb_spec c sep) as [->|Hne].
    + destruct i as [|i]; [intros []|]. cbn [nth]. apply IH. lia.
    + pose proof (IH (S m)) as IHm.
      destruct (str_split sep (S m) s) as [|f fs].
      * destruct i as [|[|i]]; cbn; intuition.
      * destruct i as [|i]; cbn [nth].
        -- specialize (IHm 0 ltac:(lia)). cbn [nth] in IHm.
           intros [H|H]; [now apply Hne|now apply IHm].
        -- apply (IHm (S i)). lia.
Qed.

Lemma strip_no_sep (f : N -> bool) (sep : N) (x : str) :
  ~ In sep x -> ~ In sep (strip f x).
Proof.
  intros H Hin.
  assert (Hall : Forall (fun c => c <> sep) x).
  { apply Forall_forall. intros c Hc ->. now apply H. }
  apply (Forall_strip _ f) in Hall. rewrite Forall_forall in Hall.
  now apply (Hall sep Hin).
Qed.

Lemma lstrip_head {A} (f : A -> bool) (x s : list A) (c : A) :
  lstrip f x = c :: s -> f c = false.
Proof.
  induction x as [|a x IH]; [discriminate|]. cbn [lstrip].
  destruct (f a) eqn:E; [exact IH|]. now intros [= <- _].
Qed.

Lemma lstrip_suffix {A} (f : A -> bool) (x : list A) :
  exists p, x = p ++ lstrip f x.
Proof.
  induction x as [|a x (p & IH)]; [now exists []|].
  cbn [lstrip]. destruct (f a); [|now exists []].
  exists (a :: p). cbn. now rewrite <- IH.
Qed.

Lemma rstrip_last {A} (f : A -> bool) (x s : list A) (c : A) :
  rstrip f x = s ++ [c] -> f c = false.
Proof.
  unfold rstrip. intros H. apply (f_equal (@rev A)) in H.
  rewrite rev_involutive, rev_app_distr in H. cbn in H.
  exact (lstrip_head f _ _ _ H).
Qed.

Lemma rstrip_prefix {A} (f : A -> bool) (x : list A) :
  exists t, x = rstrip f x ++ t.
Proof.
  unfold rstrip. destruct (lstrip_suffix f (rev x)) as (p & Hp).
  exists (rev p). rewrite <- rev_app_distr, <- Hp. symmetry. apply rev_involutive.
Qed.

(** What [strip] returns neither starts nor ends with a character that it
    drops. *)
Lemma strip_ends {A} (f : A -> bool) (x : list A) :
  (forall c s, strip f x = c :: s -> f c = false)
  /\ (forall c s, strip f x = s ++ [c] -> f c = false).
Proof.
  unfold strip. split; intros c s H.
  - destruct (rstrip_prefix f (lstrip f x)) as (t & Ht).
    rewrite H in Ht. exact (lstrip_head f x _ c Ht).
  - exact (rstrip_last f _ _ _ H).
Qed.

Lemma unquoted_ends (x : str) :
  (forall s, str_strip_chars [c_dquote] x <> c_dquote :: s)
  /\ (forall s, str_strip_chars [c_dquote] x <> s ++ [c_dquote]).
Proof.
  unfold str_strip_chars.
  destruct (strip_ends (fun c => existsb (N.eqb c) [c_dquote]) x) as [Hh Hl].
  split; intros s H; [apply Hh in H|apply Hl in H]; discriminate H.
Qed.

Lemma v2_field_plain (i : nat) (line : str) :
  i < 4 ->
  v2_plain_field (str_strip_chars [c_dquote]
                    (str_strip (nth i (str_split c_comma 4 line) []))).
Proof.
  intros Hi. split; [|apply unquoted_ends].
  unfold str_strip_chars, str_strip. do 2 apply strip_no_sep.
  now apply str_split_piece_no_sep.
Qed.

Lemma read_sbw2_bonds_plain {interp : Interpreter} (todo : nat) :
  forall (doc doc' : GBDoc) (w w' : world),
    Forall bond_of_v2 (bonds doc) ->
    read_sbw2_bonds todo doc w = Done (Some doc') w' ->
    Forall bond_of_v2 (bonds doc').
Proof.
  induction todo as [|todo IH]; intros doc doc' w w' Hdoc H.
  - cbn in H. assert (doc' = doc) by (unfold ret in H; congruence). now subst doc'.
  - cbn [read_sbw2_bonds] in H.
    do 2 skip_bind H.
    destruct (_ <? 4); [exact (IH _ _ _ _ Hdoc H)|].
    inv_bind H.
    destruct (gb_doc_bond_new_inv _ _ _ _ _ _ _ Hm)
      as [(f & Hf & -> & ->)|(_ & _ & Hcode)]; clear Hm.
    + rewrite bind_get_status in H.
      destruct (negb _); [discriminate H|].
      apply (IH _ _ _ _) in H; [exact H|].
      cbn [add_bond bonds]. apply Forall_app. split; [exact Hdoc|].
      constructor; [|constructor].
      eexists. split; [reflexivity|]. cbn [series idate sn].
      split; [|split]; apply v2_field_plain; lia.
    + rewrite bind_get_status, Hcode in H. discriminate H.
Qed.

(** Whatever the bytes of the source, a document that the v2 reader
    returns comes with the status [GB_OK]; its title is the second line,
    trimmed and unquoted, and has no double quote at either end; the count
    line reads a number, and the document holds at most that many bonds;
    the series, the issue date and the serial number of each bond hold no
    comma and have no double quote at either end. *)
Theorem read_sbw2_document_shape {interp : Interpreter}
        (content : bytes) (code : Z) (doc : GBDoc) (w' : world) :
  read_sbw2 (opened content code) = Done (Some doc) w' ->
  status_code w' = GB_OK
  /\ title doc = v2_title content
  /\ (forall s, title doc <> c_dquote :: s)
  /\ (forall s, title doc <> s ++ [c_dquote])
  /\ (exists n, read_count_line (v2_head_line 3 content) = Some n
                /\ length (bonds doc) <= Z.to_nat n)
  /\ Forall bond_of_v2 (bonds doc).
Proof.
  intros H.
  destruct (bytes_in (bytes_strip (v2_head_line 0 content)) [magic_2; magic_3])
    eqn:Hmagic.
  2:{ destruct (read_sbw2_magic_rejected content code Hmagic) as (w & Hw).
      rewrite Hw in H. discriminate H. }
  destruct (utf8_decode (v2_head_line 1 content)) as [t|] eqn:Htitle.
  2:{ rewrite (read_sbw2_title_undecodable content code Hmagic Htitle) in H.
      discriminate H. }
  destruct (read_sbw2_reads_head content code Hmagic ltac:(congruence))
    as (w & _ & Hs & Hrun).
  rewrite Hrun in H. clear Hrun.
  destruct (read_count_line (v2_head_line 3 content)) as [n|];
    [|rewrite bind_set_status in H; discriminate H].
  pose proof (read_sbw2_bonds_outcome _ _ _ _ _ Hs H) as (Hs' & Ht & Hlen & _).
  assert (Hplain : Forall bond_of_v2 (bonds doc)).
  { apply (read_sbw2_bonds_plain _ _ _ _ _) in H; [exact H|]. constructor. }
  cbn [set_title gb_doc_new title bonds length] in Ht, Hlen.
  split; [exact Hs'|]. split; [exact Ht|].
  rewrite Ht. unfold v2_title.
  split; [apply unquoted_ends|]. split; [apply unquoted_ends|].
  split; [exists n; split; [reflexivity|lia]|exact Hplain].
Qed.

(** * The further properties at concrete sources *)

(** The example source opens to its document with [GB_OK]. *)
Lemma gb_doc_sbw_open_status_agrees_at_example :
  (Some sbw4_example_doc = None <-> GB_OK <> GB_OK)
  /\ (GB_OK = GB_OK \/ GB_OK = GB_ERROR_OPEN_SBW_CANNOT_OPEN_FILE
      \/ GB_OK = GB_ERROR_OPEN_SBW_BAD_MAGIC \/ GB_OK = GB_ERROR_OPEN_SBW_PARSE)
  /\ (GB_OK = GB_ERROR_OPEN_SBW_CANNOT_OPEN_FILE <-> Some sbw4_example_source = None)
  /\ (forall d, Some sbw4_example_doc = Some d ->
                Forall (fun ob => ob <> None) (bonds d)).
Proof.
  apply (gb_doc_sbw_open_status_agrees (interp := plain_interpreter)
           (Some sbw4_example_source) GB_OK GB_OK (Some sbw4_example_doc)).
  vm_compute. reflexivity.
Defined.

(** The four records of the filter example: two bonds, both of the shape. *)
Lemma read_sbw4_document_shape_at_example :
  exists doc w,
    read_sbw4 (interp := plain_interpreter)
      (opened (sbw4_source header_four magic_cbond filter_records []) GB_OK)
    = Done (Some doc) w
    /\ status_code w = GB_OK
    /\ title doc = s_lit "Imported SBW4 Inventory"
    /\ (Z.of_nat (length (bonds doc)) < 65536)%Z
    /\ Forall (bond_of_v4 (interp := plain_interpreter)) (bonds doc).
Proof.
  eexists. eexists. split; [vm_compute; reflexivity|].
  refine (read_sbw4_document_shape (interp := plain_interpreter)
            (sbw4_source header_four magic_cbond filter_records []) GB_OK
            (Some _) _ _).
  vm_compute. reflexivity.
Defined.


Lemma filter_records_other_valid :
  Forall (record_valid (interp := plain_interpreter)) filter_records_other.
Proof.
  unfold filter_records_other, filter_records. cbn [map rec_sn rec_series].
  repeat (constructor;
          [unfold record_valid; cbn [rec_block rec_notes rec_sn rec_series rec_gap];
           repeat split; try reflexivity; try (simpl; lia); try discriminate;
           intros _; vm_compute; discriminate|]).
  constructor.
Defined.

Lemma filter_records_same_payload :
  Forall2 same_payload filter_records filter_records_other.
Proof.
  unfold filter_records_other, filter_records. cbn [map rec_sn rec_series].
  repeat (constructor; [unfold same_payload; repeat split; vm_compute; reflexivity|]).
  constructor.
Defined.

(** The filter example with other notes, separators, unused fields,
    marker and trailing bytes decodes to the same document. *)
Lemma read_sbw4_payload_only_at_example :
  exists doc w w',
    read_sbw4 (interp := plain_interpreter)
      (opened (sbw4_source header_four magic_cbond filter_records []) GB_OK)
    = Done (Some doc) w
    /\ read_sbw4 (interp := plain_interpreter)
         (opened (sbw4_source header_four (b_lit "XXXXX") filter_records_other
                    (b_lit "trailing bytes")) GB_ERROR_OPEN_SBW_PARSE)
       = Done (Some doc) w'.
Proof.
  apply (read_sbw4_payload_only (interp := plain_interpreter)
           header_four header_four magic_cbond (b_lit "XXXXX")
           filter_records filter_records_other [] (b_lit "trailing bytes")
           GB_OK GB_ERROR_OPEN_SBW_PARSE);
    try reflexivity.
  - exact filter_records_valid.
  - exact filter_records_other_valid.
  - exact filter_records_same_payload.
Defined.

(** A zero count and the marker, then bytes that are no record. *)
Lemma gb_doc_sbw_open_v4_no_records_at_example :
  gb_doc_sbw_open (interp := plain_interpreter)
    (Some (header_zero ++ magic_cbond ++ b_lit "no record here")) GB_OK
  = Returned (Some sbw4_doc_new) GB_OK.
Proof.
  apply (gb_doc_sbw_open_v4_no_records (interp := plain_interpreter)
           header_zero (b_lit "no record here") GB_OK); reflexivity.
Defined.

(** A count line that reads minus three, before a record line. *)
Lemma read_sbw2_no_records_at_example :
  exists w,
    read_sbw2 (interp := plain_interpreter)
      (opened (v2_example_head "-3" ++ lf_line "B2,100,EE,02/2001") GB_OK)
    = Done (Some (set_title gb_doc_new
                    (v2_title (v2_example_head "-3" ++ lf_line "B2,100,EE,02/2001"))))
           w
    /\ status_code w = GB_OK.
Proof.
  apply (read_sbw2_no_records (interp := plain_interpreter)
           (v2_example_head "-3" ++ lf_line "B2,100,EE,02/2001") GB_OK (-3)).
  - v2_head_by_computation.
  - discriminate.
Defined.

(** A title line that is the byte ff, and a second record line that is a
    lone lead byte. *)
Lemma read_sbw2_undecodable_line_at_examples :
  read_sbw2 (interp := plain_interpreter) (opened v2_bad_title_source GB_OK)
  = Raised UnicodeDecodeError
  /\ read_sbw2 (interp := plain_interpreter) (opened v2_bad_line_source GB_OK)
     = Raised UnicodeDecodeError.
Proof.
  split.
  - apply (read_sbw2_undecodable_line (interp := plain_interpreter)
             v2_bad_title_source GB_OK); vm_compute; reflexivity.
  - apply (proj2 (read_sbw2_undecodable_line (interp := plain_interpreter)
                    v2_bad_line_source GB_OK ltac:(vm_compute; reflexivity))
             2%Z [text_line "B2,100,EE,02/2001"]).
    + v2_head_by_computation.
    + simpl. lia.
    + vm_compute. reflexivity.
    + v2_lines_parse.
    + vm_compute. reflexivity.
Defined.

(** April 1941 and April 1942. *)
Lemma gb_date_fmt_injective_at_example :
  gb_date_fmt 0 <> gb_date_fmt 12
  /\ gb_date_fmt 0 = Ok (s_lit "04/1941")
  /\ gb_date_fmt 12 = Ok (s_lit "04/1942").
Proof.
  split; [|split; reflexivity].
  apply (gb_date_fmt_injective 0 12); [vm_compute | vm_compute | ]; discriminate.
Defined.

(** A record line that ends with a carriage return and a line feed. *)
Lemma v2_line_end_ignored_at_example :
  v2_is_record (s_lit "B2,100,EE,02/2001" ++ crlf)
  = v2_is_record (s_lit "B2,100,EE,02/2001")
  /\ v2_bond (interp := plain_interpreter) (s_lit "B2,100,EE,02/2001" ++ crlf)
     = v2_bond (interp := plain_interpreter) (s_lit "B2,100,EE,02/2001").
Proof.
  apply (v2_line_end_ignored (interp := plain_interpreter)
           (s_lit "B2,100,EE,02/2001") crlf).
  repeat constructor.
Defined.

(** A concrete field is plain: its characters are compared one by one. *)
Ltac plain_field :=
  unfold v2_plain_field; split; [|split];
  [ cbn; intuition discriminate
  | intros a' E; discriminate E
  | intros a' E; apply (f_equal (fun l => last l 0%N)) in E;
    rewrite last_last in E; discriminate E ].

(** The line ["B2","100","EE","02/2001"], with a line end and with a fifth
    field. *)
Lemma v2_line_round_trip_at_example :
  (v2_is_record (v2_line (s_lit "B2") (s_lit "100") (s_lit "EE") (s_lit "02/2001") crlf)
   = true
   /\ v2_bond (interp := plain_interpreter)
        (v2_line (s_lit "B2") (s_lit "100") (s_lit "EE") (s_lit "02/2001") crlf)
      = Some {| series := s_lit "EE"; idate := s_lit "02/2001"; denom := float_100;
                sn := s_lit "B2" |})
  /\ (v2_is_record (v2_line (s_lit "B2") (s_lit "100") (s_lit "EE") (s_lit "02/2001")
                      (crlf ++ c_comma :: s_lit "a,fifth,field"))
      = true
      /\ v2_bond (interp := plain_interpreter)
           (v2_line (s_lit "B2") (s_lit "100") (s_lit "EE") (s_lit "02/2001")
              (crlf ++ c_comma :: s_lit "a,fifth,field"))
         = Some {| series := s_lit "EE"; idate := s_lit "02/2001"; denom := float_100;
                   sn := s_lit "B2" |}).
Proof.
  assert (Hws : Forall is_space crlf) by (repeat constructor).
  split.
  - apply (v2_line_round_trip (interp := plain_interpreter)
             (s_lit "B2") (s_lit "100") (s_lit "EE") (s_lit "02/2001") crlf
             (s_lit "a,fifth,field"));
      [plain_field | plain_field | plain_field | plain_field | exact Hws | now left].
  - apply (v2_line_round_trip (interp := plain_interpreter)
             (s_lit "B2") (s_lit "100") (s_lit "EE") (s_lit "02/2001") crlf
             (s_lit "a,fifth,field"));
      [plain_field | plain_field | plain_field | plain_field | exact Hws | now right].
Defined.

(** The denomination 100, as text and as number. *)
Lemma py_float_of_decimal_text_at_100 :
  py_float_of_str (interp := plain_interpreter) (str_of_N 100) = py_float_of_int 100
  /\ exists x,
       py_float_of_str (interp := plain_interpreter) (str_of_N 100) = Some x
       /\ float_integer x = Some 100%Z.
Proof.
  apply (py_float_of_decimal_text (interp := plain_interpreter) 100).
  vm_compute. reflexivity.
Defined.

(** The JSON texts of the example document. *)
Lemma to_json_ascii_at_example :
  Forall (fun c => (32 <= c <= 126)%N \/ (false = true /\ c = c_lf))
         (sbw4_example_json false)
  /\ Forall (fun c => (32 <= c <= 126)%N \/ (true = true /\ c = c_lf))
            (sbw4_example_json true).
Proof.
  split.
  - apply (to_json_ascii false sbw4_example_doc (sbw4_example_json false)).
    vm_compute. reflexivity.
  - apply (to_json_ascii true sbw4_example_doc (sbw4_example_json true)).
    vm_compute. reflexivity.
Defined.

(** The example document and one more bond. *)
Lemma to_csv_add_bond_at_example :
  (forall b, to_csv true (add_bond sbw4_example_doc (Some b))
             = Ok (sbw4_example_csv ++ csv_row b))
  /\ to_csv true (add_bond sbw4_example_doc None) = Err AttributeError
  /\ (forall t, to_csv true (set_title sbw4_example_doc t) = Ok sbw4_example_csv).
Proof.
  apply (to_csv_add_bond true sbw4_example_doc sbw4_example_csv).
  vm_compute. reflexivity.
Defined.

(** The example document written to a file. *)
Lemma to_csv_file_writes_to_csv_at_example :
  exists content,
    utf8_encode sbw4_example_csv = Some content
    /\ to_csv_file true (s_lit "bonds.csv") true sbw4_example_doc
       = {| stdout := print (s_lit "CSV file saved as: " ++ s_lit "bonds.csv");
            saved := Some (s_lit "bonds.csv", content); raised := None |}
    /\ utf8_decode content = Some sbw4_example_csv.
Proof.
  apply (to_csv_file_writes_to_csv (s_lit "bonds.csv") true sbw4_example_doc
           sbw4_example_csv).
  - vm_compute. reflexivity.
  - apply is_scalar_Forall. vm_compute. reflexivity.
Defined.

(** The example source, opened and exported. *)
Lemma decoded_document_exports_at_example :
  (exists json_output, to_json true sbw4_example_doc = Ok json_output)
  /\ exists text content,
       to_csv true sbw4_example_doc = Ok text
       /\ utf8_encode text = Some content
       /\ to_csv_file true (s_lit "bonds.csv") true sbw4_example_doc
          = {| stdout := print (s_lit "CSV file saved as: " ++ s_lit "bonds.csv");
               saved := Some (s_lit "bonds.csv", content); raised := None |}.
Proof.
  apply (decoded_document_exports (interp := plain_interpreter)
           (Some sbw4_example_source) GB_OK GB_OK sbw4_example_doc
           (s_lit "bonds.csv") true true).
  vm_compute. reflexivity.
Defined.

(** No file of that name. *)
Lemma export_failure_at_example :
  (1 <= 1 <= 3)%Z
  /\ export_sbw_to_csv (interp := plain_interpreter) None (Some (s_lit "bonds.csv")) true
     = {| stdout := s_lit "Failed to parse file. Error code: 1" ++ [c_lf];
          saved := None; raised := None |}
  /\ export_sbw_to_json (interp := plain_interpreter) None false
     = {| stdout := s_lit "Failed to parse file. Error code: 1" ++ [c_lf];
          saved := None; raised := None |}.
Proof.
  apply (export_failure (interp := plain_interpreter) None 1
           (Some (s_lit "bonds.csv")) true false).
  reflexivity.
Defined.

(** The example source through both exports. *)
Lemma export_success_at_example :
  exists json_output text content,
    to_json false sbw4_example_doc = Ok json_output
    /\ to_csv true sbw4_example_doc = Ok text
    /\ utf8_decode content = Some text
    /\ export_sbw_to_json (interp := plain_interpreter) (Some sbw4_example_source) false
       = {| stdout := json_output ++ [c_lf]; saved := None; raised := None |}
    /\ export_sbw_to_csv (interp := plain_interpreter) (Some sbw4_example_source)
         None true
       = {| stdout := s_lit "CSV Display Output, pass a filename to write file."
                        ++ [c_lf] ++ text ++ [c_lf];
            saved := None; raised := None |}
    /\ (s_lit "bonds.csv" <> [] ->
        export_sbw_to_csv (interp := plain_interpreter) (Some sbw4_example_source)
          (Some (s_lit "bonds.csv")) true
        = {| stdout := s_lit "CSV file write, to display on screen leave outFile blank."
                         ++ [c_lf] ++ s_lit "CSV file saved as: " ++ s_lit "bonds.csv"
                         ++ [c_lf];
             saved := Some (s_lit "bonds.csv", content); raised := None |}
        /\ export_sbw_to_csv (interp := plain_interpreter) (Some sbw4_example_source)
             (Some (s_lit "bonds.csv")) false
           = {| stdout := s_lit "CSV file write, to display on screen leave outFile blank."
                            ++ [c_lf];
                saved := None; raised := Some OSError |}).
Proof.
  apply (export_success (interp := plain_interpreter) (Some sbw4_example_source)
           GB_OK sbw4_example_doc (s_lit "bonds.csv") false).
  vm_compute. reflexivity.
Defined.

(** A run without options on a file that does not exist. *)
Lemma main_json_mode_at_example :
  saved (main (interp := plain_interpreter) no_options None true) = None
  /\ (raised (export_sbw_to_json (interp := plain_interpreter) None (pretty no_options))
      = None ->
      main (interp := plain_interpreter) no_options None true
      = {| stdout := stdout (export_sbw_to_json (interp := plain_interpreter) None
                               (pretty no_options))
                       ++ s_lit "None" ++ [c_lf];
           saved := None; raised := None |})
  /\ (raised (export_sbw_to_json (interp := plain_interpreter) None (pretty no_options))
      <> None ->
      main (interp := plain_interpreter) no_options None true
      = export_sbw_to_json (interp := plain_interpreter) None (pretty no_options))
  /\ (@None bytes = None ->
      stdout (main (interp := plain_interpreter) no_options None true)
      = s_lit "Failed to parse file. Error code: 1" ++ [c_lf]
          ++ s_lit "None" ++ [c_lf]).
Proof.
  apply (main_json_mode (interp := plain_interpreter) no_options None true);
    reflexivity.
Defined.

(** After the four records of the filter example, a fifth that ends after
    its block, after its notes or after its serial number. *)
Lemma read_sbw4_missing_length_byte_at_example :
  read_sbw4 (interp := plain_interpreter)
    (opened (header_five ++ magic_cbond ++ gapped_records filter_records ++ block_50)
            GB_OK)
  = Raised struct_error
  /\ read_sbw4 (interp := plain_interpreter)
       (opened (header_five ++ magic_cbond ++ gapped_records filter_records ++ block_50
                  ++ length_prefixed (b_lit "gift")) GB_OK)
     = Raised struct_error
  /\ read_sbw4 (interp := plain_interpreter)
       (opened (header_five ++ magic_cbond ++ gapped_records filter_records ++ block_50
                  ++ length_prefixed (b_lit "gift") ++ length_prefixed (b_lit "A1"))
               GB_OK)
     = Raised struct_error.
Proof.
  apply (read_sbw4_missing_length_byte (interp := plain_interpreter)
           header_five magic_cbond filter_records block_50 (b_lit "gift") (b_lit "A1")
           GB_OK).
  - reflexivity.
  - reflexivity.
  - vm_compute. reflexivity.
  - exact filter_records_valid.
  - reflexivity.
  - simpl. lia.
  - simpl. lia.
  - discriminate.
Defined.

(** Three record lines, one of them short, with either kind of line end. *)
Lemma gb_doc_sbw_open_crlf_at_example :
  gb_doc_sbw_open (interp := plain_interpreter)
    (Some (with_crlf v2_three_lines_source)) GB_OK
  = gb_doc_sbw_open (interp := plain_interpreter) (Some v2_three_lines_source) GB_OK
  /\ exists doc,
       gb_doc_sbw_open (interp := plain_interpreter) (Some v2_three_lines_source) GB_OK
       = Returned (Some doc) GB_OK
       /\ map (option_map sn) (bonds doc) = [Some (s_lit "A1"); Some (s_lit "B2")].
Proof.
  split.
  - apply (gb_doc_sbw_open_crlf (interp := plain_interpreter) v2_three_lines_source
             GB_OK).
    reflexivity.
  - eexists. split; vm_compute; reflexivity.
Defined.

(** The v2 source of three record lines, one of them short: two bonds for
    the count three. *)
Lemma read_sbw2_document_shape_at_example :
  exists doc w,
    read_sbw2 (interp := plain_interpreter) (opened v2_three_lines_source GB_OK)
    = Done (Some doc) w
    /\ status_code w = GB_OK
    /\ title doc = v2_title v2_three_lines_source
    /\ (forall s, title doc <> c_dquote :: s)
    /\ (forall s, title doc <> s ++ [c_dquote])
    /\ (exists n, read_count_line (interp := plain_interpreter)
                    (v2_head_line 3 v2_three_lines_source) = Some n
                  /\ length (bonds doc) <= Z.to_nat n)
    /\ Forall bond_of_v2 (bonds doc).
Proof.
  eexists. eexists. split; [vm_compute; reflexivity|].
  refine (read_sbw2_document_shape (interp := plain_interpreter)
            v2_three_lines_source GB_OK _ _ _).
  vm_compute. reflexivity.
Defined.
